(** * piecash-scripts: historical balances, price resolution and reporting helpers

    A shallow embedding of [src/utils.py], [src/analysis.py] and
    [src/prices/ecb_fx.py], and the properties of the balance and conversion
    engine stated over it.

    Conventions of the embedding:
    - a [datetime.date] is its proleptic ordinal, an integer ([date.toordinal]);
      the difference of two dates is the difference of the ordinals;
    - the arithmetic of [decimal.Decimal] and of Python floats is an interface
      ([Numeric]); the functions are written over the interface, so whatever
      is proved of them holds for every implementation of the arithmetic, the
      IEEE one included.  Concrete runs use exact rationals in lowest terms;
    - exceptions are the [Raise] results of a small monad that also records
      the queries sent to the price table (the only observable effect of the
      code besides the conversion cache);
    - the conversion cache is the nested dict of the source,
      [dict[tuple, dict[date, float]]], a [gmap] of [gmap]s; the dict is passed
      by reference, so a call returns the state of the caller's dict next to
      its value. *)

From stdpp Require Import gmap strings list fin_maps.
From Stdlib Require Import Ascii QArith Qcanon Sorted.

#[local] Open Scope string_scope.
#[local] Open Scope list_scope.
#[local] Open Scope Z_scope.

(** ** Arithmetic *)

Class Numeric := {
  (** [decimal.Decimal]: split quantities and price values *)
  dec : Type;
  (** Python [float] (and the [int] constants mixed with it) *)
  flt : Type;
  (** the [0] that [sum] starts from, absorbed by the first Decimal *)
  dec_zero : dec;
  dec_add : dec -> dec -> dec;
  (** [1 / v] on a Decimal; [None] is [decimal.DivisionByZero] *)
  dec_recip : dec -> option dec;
  (** [float(x)] *)
  to_float : dec -> flt;
  flt_of_int : Z -> flt;
  flt_add : flt -> flt -> flt;
  flt_mul : flt -> flt -> flt;
  (** [a / b] on floats; [None] is [ZeroDivisionError] *)
  flt_div : flt -> flt -> option flt;
  (** [a < b] on floats, as the sort of a Series compares them *)
  flt_ltb : flt -> flt -> bool;
  (** truth value of a float in [if balance:] *)
  flt_truthy : flt -> bool;
  (** [float(s)] on a string; [None] is [ValueError] *)
  flt_of_string : string -> option flt;
}.

(** Exact rationals kept in lowest terms, so that equal numbers are equal
    terms. *)
Module QNum.
Definition norm (q : Q) : Q := Qred q.
Definition add (a b : Q) : Q := norm (Qplus a b).
Definition mul (a b : Q) : Q := norm (Qmult a b).
Definition is_zero (a : Q) : bool := Z.eqb (Qnum a) 0.
Definition recip (a : Q) : option Q :=
  if is_zero a then None else Some (norm (Qinv a)).
Definition div (a b : Q) : option Q :=
  if is_zero b then None else Some (norm (Qdiv a b)).
Definition of_int (z : Z) : Q := Qmake z 1.

(** Decimal integer literals only: enough for the concrete runs. *)
Fixpoint digits (s : string) (acc : Z) : option Z :=
  match s with
  | EmptyString => Some acc
  | String c s' =>
      let n := Z.of_nat (Ascii.nat_of_ascii c) - 48 in
      if (0 <=? n) && (n <=? 9) then digits s' (10 * acc + n) else None
  end.
Definition of_string (s : string) : option Q :=
  match s with
  | EmptyString => None
  | _ => of_int <$> digits s 0
  end.

#[export] Instance numeric : Numeric := {|
  dec := Q; flt := Q;
  dec_zero := of_int 0;
  dec_add := add;
  dec_recip := recip;
  to_float := norm;
  flt_of_int := of_int;
  flt_add := add;
  flt_mul := mul;
  flt_div := div;
  flt_ltb := fun a b => match Qcompare a b with Lt => true | _ => false end;
  flt_truthy := fun a => negb (is_zero a);
  flt_of_string := of_string;
|}.
End QNum.

(** Exact rationals as canonical fractions: addition is that of a field. *)
Module QcNum.
Definition is_zero (a : Qc) : bool := Z.eqb (Qnum (this a)) 0.
Definition of_int (z : Z) : Qc := Q2Qc (inject_Z z).
Definition recip (a : Qc) : option Qc :=
  if is_zero a then None else Some (Qcinv a).
Definition div (a b : Qc) : option Qc :=
  if is_zero b then None else Some (Qcdiv a b).
Definition of_string (s : string) : option Qc :=
  match s with
  | EmptyString => None
  | _ => of_int <$> QNum.digits s 0
  end.

Definition numeric : Numeric := {|
  dec := Qc; flt := Qc;
  dec_zero := of_int 0;
  dec_add := Qcplus;
  dec_recip := recip;
  to_float := fun q => q;
  flt_of_int := of_int;
  flt_add := Qcplus;
  flt_mul := Qcmult;
  flt_div := div;
  flt_ltb := fun a b => match Qccompare a b with Lt => true | _ => false end;
  flt_truthy := fun a => negb (is_zero a);
  flt_of_string := of_string;
|}.
End QcNum.

(** ** Exceptions and the effect monad *)

Abbreviation date := Z (only parsing).

(** [piecash.Commodity]: a currency or a security, identified by its
    mnemonic. *)
Record Commodity := mkCommodity { mnemonic : string }.

#[export] Instance Commodity_eq_dec : EqDecision Commodity.
Proof. solve_decision. Defined.

#[export] Instance Commodity_countable : Countable Commodity.
Proof.
  refine (inj_countable' mnemonic mkCommodity _).
  intros []; reflexivity.
Defined.

Inductive Exn :=
| PriceNotFoundError (commodity currency : Commodity)
| GncConversionError
| ZeroDivisionError
| AttributeError (attr : string)
| KeyError (key : string)
| TypeError (keyword : string)
| ValueError
| BadDataError.

Inductive Result (A : Type) :=
| Ok (a : A)
| Raise (e : Exn).
Arguments Ok {A} a.
Arguments Raise {A} e.

(** The queries the code sends to the price table: [q.count()] and the
    iteration over [q], for the query of the prices of [commodity] quoted in
    [currency]. *)
Inductive Query :=
| QCount (commodity currency : Commodity)
| QFetch (commodity currency : Commodity).

Definition M (A : Type) : Type := (Result A * list Query)%type.

#[export] Instance M_ret : MRet M := fun A a => (Ok a, []).
#[export] Instance M_bind : MBind M := fun A B f m =>
  match m with
  | (Ok a, l) => let '(r, l') := f a in (r, l ++ l')
  | (Raise e, l) => (Raise e, l)
  end.

Definition raise {A} (e : Exn) : M A := (Raise e, []).
Definition emit (q : Query) : M unit := (Ok tt, [q]).

(** what the caller sees of a call: its value or its exception *)
Definition outcome {A} (m : M A) : Result A := m.1.
(** the queries a call has sent *)
Definition queries {A} (m : M A) : list Query := m.2.

(** ** Prices and the conversion cache (utils.py) *)

(** The conversion cache: [dict[tuple, dict[date, float]]]. *)
Abbreviation Cache := (gmap (Commodity * Commodity) (gmap Z flt)).

Section Engine.
Context {N : Numeric}.

Record Price := mkPrice {
  price_commodity : Commodity;
  price_currency : Commodity;
  price_date : date;
  price_value : dec;
}.

(** The price table of the book, as [commodity.prices] reads it. *)
Variable prices : list Price.

(** [ORDER BY date ASC] *)
Fixpoint insert_by_date (p : Price) (l : list Price) : list Price :=
  match l with
  | [] => [p]
  | q :: l' =>
      if price_date p <? price_date q then p :: q :: l'
      else q :: insert_by_date p l'
  end.

Definition order_by_date (l : list Price) : list Price :=
  foldr insert_by_date [] l.

(** [commodity.prices.filter_by(currency=currency).order_by(Price.date.asc())] *)
Definition prices_query (commodity currency : Commodity) : list Price :=
  order_by_date
    (filter (fun p => price_commodity p = commodity /\ price_currency p = currency)
       prices).

(** [abs(p.date - on_date)], in days *)
Definition distance (on_date : date) (p : Price) : Z :=
  Z.abs (price_date p - on_date).

(** [min(rows, key=...)]: the first row whose key is the least. *)
Fixpoint min_from (key : Price -> Z) (best : Price) (l : list Price) : Price :=
  match l with
  | [] => best
  | p :: l' => min_from key (if key p <? key best then p else best) l'
  end.

Definition py_min (key : Price -> Z) (l : list Price) : option Price :=
  match l with
  | [] => None
  | p :: l' => Some (min_from key p l')
  end.

(** [on_date in cache.get(pair, {})] and then [cache[pair][on_date]] *)
Definition cache_get (closest_conv_cache : option Cache)
    (pair : Commodity * Commodity) (on_date : date) : option flt :=
  match closest_conv_cache with
  | None => None
  | Some c => default ∅ (c !! pair) !! on_date
  end.

(** [if pair not in cache: cache[pair] = {}], [cache[pair][on_date] = closest] *)
Definition cache_put (closest_conv_cache : option Cache)
    (pair : Commodity * Commodity) (on_date : date) (closest : flt)
  : option Cache :=
  match closest_conv_cache with
  | None => None
  | Some c => Some (<[pair := <[on_date := closest]> (default ∅ (c !! pair))]> c)
  end.

(** [q.count()] followed, when it is not zero, by [min(q, key=...)] *)
Definition closest_of (commodity currency : Commodity) (on_date : date)
  : M (option Price) :=
  _ ← emit (QCount commodity currency);
  let rows := prices_query commodity currency in
  if (0 <? Z.of_nat (length rows)) then
    _ ← emit (QFetch commodity currency);
    mret (py_min (distance on_date) rows)
  else mret None.

Definition recip_value (p : Price) : M dec :=
  match dec_recip (price_value p) with
  | Some r => mret r
  | None => raise ZeroDivisionError
  end.

(** The search of lines 69-99: from the two queries to [float(closest)]. *)
Definition price_search (commodity currency : Commodity) (on_date : date)
  : M flt :=
  closest_forward ← closest_of commodity currency on_date;
  closest_reverse ← closest_of currency commodity on_date;
  closest ←
    match closest_forward, closest_reverse with
    | None, None => raise (PriceNotFoundError commodity currency)
    | Some f, None => mret (price_value f)
    | None, Some r => recip_value r
    | Some f, Some r =>
        if distance on_date f <=? distance on_date r
        then mret (price_value f)
        else recip_value r
    end;
  mret (to_float closest).

Definition currency_conversion_on_date (commodity currency : Commodity)
    (on_date : date) (closest_conv_cache : option Cache)
  : M (flt * option Cache) :=
  let pair := (commodity, currency) in
  if decide (commodity = currency) then mret (flt_of_int 1, closest_conv_cache)
  else
    match cache_get closest_conv_cache pair on_date with
    | Some cached => mret (cached, closest_conv_cache)
    | None =>
        closest ← price_search commodity currency on_date;
        mret (closest, cache_put closest_conv_cache pair on_date closest)
    end.

(** ** Accounts and the historical balance (utils.py) *)

(** A split with the post date of its transaction
    ([sp.transaction.post_date]). *)
Record Split := mkSplit {
  quantity : dec;
  post_date : date;
}.

(** [piecash.Account].  [parent_commodity] is [account.parent.commodity]:
    [None] when [account.parent] is [None]. *)
#[warnings="-register-all"]
Inductive Account := mkAccount {
  name : string;
  commodity : Commodity;
  sign : Z;
  parent_commodity : option Commodity;
  splits : list Split;
  children : list Account;
}.

(** piecash's own [Commodity.currency_conversion] (latest price), library
    code: [None] is its [GncConversionError]. *)
Variable currency_conversion : Commodity -> Commodity -> option dec.

Definition gnc_factor (c1 c2 : Commodity) : M flt :=
  match currency_conversion c1 c2 with
  | Some f => mret (to_float f)
  | None => raise GncConversionError
  end.

(** [except (PriceNotFoundError, GncConversionError):] *)
Definition try_except {A} (body handler : M A) : M A :=
  match body with
  | (Raise (PriceNotFoundError _ _), l) | (Raise GncConversionError, l) =>
      let '(r, l') := handler in (r, l ++ l')
  | _ => body
  end.

(** [account.parent.commodity] *)
Definition parent_commodity_of (account : Account) : M Commodity :=
  match parent_commodity account with
  | Some c => mret c
  | None => raise (AttributeError "commodity")
  end.

(** [sum(...)] on Decimals starts from the int [0]. *)
Definition sum_dec (l : list dec) : dec := foldl dec_add dec_zero l.

(** lines 127-137 *)
Definition splits_balance (account : Account) (at_date : option date) : flt :=
  to_float
    (sum_dec
       (quantity <$>
          match at_date with
          | None => splits account
          | Some d => filter (fun sp => post_date sp <= d) (splits account)
          end)).

(** lines 138-158, entered when [commodity != account.commodity] *)
Definition convert_balance (account : Account) (target : Commodity)
    (at_date : option date) (balance : flt) (closest_conv_cache : option Cache)
  : M (flt * option Cache) :=
  match at_date with
  | Some d =>
      let cache := Some (default ∅ closest_conv_cache) in
      try_except
        ('(factor, cache) ←
           currency_conversion_on_date (commodity account) target d cache;
         mret (flt_mul balance factor, cache))
        (parent ← parent_commodity_of account;
         '(factor1, cache) ←
           currency_conversion_on_date (commodity account) parent d cache;
         '(factor2, cache) ←
           currency_conversion_on_date parent target d cache;
         let factor := flt_mul factor1 factor2 in
         mret (flt_mul balance factor, cache))
  | None =>
      try_except
        (factor ← gnc_factor (commodity account) target;
         mret (flt_mul balance factor, closest_conv_cache))
        (parent ← parent_commodity_of account;
         factor1 ← gnc_factor (commodity account) parent;
         factor2 ← gnc_factor parent target;
         let factor := flt_mul factor1 factor2 in
         mret (flt_mul balance factor, closest_conv_cache))
  end.

(** [sum(f(acc) for acc in accounts)] where the calls share one cache: the
    running total starts from the int [0]. *)
Fixpoint sum_over {A} (f : A -> option Cache -> M (flt * option Cache))
    (l : list A) (total : flt) (cache : option Cache)
  : M (flt * option Cache) :=
  match l with
  | [] => mret (total, cache)
  | a :: l' =>
      '(b, cache) ← f a cache;
      sum_over f l' (flt_add total b) cache
  end.

(** The result pairs the returned float with the state in which the call
    leaves the dict the caller passed ([None] when the caller passed none: a
    dict created inside the call is not seen by the caller). *)
Fixpoint get_historical_balance (account : Account) (recurse : bool)
    (target : option Commodity) (natural_sign : bool) (at_date : option date)
    (closest_conv_cache : option Cache) {struct account}
  : M (flt * option Cache) :=
  let target := default (commodity account) target in
  let balance := splits_balance account at_date in
  '(balance, cache) ←
    (if decide (target ≠ commodity account)
     then convert_balance account target at_date balance closest_conv_cache
     else mret (balance, closest_conv_cache));
  '(balance, cache) ←
    (if recurse && negb (bool_decide (children account = []))
     then
       '(s, cache) ←
         sum_over
           (fun acc cache =>
              get_historical_balance acc recurse (Some target) false at_date cache)
           (children account) (flt_of_int 0) cache;
       mret (flt_add balance s, cache)
     else mret (balance, cache));
  let result :=
    if natural_sign then flt_mul balance (flt_of_int (sign account)) else balance in
  mret (result, match closest_conv_cache with None => None | Some _ => cache end).

End Engine.

(** ** The aggregation layer (analysis.py) *)

Section Analysis.
Context {N : Numeric}.
Variable prices : list Price.
Variable currency_conversion : Commodity -> Commodity -> option dec.

(** [BookAnalysis]: the book's commodities and its root account. *)
Record BookAnalysis := mkBookAnalysis {
  book_commodities : list Commodity;
  root_account : Account;
}.

(** [s.split(':')] *)
Fixpoint split_colon (s : string) : list string :=
  match s with
  | EmptyString => [EmptyString]
  | String c s' =>
      if Ascii.eqb c ":"%char then EmptyString :: split_colon s'
      else
        match split_colon s' with
        | t :: ts => String c t :: ts
        | [] => [String c EmptyString]
        end
  end.

(** [account.children(name=t)]: the first child of that name, or [KeyError] *)
Definition child_named (account : Account) (t : string) : M Account :=
  match List.find (fun a => bool_decide (name a = t)) (children account) with
  | Some a => mret a
  | None => raise (KeyError t)
  end.

Fixpoint walk (account : Account) (tokens : list string) : M Account :=
  match tokens with
  | [] => mret account
  | t :: tokens' => account ← child_named account t; walk account tokens'
  end.

Definition get_account (self : BookAnalysis) (full_name : string) : M Account :=
  walk (root_account self) (split_colon full_name).

(** A target currency as the public methods take it: an ISO code or a
    commodity. *)
Inductive CurrencyArg :=
| ByCode (code : string)
| ByCommodity (c : Commodity).

(** [self.book.commodities(mnemonic=currency)] when [currency] is a string *)
Definition resolve_currency (self : BookAnalysis) (currency : option CurrencyArg)
  : M (option Commodity) :=
  match currency with
  | None => mret None
  | Some (ByCommodity c) => mret (Some c)
  | Some (ByCode code) =>
      match List.find (fun c => bool_decide (mnemonic c = code)) (book_commodities self) with
      | Some c => mret (Some c)
      | None => raise (KeyError code)
      end
  end.

(** The parameters in the signature of [get_historical_balance]
    (utils.py, lines 107-109). *)
Definition get_historical_balance_params : list string :=
  ["account"; "recurse"; "commodity"; "natural_sign"; "at_date";
   "closest_conv_cache"].

(** A call binds its keywords to the parameters of the callee before the body
    runs; a keyword that names no parameter raises [TypeError]. *)
Definition bind_keywords (params keywords : list string) : M unit :=
  match filter (fun k => k ∉ params) keywords with
  | [] => mret tt
  | k :: _ => raise (TypeError k)
  end.

(** [sum(f(a) for a in l)] *)
Fixpoint sum_calls {A} (f : A -> M flt) (l : list A) (total : flt) : M flt :=
  match l with
  | [] => mret total
  | a :: l' => b ← f a; sum_calls f l' (flt_add total b)
  end.

(** lines 72-79: the call passes [commodity], [at_date], [via] and
    [natural_sign] by keyword. *)
Definition agg_balance (self : BookAnalysis) (account_names : list string)
    (currency : Commodity) (via : option Commodity) (at_date : option date)
  : M flt :=
  sum_calls
    (fun a =>
       account ← get_account self a;
       _ ← bind_keywords get_historical_balance_params
             ["commodity"; "at_date"; "via"; "natural_sign"];
       '(balance, _) ←
         get_historical_balance prices currency_conversion
           account true (Some currency) false at_date None;
       mret balance)
    account_names (flt_of_int 0).

(** [a.add(b, fill_value=0)] on two Series: the union of the labels, a
    missing value counting as [0]. *)
Definition series_add (a b : gmap string flt) : gmap string flt :=
  merge
    (fun x y =>
       match x, y with
       | Some x, Some y => Some (flt_add x y)
       | Some x, None => Some (flt_add x (flt_of_int 0))
       | None, Some y => Some (flt_add (flt_of_int 0) y)
       | None, None => None
       end) a b.

(** [for child in children: series = series.add(f(child), fill_value=0)] *)
Fixpoint add_all {A} (f : A -> M (gmap string flt)) (l : list A)
    (series : gmap string flt) : M (gmap string flt) :=
  match l with
  | [] => mret series
  | a :: l' => s ← f a; add_all f l' (series_add series s)
  end.

(** lines 217-231, after the target currency has been resolved (the
    recursive calls pass the resolved commodity on). *)
Fixpoint balance_by_currency_of (account : Account) (at_date : option date)
    (currency : option Commodity) {struct account} : M (gmap string flt) :=
  '(balance, _) ←
    get_historical_balance prices currency_conversion
      account false currency true at_date None;
  let total_balances : gmap string flt :=
    if flt_truthy balance
    then {[ mnemonic (commodity account) := flt_add (flt_of_int 0) balance ]}
    else ∅ in
  add_all (fun child => balance_by_currency_of child at_date currency)
    (children account) total_balances.

Definition balance_by_currency (self : BookAnalysis) (account : Account)
    (at_date : option date) (currency : option CurrencyArg)
  : M (gmap string flt) :=
  currency ← resolve_currency self currency;
  balance_by_currency_of account at_date currency.

End Analysis.

(** ** The top-N reducer (utils.py) *)

(** A [pandas.Series]: labels with their values, in index order. *)
Abbreviation Series := (list (string * flt)).

Section TopAndOther.
Context {N : Numeric}.

(** A [pandas.DataFrame]: the row index (dates) and the columns in order, each
    with one value per row. *)
Record DataFrame := mkDataFrame {
  df_index : list date;
  df_columns : list (string * list flt);
}.

Inductive Data :=
| ASeries (s : Series)
| AFrame (df : DataFrame).

(** [sum()] of numeric values; the sum of nothing is [0]. *)
Definition sum_values (l : list flt) : flt := foldl flt_add (flt_of_int 0) l.

(** [df.sum()]: the total of each column *)
Definition column_sums (df : DataFrame) : Series :=
  (fun col => (col.1, sum_values col.2)) <$> df_columns df.

(** [df.sum(axis=1)]: the total of each row *)
Definition row_sums (df : DataFrame) : list flt :=
  foldl (fun acc col => zip_with flt_add acc col.2)
    (replicate (length (df_index df)) (flt_of_int 0)) (df_columns df).

(** [sort_values(ascending=False)] *)
Fixpoint insert_desc (kv : string * flt) (l : Series) : Series :=
  match l with
  | [] => [kv]
  | x :: l' =>
      if flt_ltb x.2 kv.2 then kv :: x :: l' else x :: insert_desc kv l'
  end.

Definition sort_values_desc (s : Series) : Series := foldr insert_desc [] s.

(** [l[:n]] and [l[n:]], a negative [n] counting from the end *)
Definition slice_to {A} (n : Z) (l : list A) : list A :=
  if 0 <=? n then take (Z.to_nat n) l
  else take (Z.to_nat (Z.of_nat (length l) + n)) l.

Definition slice_from {A} (n : Z) (l : list A) : list A :=
  if 0 <=? n then drop (Z.to_nat n) l
  else drop (Z.to_nat (Z.of_nat (length l) + n)) l.

(** [data[labels]]: the entries under each of the labels, in the order of
    the labels *)
Definition select {V} (data : list (string * V)) (labels : list string)
  : list (string * V) :=
  flat_map (fun l => filter (fun kv => kv.1 = l) data) labels.

(** [data[label] = v]: overwrites the entry of that label where there is one,
    adds it at the end otherwise *)
Definition set_item {V} (data : list (string * V)) (label : string) (v : V)
  : list (string * V) :=
  if bool_decide (label ∈ data.*1)
  then (fun kv => if bool_decide (kv.1 = label) then (label, v) else kv) <$> data
  else data ++ [(label, v)].

Definition top_and_other (in_data : Data) (top_n : Z) : Data :=
  match in_data with
  | AFrame df =>
      let totals := column_sums df in
      let sorted_col_names := (sort_values_desc totals).*1 in
      let top_col_names := slice_to top_n sorted_col_names in
      let other_col_names := slice_from top_n sorted_col_names in
      let top_cols := select (df_columns df) top_col_names in
      let other :=
        row_sums (mkDataFrame (df_index df) (select (df_columns df) other_col_names)) in
      AFrame (mkDataFrame (df_index df) (set_item top_cols "Other" other))
  | ASeries s =>
      let totals := s in
      let sorted_col_names := (sort_values_desc totals).*1 in
      let top_col_names := slice_to top_n sorted_col_names in
      let other_col_names := slice_from top_n sorted_col_names in
      let top_cols := select s top_col_names in
      ASeries (set_item top_cols "Other" (sum_values (select s other_col_names).*2))
  end.

(** The total of each row of a table, and of the single row a Series is. *)
Definition row_totals (d : Data) : list flt :=
  match d with
  | ASeries s => [sum_values s.*2]
  | AFrame df => row_sums df
  end.

End TopAndOther.

(** ** ECB exchange-rate history (prices/ecb_fx.py) *)

Section EcbFx.
Context {N : Numeric}.

(** An [xml.etree.ElementTree.Element]: the qualified tag, the attributes and
    the child elements. *)
#[warnings="-register-all"]
Inductive Element := mkElement {
  tag : string;
  attrib : gmap string string;
  elements : list Element;
}.

(** ['ecb:Cube'] under [ECB_NS] *)
Definition ecb_Cube : string :=
  "{http://www.ecb.int/vocabulary/2002-08-01/eurofxref}Cube".

(** [e.find('ecb:Cube')] and [e.findall('ecb:Cube')]: among the children *)
Definition findall_children (e : Element) : list Element :=
  filter (fun c => tag c = ecb_Cube) (elements e).

Definition find_child (e : Element) : option Element :=
  head (findall_children e).

(** [e.findall('.//ecb:Cube')]: among all the descendants, in document order *)
Fixpoint descendants (e : Element) : list Element :=
  flat_map (fun c => c :: descendants c) (elements e).

Definition findall_descendants (e : Element) : list Element :=
  filter (fun c => tag c = ecb_Cube) (descendants e).

(** [attrib[key]] *)
Definition attr (e : Element) (key : string) : M string :=
  match attrib e !! key with
  | Some v => mret v
  | None => raise (KeyError key)
  end.

Definition float_of_string (s : string) : M flt :=
  match flt_of_string s with
  | Some f => mret f
  | None => raise ValueError
  end.

Definition divide (a b : flt) : M flt :=
  match flt_div a b with
  | Some f => mret f
  | None => raise ZeroDivisionError
  end.

Definition EUR : Commodity := mkCommodity "EUR".

(** The loop of [ecb_fx_rate_from_eur] over the cubes found. *)
Fixpoint rate_in (cubes : list Element) (currency : string) : M flt :=
  match cubes with
  | [] => raise (PriceNotFoundError EUR (mkCommodity currency))
  | c :: cubes' =>
      cur ← attr c "currency";
      if bool_decide (cur = currency)
      then rate ← attr c "rate"; float_of_string rate
      else rate_in cubes' currency
  end.

Definition ecb_fx_rate_from_eur (xml_cube : Element) (currency : string) : M flt :=
  rate_in (findall_descendants xml_cube) currency.

Definition ecb_fx_rate (xml_cube : Element) (to_currency from_currency : string)
  : M flt :=
  if bool_decide (to_currency = from_currency) then mret (flt_of_int 1)
  else if bool_decide (from_currency = "EUR")
  then ecb_fx_rate_from_eur xml_cube to_currency
  else if bool_decide (to_currency = "EUR")
  then r ← ecb_fx_rate_from_eur xml_cube from_currency; divide (flt_of_int 1) r
  else
    a ← ecb_fx_rate_from_eur xml_cube to_currency;
    b ← ecb_fx_rate_from_eur xml_cube from_currency;
    divide a b.

(** [datetime.strptime(s, '%Y-%m-%d').date()], library code: [None] is its
    [ValueError]. *)
Variable strptime_date : string -> option date.

Definition parse_date (s : string) : M date :=
  match strptime_date s with
  | Some d => mret d
  | None => raise ValueError
  end.

(** [try: ... except PriceNotFoundError as e: warn(...)]: the warning is
    printed and the loop goes on. *)
Definition or_warn {A} (body : M A) (otherwise : A) : M A :=
  match body with
  | (Raise (PriceNotFoundError _ _), l) => (Ok otherwise, l)
  | _ => body
  end.

(** The loop of lines 82-89 over the date cubes. *)
Fixpoint rate_range_loop (date_cubes : list Element) (start_date end_date : date)
    (to_currency from_currency : string) (exclude_dates : gset Z)
    (results : gmap Z flt) : M (gmap Z flt) :=
  match date_cubes with
  | [] => mret results
  | date_cube :: rest =>
      time ← attr date_cube "time";
      _date ← parse_date time;
      results ←
        (if bool_decide (start_date < _date <= end_date)
            && negb (bool_decide (_date ∈ exclude_dates))
         then
           or_warn
             (rate ← ecb_fx_rate date_cube to_currency from_currency;
              mret (<[_date := rate]> results))
             results
         else mret results);
      rate_range_loop rest start_date end_date to_currency from_currency
        exclude_dates results
  end.

Definition ecb_fx_rate_range (xml_root : Element) (start_date end_date : date)
    (to_currency from_currency : string) (exclude_dates : option (gset Z))
  : M (gmap Z flt) :=
  let exclude_dates := default ∅ exclude_dates in
  match find_child xml_root with
  | None => raise BadDataError
  | Some top_cube =>
      rate_range_loop (findall_children top_cube) start_date end_date
        to_currency from_currency exclude_dates ∅
  end.

End EcbFx.

(** ** Notions used in the statements *)

#[export] Instance Result_ret : MRet Result := fun A a => Ok a.
#[export] Instance Result_bind : MBind Result := fun A B f r =>
  match r with
  | Ok a => f a
  | Raise e => Raise e
  end.

#[export] Instance Result_fmap : FMap Result := fun A B f r =>
  match r with
  | Ok a => Ok (f a)
  | Raise e => Raise e
  end.

(** the float a call returns, the state of the cache left aside *)
Definition returned {A B} (m : M (A * B)) : Result A :=
  '(a, _) ← outcome m; Ok a.

Section Notions.
Context {N : Numeric}.
Variable prices : list Price.

(** The factor the price table gives, cache or no cache. *)
Definition rate (commodity currency : Commodity) (on_date : date) : Result flt :=
  if decide (commodity = currency) then Ok (flt_of_int 1)
  else outcome (price_search prices commodity currency on_date).

(** A cache is coherent with the price table when each factor it holds is
    the one the search finds. *)
Definition coherent (cache : option Cache) : Prop :=
  forall commodity currency on_date v,
    commodity ≠ currency ->
    cache_get cache (commodity, currency) on_date = Some v ->
    outcome (price_search prices commodity currency on_date) = Ok v.

End Notions.

Section BalanceNotions.
Context {N : Numeric}.
Variable prices : list Price.
Variable currency_conversion : Commodity -> Commodity -> option dec.

(** [sum(f(a) for a in l)] on results *)
Fixpoint sum_results {A} (f : A -> Result flt) (l : list A) (total : flt)
  : Result flt :=
  match l with
  | [] => Ok total
  | a :: l' => b ← f a; sum_results f l' (flt_add total b)
  end.

(** Lines 160-171 of [get_historical_balance], for a balance already
    converted. *)
Definition add_children (account : Account) (recurse : bool)
    (target : Commodity) (at_date : option date) (balance : flt)
    (cache : option Cache) : M (flt * option Cache) :=
  if recurse && negb (bool_decide (children account = []))
  then
    '(s, cache) ←
      sum_over
        (fun acc cache =>
           get_historical_balance prices currency_conversion
             acc recurse (Some target) false at_date cache)
        (children account) (flt_of_int 0) cache;
    mret (flt_add balance s, cache)
  else mret (balance, cache).

(** Lines 173-176. *)
Definition with_sign (account : Account) (natural_sign : bool) (balance : flt)
  : flt :=
  if natural_sign then flt_mul balance (flt_of_int (sign account)) else balance.

(** What the caller's dict holds when the call returns. *)
Definition caller_view (passed now : option Cache) : option Cache :=
  match passed with None => None | Some _ => now end.

(** *** The balance without a cache

    The same computation, every factor read from the price table. *)

Definition try_except_pure {A} (body handler : Result A) : Result A :=
  match body with
  | Raise (PriceNotFoundError _ _) | Raise GncConversionError => handler
  | _ => body
  end.

Definition convert_pure (account : Account) (target : Commodity)
    (at_date : option date) (balance : flt) : Result flt :=
  let factor_of c1 c2 :=
    match at_date with
    | Some d => rate prices c1 c2 d
    | None => outcome (gnc_factor currency_conversion c1 c2)
    end in
  try_except_pure
    (factor ← factor_of (commodity account) target;
     Ok (flt_mul balance factor))
    (parent ← outcome (parent_commodity_of account);
     factor1 ← factor_of (commodity account) parent;
     factor2 ← factor_of parent target;
     Ok (flt_mul balance (flt_mul factor1 factor2))).

Fixpoint balance_of (account : Account) (recurse : bool)
    (target : option Commodity) (natural_sign : bool) (at_date : option date)
    {struct account} : Result flt :=
  let target := default (commodity account) target in
  let balance := splits_balance account at_date in
  balance ←
    (if decide (target ≠ commodity account)
     then convert_pure account target at_date balance
     else Ok balance);
  balance ←
    (if recurse && negb (bool_decide (children account = []))
     then
       s ← sum_results
              (fun acc => balance_of acc recurse (Some target) false at_date)
              (children account) (flt_of_int 0);
       Ok (flt_add balance s)
     else Ok balance);
  Ok (with_sign account natural_sign balance).

(** A call refines a result when it returns the same float, or raises the
    same exception, and leaves a coherent cache. *)
Definition refines (m : M (flt * option Cache)) (r : Result flt) : Prop :=
  match outcome m, r with
  | Ok (v, cache), Ok v' => v = v' /\ coherent prices cache
  | Raise e, Raise e' => e = e'
  | _, _ => False
  end.

(** The accounts of a subtree, the root first. *)
Fixpoint subtree (account : Account) : list Account :=
  account :: flat_map subtree (children account).

End BalanceNotions.

(** *** Inputs of the top-N reducer

    The labels of a Series, or of the columns of a table, are distinct, and
    each column of a table has one value per row. *)

Section ReducerNotions.
Context {N : Numeric}.

Definition well_formed (in_data : Data) : Prop :=
  match in_data with
  | ASeries s => NoDup s.*1
  | AFrame df =>
      NoDup (df_columns df).*1 /\
      Forall (fun col => length col.2 = length (df_index df)) (df_columns df)
  end.

(** The labels in the order of [sorted_col_names]. *)
Definition sorted_labels (in_data : Data) : list string :=
  match in_data with
  | ASeries s => (sort_values_desc s).*1
  | AFrame df => (sort_values_desc (column_sums df)).*1
  end.

(** No retained category is itself labelled "Other". *)
Definition no_clash (in_data : Data) (top_n : Z) : Prop :=
  "Other" ∉ slice_to top_n (sorted_labels in_data).

(** The labels of a Series, the column labels of a table. *)
Definition labels (in_data : Data) : list string :=
  match in_data with
  | ASeries s => s.*1
  | AFrame df => (df_columns df).*1
  end.

(** The value of the first entry is not less than the value of the second. *)
Definition not_less (a b : string * flt) : Prop := flt_ltb a.2 b.2 = false.

End ReducerNotions.

(** The order of the rows of a query. *)
Definition by_date `{N : Numeric} (p q : Price) : Prop :=
  price_date p <= price_date q.

(** ** Stepped dates and series over time (utils.py, analysis.py) *)

(** For the addition of days a date is its day number as [date.toordinal]
    counts it: day 1 is [date.min], the first date there is, and day 3652059
    is [date.max], the last one (9999-12-31). *)
Definition date_min : Z := 1.
Definition date_max : Z := 3652059.

(** [d + step], where [step] is the number of days of the [timedelta]
    (adding a [timedelta] to a [date] uses its days only).  [None] is the
    [OverflowError] of a result that is no date. *)
Definition date_add (d step : Z) : option date :=
  if (date_min <=? d + step) && (d + step <=? date_max)
  then Some (d + step)
  else None.

(** How a generator ends: at its last line, or by the [OverflowError] of
    [d += step]. *)
Inductive Ended := Exhausted | Overflowed.

(** [date_range]: the dates the generator yields, and how it ends.  The loop
    need not stop: [fuel] bounds the number of tests of [d < end], and [None]
    is a loop still running when the fuel is spent. *)
Fixpoint date_range (fuel : nat) (d end_date : date) (step : Z)
  : option (list date * Ended) :=
  match fuel with
  | O => None
  | S fuel' =>
      if d <? end_date
      then
        match date_add d step with
        | None => Some ([d], Overflowed)
        | Some d' =>
            prod_map (cons d) id <$> date_range fuel' d' end_date step
        end
      else Some ([], Exhausted)
  end.

(** The number of dates of a range of positive step: the least [n] with
    [end <= start + n * step]. *)
Definition steps (start end_date step : Z) : nat :=
  Z.to_nat ((end_date - start + step - 1) / step).

(** [start, start + step, ...]: [n] dates *)
Definition progression (start step : Z) (n : nat) : list date :=
  (fun i => start + Z.of_nat i * step) <$> seq 0 n.

(** How a range of [n] dates of positive step ends: the step after the last
    date is taken before the test that stops the loop. *)
Definition range_end (start step : Z) (n : nat) : Ended :=
  if (0 <? Z.of_nat n) && (date_max <? start + Z.of_nat n * step)
  then Overflowed
  else Exhausted.

(** The number of dates from [start] down to the first date there is, for a
    negative step. *)
Definition steps_down (start step : Z) : nat :=
  Z.to_nat ((start - date_min) / (- step) + 1).

(** What the caller of a loop over [date_range] sees, given the effects of
    the turns of the loop and how the generator ended: the value returned
    after the loop, the exception of a turn, or the [OverflowError] of the
    generator. *)
Inductive Seen (A : Type) :=
| Returns (a : A)
| Raises (e : Exn)
| RaisesOverflowError.
Arguments Returns {A} a.
Arguments Raises {A} e.
Arguments RaisesOverflowError {A}.

Definition seen {A} (r : M A * Ended) : Seen A :=
  match outcome r.1, r.2 with
  | Raise e, _ => Raises e
  | Ok a, Exhausted => Returns a
  | Ok _, Overflowed => RaisesOverflowError
  end.

Section OverTime.
Context {N : Numeric}.
Variable prices : list Price.
Variable currency_conversion : Commodity -> Commodity -> option dec.

(** [for d in date_range(start, end, step): index.append(d);
    data.append(f(d))] and then [pd.Series(data, index)]: the generator is
    resumed after each turn of the body, so an exception of the body ends the
    loop at once, and the step is added after the body has run.  The result
    is read with [seen]. *)
Fixpoint series_over_time {A} (f : date -> M A) (fuel : nat) (d end_date : date)
    (step : Z) : option (M (list (date * A)) * Ended) :=
  match fuel with
  | O => None
  | S fuel' =>
      if d <? end_date
      then
        match f d with
        | (Raise e, l) => Some ((Raise e, l), Exhausted)
        | (Ok _, _) =>
            match date_add d step with
            | None => Some (a ← f d; mret [(d, a)], Overflowed)
            | Some d' =>
                match series_over_time f fuel' d' end_date step with
                | None => None
                | Some (rest, ended) =>
                    Some (a ← f d; series ← rest; mret ((d, a) :: series),
                          ended)
                end
            end
        end
      else Some (mret [], Exhausted)
  end.

(** The same loop over dates already listed. *)
Fixpoint series_at {A} (f : date -> M A) (dates : list date)
  : M (list (date * A)) :=
  match dates with
  | [] => mret []
  | d :: dates' => a ← f d; series ← series_at f dates'; mret ((d, a) :: series)
  end.

(** analysis.py, lines 167-186 *)
Definition balance_over_time (self : BookAnalysis) (account_name : string)
    (fuel : nat) (start end_date : date) (step : Z)
    (currency : option CurrencyArg)
  : option (M (list (date * flt)) * Ended) :=
  match resolve_currency self currency with
  | (Raise e, l) => Some ((Raise e, l), Exhausted)
  | (Ok currency, _) =>
      series_over_time
        (fun d =>
           account ← get_account self account_name;
           '(balance, _) ←
             get_historical_balance prices currency_conversion
               account true currency true (Some d) None;
           mret balance)
        fuel start end_date step
  end.

(** [agg_balance] as [agg_balance_over_time] calls it: by position, the
    currency possibly [None]. *)
Definition agg_balance_at (self : BookAnalysis) (account_names : list string)
    (currency : option Commodity) (via : option Commodity)
    (at_date : option date) : M flt :=
  sum_calls
    (fun a =>
       account ← get_account self a;
       _ ← bind_keywords get_historical_balance_params
             ["commodity"; "at_date"; "via"; "natural_sign"];
       '(balance, _) ←
         get_historical_balance prices currency_conversion
           account true currency false at_date None;
       mret balance)
    account_names (flt_of_int 0).

(** analysis.py, lines 144-165 *)
Definition agg_balance_over_time (self : BookAnalysis)
    (account_names : list string) (fuel : nat) (start end_date : date)
    (step : Z) (currency : option CurrencyArg) (via : option Commodity)
  : option (M (list (date * flt)) * Ended) :=
  match resolve_currency self currency with
  | (Raise e, l) => Some ((Raise e, l), Exhausted)
  | (Ok currency, _) =>
      series_over_time
        (fun d => agg_balance_at self account_names currency via (Some d))
        fuel start end_date step
  end.

(** ** Balances of several accounts (analysis.py) *)

(** The loop of [balances] (lines 66-69): the dict is keyed by [acct.name],
    the last part of the full name. *)
Fixpoint balances_loop (self : BookAnalysis) (account_names : list string)
    (at_date : option date) (currency : option Commodity) (balances : Series)
  : M Series :=
  match account_names with
  | [] => mret balances
  | full_name :: account_names' =>
      acct ← get_account self full_name;
      '(balance, _) ←
        get_historical_balance prices currency_conversion
          acct true currency true at_date None;
      balances_loop self account_names' at_date currency
        (set_item balances (name acct) balance)
  end.

Definition balances (self : BookAnalysis) (account_names : list string)
    (at_date : option date) (currency : option CurrencyArg) : M Series :=
  currency ← resolve_currency self currency;
  balances_loop self account_names at_date currency [].

(** [for code in acct_balances.index:
       total[code] = total.get(code, 0) + acct_balances[code]] *)
Definition accumulate (total acct_balances : gmap string flt) : gmap string flt :=
  merge
    (fun t v =>
       match v with
       | Some v => Some (flt_add (default (flt_of_int 0) t) v)
       | None => t
       end) total acct_balances.

(** The loop of [agg_balance_by_currency] (lines 246-250). *)
Fixpoint agg_by_currency_loop (self : BookAnalysis) (account_names : list string)
    (at_date : option date) (currency : option Commodity)
    (total_balances : gmap string flt) : M (gmap string flt) :=
  match account_names with
  | [] => mret total_balances
  | acct_name :: account_names' =>
      acct ← get_account self acct_name;
      acct_balances ←
        balance_by_currency_of prices currency_conversion acct at_date currency;
      agg_by_currency_loop self account_names' at_date currency
        (accumulate total_balances acct_balances)
  end.

Definition agg_balance_by_currency (self : BookAnalysis)
    (account_names : list string) (at_date : option date)
    (currency : option CurrencyArg) : M (gmap string flt) :=
  currency ← resolve_currency self currency;
  agg_by_currency_loop self account_names at_date currency ∅.

End OverTime.

(** ** Notions on the ECB history *)

(** The exceptions of ill-formed data: a missing attribute, a date or a
    rate that does not parse, a rate of zero to divide by. *)
Definition data_error (e : Exn) : Prop :=
  match e with
  | KeyError _ | ValueError | ZeroDivisionError => True
  | _ => False
  end.

(** The date of a date cube, as the loop of [ecb_fx_rate_range] reads it. *)
Definition cube_date `{N : Numeric} (strptime_date : string -> option date)
    (date_cube : Element) : M date :=
  time ← attr date_cube "time"; parse_date strptime_date time.

(** ** Full names of accounts *)

(** [':'.join(tokens)] *)
Fixpoint join_colon (tokens : list string) : string :=
  match tokens with
  | [] => ""
  | [t] => t
  | t :: tokens' => t +:+ ":" +:+ join_colon tokens'
  end.

Fixpoint has_colon (s : string) : bool :=
  match s with
  | EmptyString => false
  | String c s' => Ascii.eqb c ":"%char || has_colon s'
  end.

Section FullNames.
Context {N : Numeric}.

(** The accounts below an account, each with the names on the way down to
    it. *)
Fixpoint named_paths (account : Account) : list (list string * Account) :=
  flat_map
    (fun child =>
       ([name child], child) ::
       ((fun pa : list string * Account => (name child :: pa.1, pa.2))
          <$> named_paths child))
    (children account).

(** Below an account, no two children of one account have the same name and
    no name holds a colon. *)
Definition names_ok (account : Account) : Prop :=
  forall a, a ∈ subtree account ->
    NoDup (name <$> children a) /\
    Forall (fun child => has_colon (name child) = false) (children a).

End FullNames.

(** ** Concrete inputs

    The inputs of the concrete runs, the arithmetic being the exact rationals
    of [QNum]. *)

Import QNum.

Definition USD : Commodity := mkCommodity "USD".
Definition GBP : Commodity := mkCommodity "GBP".

(** no price known to piecash's own conversion *)
Definition no_gnc (c1 c2 : Commodity) : option Q := None.

(** USD to EUR on two dates, EUR to USD on a third *)
Definition both_ways : list Price :=
  [mkPrice USD EUR 1 (9 # 10); mkPrice USD EUR 10 (23 # 25);
   mkPrice EUR USD 5 (2 # 1)].

(** no USD/EUR price, but USD to GBP and GBP to EUR *)
Definition hop_prices : list Price :=
  [mkPrice USD GBP 5 (4 # 5); mkPrice GBP EUR 5 (23 # 20)].

Definition checking : Account :=
  mkAccount "Checking" USD 1 (Some GBP) [mkSplit (100 # 1) 1] [].

(** a liability and its parent, both of sign [-1] *)
Definition loan : Account :=
  mkAccount "Loan" EUR (-1) (Some EUR) [mkSplit (- 100 # 1) 1] [].
Definition liabilities : Account :=
  mkAccount "Liabilities" EUR (-1) None [] [loan].

(** a euro account with a sterling sub-account, and the prices to USD *)
Definition to_usd : list Price :=
  [mkPrice EUR USD 1 (11 # 10); mkPrice GBP USD 1 (13 # 10)].
Definition sterling : Account :=
  mkAccount "Sterling" GBP 1 (Some EUR) [mkSplit (100 # 1) 1] [].
Definition bank : Account :=
  mkAccount "Bank" EUR 1 (Some EUR) [mkSplit (100 # 1) 1] [sterling].
Definition book : BookAnalysis :=
  mkBookAnalysis [EUR; GBP; USD] (mkAccount "Root" EUR 1 None [] [bank]).

(** An ECB file with rates on the days 1, 3 and 5 (the parser of dates reads
    the day number). *)
Definition day_cube (time : string) (rates : list (string * string)) : Element :=
  mkElement ecb_Cube {[ "time" := time ]}
    ((fun r => mkElement ecb_Cube (<["currency" := r.1]> {[ "rate" := r.2 ]}) [])
       <$> rates).

Definition ecb_root : Element :=
  mkElement "Envelope" ∅
    [mkElement "subject" ∅ [];
     mkElement ecb_Cube ∅
       [day_cube "5" [("USD", "2"); ("GBP", "4")];
        day_cube "3" [("USD", "3")];
        day_cube "1" [("USD", "7"); ("GBP", "1")]]].

Definition day_number (s : string) : option date := digits s 0.

(** forward prices only, two days before and two days after day 3 *)
Definition forward_only : list Price :=
  [mkPrice USD EUR 5 (2 # 1); mkPrice USD EUR 1 (3 # 1)].

(** a reverse price only *)
Definition reverse_only : list Price := [mkPrice EUR USD 4 (2 # 1)].

(** two accounts whose full names end alike *)
Definition wallet_cash : Account :=
  mkAccount "Wallet" EUR 1 (Some EUR) [mkSplit (10 # 1) 1] [].
Definition wallet_savings : Account :=
  mkAccount "Wallet" EUR 1 (Some EUR) [mkSplit (20 # 1) 1] [].
Definition wallets : BookAnalysis :=
  mkBookAnalysis [EUR]
    (mkAccount "Root" EUR 1 None []
       [mkAccount "Cash" EUR 1 (Some EUR) [] [wallet_cash];
        mkAccount "Savings" EUR 1 (Some EUR) [] [wallet_savings]]).

(** a cache holding a factor for another pair, and a cache holding the
    factor of day 3 from USD to EUR *)
Definition other_pair_cache : option Cache :=
  cache_put (Some ∅) (USD, GBP) 7 (4 # 5).
Definition rated_cache : option Cache :=
  cache_put (Some ∅) (USD, EUR) 3 (9 # 10).

(** four categories of expenses *)
Definition expenses : Series :=
  [("Food", 3 # 1); ("Rent", 5 # 1); ("Fuel", 4 # 1); ("Gifts", 1 # 1)].

(** the same as canonical fractions *)
Definition expenses_qc : @Data QcNum.numeric :=
  @ASeries QcNum.numeric
    [("Food", QcNum.of_int 3); ("Rent", QcNum.of_int 5); ("Fuel", QcNum.of_int 4);
     ("Gifts", QcNum.of_int 1)].

(** * Properties *)

(** ** The effect monad *)

Lemma outcome_bind {A B} (m : M A) (f : A -> M B) :
  outcome (m ≫= f) = outcome m ≫= (fun a => outcome (f a)).
Proof.
  destruct m as [[a|e] l]; simpl; [|reflexivity].
  unfold outcome. destruct (f a); reflexivity.
Qed.

Lemma outcome_ret_bind {A B} (a : A) (f : A -> M B) :
  outcome (mret a ≫= f) = outcome (f a).
Proof. unfold outcome; simpl. destruct (f a); reflexivity. Qed.

Lemma queries_bind {A B} (m : M A) (f : A -> M B) :
  queries (m ≫= f) =
  queries m ++ match outcome m with Ok a => queries (f a) | Raise _ => [] end.
Proof.
  destruct m as [[a|e] l]; unfold outcome, queries; simpl.
  - destruct (f a); reflexivity.
  - symmetry. apply app_nil_r.
Qed.

(** ** Price resolution *)

Section PriceResolution.
Context {N : Numeric}.
Variable prices : list Price.

Lemma elem_of_insert_by_date p q l :
  p ∈ insert_by_date q l <-> p = q \/ p ∈ l.
Proof.
  induction l as [|x l IH]; simpl.
  - rewrite list_elem_of_singleton, elem_of_nil. tauto.
  - destruct (price_date q <? price_date x).
    + rewrite !elem_of_cons. tauto.
    + rewrite !elem_of_cons, IH. tauto.
Qed.

Lemma elem_of_order_by_date p l : p ∈ order_by_date l <-> p ∈ l.
Proof.
  induction l as [|x l IH]; simpl; [reflexivity|].
  rewrite elem_of_insert_by_date, elem_of_cons, IH. reflexivity.
Qed.

(** The rows of a query are the prices of the table quoted for that pair. *)
Lemma elem_of_prices_query p commodity currency :
  p ∈ prices_query prices commodity currency <->
  p ∈ prices /\ price_commodity p = commodity /\ price_currency p = currency.
Proof.
  unfold prices_query. rewrite elem_of_order_by_date, list_elem_of_filter. tauto.
Qed.

Lemma min_from_spec key best l :
  let m := min_from key best l in
  (m = best \/ m ∈ l) /\ key m <= key best /\ forall q, q ∈ l -> key m <= key q.
Proof.
  revert best. induction l as [|x l IH]; intros best; simpl.
  - split; [auto|]. split; [lia|]. intros q Hq. inversion Hq.
  - destruct (IH (if key x <? key best then x else best)) as (Hin & Hle & Hall).
    destruct (Z.ltb_spec (key x) (key best)) as [Hlt|Hge].
    + split; [destruct Hin as [->|Hin]; right; [left|right; exact Hin]|].
      split; [lia|].
      intros q [->|Hq]%elem_of_cons; [exact Hle|auto].
    + split; [destruct Hin as [->|Hin]; [left; reflexivity|right; right; exact Hin]|].
      split; [exact Hle|].
      intros q [->|Hq]%elem_of_cons; [lia|auto].
Qed.

(** [min] returns a row of the list whose key no row undercuts. *)
Lemma py_min_spec key l :
  l ≠ [] ->
  exists p, py_min key l = Some p /\ p ∈ l /\ forall q, q ∈ l -> key p <= key q.
Proof.
  destruct l as [|x l]; [congruence|]. intros _. simpl.
  destruct (min_from_spec key x l) as (Hin & Hle & Hall).
  eexists; split; [reflexivity|]. split.
  - destruct Hin as [->|Hin]; [left|right; exact Hin].
  - intros q [->|Hq]%elem_of_cons; auto.
Qed.

Lemma closest_of_outcome commodity currency on_date :
  outcome (closest_of prices commodity currency on_date) =
  Ok (py_min (distance on_date) (prices_query prices commodity currency)).
Proof.
  unfold closest_of. destruct (prices_query prices commodity currency); reflexivity.
Qed.

Lemma price_search_outcome commodity currency on_date :
  outcome (price_search prices commodity currency on_date) =
  match py_min (distance on_date) (prices_query prices commodity currency),
        py_min (distance on_date) (prices_query prices currency commodity) with
  | None, None => Raise (PriceNotFoundError commodity currency)
  | Some f, None => Ok (to_float (price_value f))
  | None, Some r => to_float <$> outcome (recip_value r)
  | Some f, Some r =>
      if distance on_date f <=? distance on_date r
      then Ok (to_float (price_value f))
      else to_float <$> outcome (recip_value r)
  end.
Proof.
  unfold price_search.
  rewrite outcome_bind, closest_of_outcome. simpl.
  rewrite outcome_bind, closest_of_outcome. simpl.
  rewrite outcome_bind.
  destruct (py_min _ (prices_query prices commodity currency)) as [f|],
           (py_min _ (prices_query prices currency commodity)) as [r|];
    try reflexivity;
    try (destruct (_ <=? _); [reflexivity|]);
    unfold recip_value; destruct (dec_recip _); reflexivity.
Qed.

End PriceResolution.

Section Conversion.
Context {N : Numeric}.
Variable prices : list Price.

(** A call that misses the cache returns what the search finds. *)
Lemma conversion_on_miss commodity currency on_date cache :
  commodity ≠ currency ->
  cache_get cache (commodity, currency) on_date = None ->
  outcome (currency_conversion_on_date prices commodity currency on_date cache) =
  (fun v => (v, cache_put cache (commodity, currency) on_date v)) <$>
    outcome (price_search prices commodity currency on_date).
Proof.
  intros Hne Hmiss. unfold currency_conversion_on_date.
  rewrite decide_False by exact Hne. rewrite Hmiss, outcome_bind.
  destruct (outcome (price_search _ _ _ _)); reflexivity.
Qed.

(** A call that hits the cache returns the cached factor and asks the price
    table nothing. *)
Lemma conversion_on_hit commodity currency on_date cache v :
  commodity ≠ currency ->
  cache_get cache (commodity, currency) on_date = Some v ->
  currency_conversion_on_date prices commodity currency on_date cache =
  (Ok (v, cache), []).
Proof.
  intros Hne Hhit. unfold currency_conversion_on_date.
  rewrite decide_False by exact Hne. rewrite Hhit. reflexivity.
Qed.

Lemma cache_get_put cache pair on_date v :
  cache_get (cache_put (Some cache) pair on_date v) pair on_date = Some v.
Proof.
  unfold cache_get, cache_put. rewrite lookup_insert_eq. simpl.
  apply lookup_insert_eq.
Qed.

Lemma cache_get_put_other (cache : option Cache) pair on_date v pair' on_date' :
  (pair', on_date') ≠ (pair, on_date) ->
  cache_get (cache_put cache pair on_date v) pair' on_date' =
  cache_get cache pair' on_date'.
Proof.
  intros Hne. destruct cache as [c|]; [|reflexivity].
  unfold cache_get, cache_put.
  destruct (decide (pair' = pair)) as [->|Hp].
  - rewrite lookup_insert_eq. simpl. apply lookup_insert_ne. congruence.
  - rewrite lookup_insert_ne by congruence. reflexivity.
Qed.

Lemma conversion_same_commodity (C : Commodity) (on_date : date)
    (cache : option Cache) :
  currency_conversion_on_date prices C C on_date cache =
  (Ok (flt_of_int 1, cache), []).
Proof.
  unfold currency_conversion_on_date.
  rewrite decide_True by reflexivity. reflexivity.
Qed.

(** C8. For every commodity C, every date and every cache (or none),
    [currency_conversion_on_date(C, C, d)] returns exactly 1, sends no query to
    the price table and leaves the cache as it was. *)
Theorem same_commodity_factor_is_one (C : Commodity) (on_date : date)
    (cache : option Cache) :
  currency_conversion_on_date prices C C on_date cache =
  (Ok (flt_of_int 1, cache), []).
Proof. apply conversion_same_commodity. Qed.

(** C6. For two distinct commodities and a date, when the table holds no
    price from the first to the second and none from the second to the
    first, the conversion (not answered from a cache) raises
    [PriceNotFoundError] naming the two commodities; so it returns no factor
    at all, be it zero, one or another. *)
Theorem no_price_raises_PriceNotFound (commodity currency : Commodity)
    (on_date : date) (cache : option Cache) :
  commodity ≠ currency ->
  prices_query prices commodity currency = [] ->
  prices_query prices currency commodity = [] ->
  cache_get cache (commodity, currency) on_date = None ->
  outcome (currency_conversion_on_date prices commodity currency on_date cache) =
    Raise (PriceNotFoundError commodity currency) /\
  forall v, returned (currency_conversion_on_date prices commodity currency on_date cache)
            ≠ Ok v.
Proof.
  intros Hne Hf Hr Hmiss.
  assert (outcome (currency_conversion_on_date prices commodity currency on_date cache) =
          Raise (PriceNotFoundError commodity currency)) as H.
  { rewrite conversion_on_miss by assumption.
    rewrite price_search_outcome, Hf, Hr. reflexivity. }
  split; [exact H|].
  intros v. unfold returned. rewrite H. discriminate.
Qed.

(** C4. For two distinct commodities and a date, when the table holds prices
    in both directions, the conversion (not answered from a cache) takes a
    forward price [f] and a reverse price [r], each at the least distance in
    days from the date within its direction, and returns the value of [f] when
    the distance of [f] is at most that of [r] (a tie included), the
    reciprocal of the value of [r] otherwise. *)
Theorem both_directions_closest_wins (commodity currency : Commodity)
    (on_date : date) (cache : option Cache) :
  commodity ≠ currency ->
  cache_get cache (commodity, currency) on_date = None ->
  prices_query prices commodity currency ≠ [] ->
  prices_query prices currency commodity ≠ [] ->
  exists f r,
    f ∈ prices_query prices commodity currency /\
    (forall p, p ∈ prices_query prices commodity currency ->
               distance on_date f <= distance on_date p) /\
    r ∈ prices_query prices currency commodity /\
    (forall p, p ∈ prices_query prices currency commodity ->
               distance on_date r <= distance on_date p) /\
    returned (currency_conversion_on_date prices commodity currency on_date cache) =
      if decide (distance on_date f <= distance on_date r)
      then Ok (to_float (price_value f))
      else match dec_recip (price_value r) with
           | Some v => Ok (to_float v)
           | None => Raise ZeroDivisionError
           end.
Proof.
  intros Hne Hmiss Hf Hr.
  destruct (py_min_spec (distance on_date) _ Hf) as (f & Ef & Hfin & Hfmin).
  destruct (py_min_spec (distance on_date) _ Hr) as (r & Er & Hrin & Hrmin).
  exists f, r. repeat (split; [assumption|]).
  unfold returned. rewrite conversion_on_miss by assumption.
  rewrite price_search_outcome, Ef, Er.
  destruct (Z.leb_spec (distance on_date f) (distance on_date r)) as [Hle|Hgt].
  - rewrite decide_True by exact Hle. reflexivity.
  - rewrite decide_False by lia.
    unfold recip_value. destruct (dec_recip _); reflexivity.
Qed.

(** C7. For every pair of commodities, every date and every cache dict: when
    a first call with that cache returns the factor [f], a second call with
    the same arguments and the same dict (in the state the first call left
    it) returns exactly [f], sends no query to the price table and leaves the
    dict unchanged; for distinct commodities the factor is the entry of the
    dict under the ordered pair and the date. *)
Theorem second_call_answered_from_cache (commodity currency : Commodity)
    (on_date : date) (cache : Cache) (f : flt) (cache' : option Cache) :
  outcome (currency_conversion_on_date prices commodity currency on_date (Some cache)) =
    Ok (f, cache') ->
  currency_conversion_on_date prices commodity currency on_date cache' =
    (Ok (f, cache'), []) /\
  (commodity ≠ currency ->
   cache_get cache' (commodity, currency) on_date = Some f).
Proof.
  intros H1.
  destruct (decide (commodity = currency)) as [->|Hne].
  - rewrite conversion_same_commodity in H1. injection H1 as <- <-.
    split; [apply conversion_same_commodity|congruence].
  - assert (cache_get cache' (commodity, currency) on_date = Some f) as Hhit.
    { destruct (cache_get (Some cache) (commodity, currency) on_date) as [v|] eqn:E.
      - rewrite (conversion_on_hit _ _ _ _ v) in H1 by assumption.
        injection H1 as <- <-. exact E.
      - rewrite conversion_on_miss in H1 by assumption.
        destruct (outcome (price_search _ _ _ _)) as [v|e]; [|discriminate].
        injection H1 as <- <-. apply cache_get_put. }
    split; [|intros _; exact Hhit].
    apply conversion_on_hit; assumption.
Qed.

End Conversion.

(** ** The historical balance *)

Section Balance.
Context {N : Numeric}.
Variable prices : list Price.
Variable currency_conversion : Commodity -> Commodity -> option dec.

Abbreviation ghb := (get_historical_balance prices currency_conversion).
Abbreviation conversion := (currency_conversion_on_date prices).

(** Induction over the account tree: a property holds of every account when
    it holds of an account whose children all have it. *)
Lemma Account_tree_ind (P : Account -> Prop) :
  (forall n c s p sp ch, Forall P ch -> P (mkAccount n c s p sp ch)) ->
  forall a, P a.
Proof.
  intros step.
  fix IH 1. intros [n c s p sp ch]. apply step.
  induction ch as [|a ch IHch]; constructor; [apply IH|exact IHch].
Qed.

Lemma ghb_unfold account recurse target natural_sign at_date cache0 :
  ghb account recurse target natural_sign at_date cache0 =
  let target := default (commodity account) target in
  '(balance, cache) ←
    (if decide (target ≠ commodity account)
     then convert_balance prices currency_conversion account target at_date
            (splits_balance account at_date) cache0
     else mret (splits_balance account at_date, cache0));
  '(balance, cache) ←
    add_children prices currency_conversion account recurse target at_date
      balance cache;
  mret (with_sign account natural_sign balance, caller_view cache0 cache).
Proof. destruct account; reflexivity. Qed.

Lemma balance_of_unfold account recurse target natural_sign at_date :
  balance_of prices currency_conversion account recurse target natural_sign at_date =
  let target := default (commodity account) target in
  balance ←
    (if decide (target ≠ commodity account)
     then convert_pure prices currency_conversion account target at_date
            (splits_balance account at_date)
     else Ok (splits_balance account at_date));
  balance ←
    (if recurse && negb (bool_decide (children account = []))
     then
       s ← sum_results
              (fun acc =>
                 balance_of prices currency_conversion acc recurse (Some target)
                   false at_date)
              (children account) (flt_of_int 0);
       Ok (flt_add balance s)
     else Ok balance);
  Ok (with_sign account natural_sign balance).
Proof. destruct account; reflexivity. Qed.

(** *** Coherence of the cache *)

Lemma coherent_None : coherent prices None.
Proof. intros c cur d v _ H. discriminate. Qed.

Lemma coherent_empty : coherent prices (Some ∅).
Proof.
  intros c cur d v _ H. unfold cache_get in H.
  rewrite lookup_empty in H. simpl in H. rewrite lookup_empty in H. discriminate.
Qed.

Lemma coherent_default cache :
  coherent prices cache -> coherent prices (Some (default ∅ cache)).
Proof. destruct cache; simpl; [auto|intros _; apply coherent_empty]. Qed.

Lemma coherent_caller_view passed now :
  coherent prices now -> coherent prices (caller_view passed now).
Proof. destruct passed; simpl; [auto|intros _; apply coherent_None]. Qed.

Lemma coherent_put cache commodity currency on_date v :
  commodity ≠ currency ->
  coherent prices cache ->
  outcome (price_search prices commodity currency on_date) = Ok v ->
  coherent prices (cache_put cache (commodity, currency) on_date v).
Proof.
  intros Hne Hc Hs c cur d w Hne' Hget.
  destruct (decide (((c, cur), d) = ((commodity, currency), on_date))) as [E|E].
  - injection E as -> -> ->. destruct cache as [cache|]; [|discriminate].
    rewrite cache_get_put in Hget. congruence.
  - rewrite cache_get_put_other in Hget by exact E. eapply Hc; eassumption.
Qed.

Lemma refines_returned (m : M (flt * option Cache)) (r : Result flt) :
  refines prices m r -> returned m = r.
Proof.
  unfold refines, returned. destruct (outcome m) as [[v c]|e], r; simpl;
    try tauto; [intros [-> _]|intros ->]; reflexivity.
Qed.

Lemma refines_ret (v : flt) (cache : option Cache) :
  coherent prices cache -> refines prices (mret (v, cache)) (Ok v).
Proof. intros H. split; [reflexivity|exact H]. Qed.

Lemma refines_bind (m : M (flt * option Cache)) (r : Result flt) (f : flt * option Cache -> M (flt * option Cache))
    (g : flt -> Result flt) :
  refines prices m r ->
  (forall v cache, coherent prices cache -> refines prices (f (v, cache)) (g v)) ->
  refines prices (m ≫= f) (r ≫= g).
Proof.
  unfold refines at 1 3. rewrite outcome_bind.
  destruct (outcome m) as [[v c]|e], r as [v'|e']; simpl; try tauto.
  intros [-> Hc] Hf. apply Hf, Hc.
Qed.

Lemma refines_conversion (commodity currency : Commodity) (on_date : date)
    (cache : option Cache) :
  coherent prices cache ->
  refines prices (conversion commodity currency on_date cache)
    (rate prices commodity currency on_date).
Proof.
  intros Hc. unfold refines, rate.
  destruct (decide (commodity = currency)) as [->|Hne].
  - rewrite conversion_same_commodity. split; [reflexivity|exact Hc].
  - destruct (cache_get cache (commodity, currency) on_date) as [v|] eqn:E.
    + rewrite (conversion_on_hit _ _ _ _ _ v) by assumption.
      unfold outcome at 1; simpl. rewrite (Hc _ _ _ _ Hne E). auto.
    + rewrite conversion_on_miss by assumption.
      destruct (outcome (price_search _ _ _ _)) as [v|e] eqn:Es; simpl; [|reflexivity].
      split; [reflexivity|]. apply coherent_put; assumption.
Qed.

Lemma refines_outcome (m m' : M (flt * option Cache)) (r : Result flt) :
  outcome m' = outcome m -> refines prices m r -> refines prices m' r.
Proof. unfold refines. intros ->. auto. Qed.

Lemma outcome_try_except {A} (body handler : M A) :
  outcome (try_except body handler) =
  match outcome body with
  | Raise (PriceNotFoundError _ _) | Raise GncConversionError => outcome handler
  | o => o
  end.
Proof.
  destruct body as [[a|[]] l]; try reflexivity;
    unfold try_except, outcome; destruct handler; reflexivity.
Qed.

Lemma refines_try_except (body handler : M (flt * option Cache))
    (rb rh : Result flt) :
  refines prices body rb ->
  refines prices handler rh ->
  refines prices (try_except body handler) (try_except_pure rb rh).
Proof.
  unfold refines at 1 3. rewrite outcome_try_except.
  destruct (outcome body) as [[v c]|e], rb as [v'|e']; simpl; try tauto.
  intros -> Hh. destruct e'; try reflexivity; exact Hh.
Qed.

Lemma refines_convert_balance (account : Account) (target : Commodity)
    (at_date : option date) (balance : flt) (cache0 : option Cache) :
  coherent prices cache0 ->
  refines prices
    (convert_balance prices currency_conversion account target at_date balance cache0)
    (convert_pure prices currency_conversion account target at_date balance).
Proof.
  intros Hc. unfold convert_balance, convert_pure.
  destruct at_date as [d|].
  - apply coherent_default in Hc.
    apply refines_try_except.
    + apply refines_bind; [apply refines_conversion, Hc|].
      intros v cache Hcache. apply refines_ret, Hcache.
    + unfold parent_commodity_of.
      destruct (parent_commodity account) as [parent|]; [|reflexivity].
      eapply refines_outcome; [apply outcome_ret_bind|]. simpl.
      apply (refines_bind _ _ (fun x => _) (fun f1 => _));
        [apply refines_conversion, Hc|].
      intros f1 cache1 Hc1. simpl.
      apply (refines_bind _ _ (fun x => _) (fun f2 => _));
        [apply refines_conversion, Hc1|].
      intros f2 cache2 Hc2. apply refines_ret, Hc2.
  - unfold refines. rewrite outcome_try_except, !outcome_bind.
    unfold gnc_factor, parent_commodity_of.
    destruct (currency_conversion (commodity account) target); simpl; [auto|].
    destruct (parent_commodity account) as [parent|]; simpl; [|reflexivity].
    rewrite !outcome_bind.
    destruct (currency_conversion (commodity account) parent); simpl; [|reflexivity].
    rewrite !outcome_bind.
    destruct (currency_conversion parent target); simpl; [auto|reflexivity].
Qed.

Lemma refines_sum_over {A} (f : A -> option Cache -> M (flt * option Cache))
    (g : A -> Result flt) (l : list A) :
  Forall (fun a => forall cache, coherent prices cache ->
                                 refines prices (f a cache) (g a)) l ->
  forall total cache,
    coherent prices cache ->
    refines prices (sum_over f l total cache) (sum_results g l total).
Proof.
  induction 1 as [|a l Ha _ IH]; intros total cache Hc; simpl.
  - apply refines_ret, Hc.
  - apply (refines_bind _ _ (fun x => _) (fun b => _)); [apply Ha, Hc|].
    intros b cache' Hc'. apply IH, Hc'.
Qed.

(** With a coherent cache, or none, the balance is the one computed from the
    price table alone, and the cache is left coherent. *)
Lemma balance_refines (account : Account) :
  forall recurse target natural_sign at_date cache0,
    coherent prices cache0 ->
    refines prices (ghb account recurse target natural_sign at_date cache0)
      (balance_of prices currency_conversion account recurse target natural_sign
         at_date).
Proof.
  induction account as [n c s p sp ch IH] using Account_tree_ind.
  intros recurse target natural_sign at_date cache0 Hc.
  rewrite ghb_unfold, balance_of_unfold. cbv zeta.
  set (acct := mkAccount n c s p sp ch).
  set (tgt := default (commodity acct) target).
  apply (refines_bind _ _ (fun x => _) (fun b => _)).
  { destruct (decide (tgt ≠ commodity acct)).
    - apply refines_convert_balance, Hc.
    - apply refines_ret, Hc. }
  intros balance cache Hcache. cbv beta iota.
  apply (refines_bind _ _ (fun x => _) (fun b => _)).
  { unfold add_children.
    destruct (recurse && negb (bool_decide (children acct = []))).
    - apply (refines_bind _ _ (fun x => _) (fun b => _)).
      + apply refines_sum_over; [|exact Hcache].
        eapply Forall_impl; [exact IH|]. intros a Ha cache' Hc'. apply Ha, Hc'.
      + intros v cache' Hc'. apply refines_ret, Hc'.
    - apply refines_ret, Hcache. }
  intros balance' cache' Hc'. apply refines_ret, coherent_caller_view, Hc'.
Qed.

(** The float a call returns does not depend on the cache it is given, as
    long as the cache is coherent with the price table. *)
Lemma balance_returned (account : Account) (recurse : bool)
    (target : option Commodity) (natural_sign : bool) (at_date : option date)
    (cache0 : option Cache) :
  coherent prices cache0 ->
  returned (ghb account recurse target natural_sign at_date cache0) =
  balance_of prices currency_conversion account recurse target natural_sign at_date.
Proof. intros Hc. apply refines_returned, balance_refines, Hc. Qed.

(** *** The two-hop conversion *)

Lemma convert_balance_two_hop (account : Account) (target parent : Commodity)
    (on_date : date) (balance : flt) (cache0 : option Cache) (x y : Commodity) :
  parent_commodity account = Some parent ->
  outcome (conversion (commodity account) target on_date (Some (default ∅ cache0))) =
    Raise (PriceNotFoundError x y) ->
  outcome (convert_balance prices currency_conversion account target (Some on_date)
             balance cache0) =
  ('(factor1, cache1) ←
     outcome (conversion (commodity account) parent on_date (Some (default ∅ cache0)));
   '(factor2, cache2) ← outcome (conversion parent target on_date cache1);
   Ok (flt_mul balance (flt_mul factor1 factor2), cache2)).
Proof.
  intros Hparent Hdirect. unfold convert_balance.
  rewrite outcome_try_except, outcome_bind, Hdirect. simpl.
  unfold parent_commodity_of. rewrite Hparent, outcome_ret_bind, outcome_bind.
  destruct (outcome (conversion (commodity account) parent on_date _))
    as [[factor1 cache1]|e]; simpl; [|reflexivity].
  rewrite outcome_bind.
  destruct (outcome (conversion parent target on_date cache1))
    as [[factor2 cache2]|e]; reflexivity.
Qed.

(** C3. For an account whose commodity differs from the target and that has
    a parent, at a given date: when the direct conversion from the account's
    commodity to the target raises [PriceNotFoundError], the balance is
    converted by the product of the factor from the account's commodity to
    the parent's commodity and of the factor from the parent's commodity to
    the target, both resolved at that date (the second with the cache as the
    first left it); and when one of the two hops raises, the whole balance
    computation raises the same exception, [PriceNotFoundError] when the hop
    found no price. *)
Theorem two_hop_through_parent (account : Account) (target parent : Commodity)
    (on_date : date) (recurse natural_sign : bool) (cache0 : option Cache)
    (x y : Commodity) :
  target ≠ commodity account ->
  parent_commodity account = Some parent ->
  outcome (conversion (commodity account) target on_date (Some (default ∅ cache0))) =
    Raise (PriceNotFoundError x y) ->
  match outcome (conversion (commodity account) parent on_date
                   (Some (default ∅ cache0))) with
  | Raise e =>
      outcome (ghb account recurse (Some target) natural_sign (Some on_date) cache0) =
      Raise e
  | Ok (factor1, cache1) =>
      match outcome (conversion parent target on_date cache1) with
      | Raise e =>
          outcome (ghb account recurse (Some target) natural_sign (Some on_date) cache0) =
          Raise e
      | Ok (factor2, cache2) =>
          outcome (ghb account recurse (Some target) natural_sign (Some on_date) cache0) =
          outcome
            ('(balance, cache) ←
               add_children prices currency_conversion account recurse target
                 (Some on_date)
                 (flt_mul (splits_balance account (Some on_date))
                    (flt_mul factor1 factor2))
                 cache2;
             mret (with_sign account natural_sign balance, caller_view cache0 cache))
      end
  end.
Proof.
  intros Hne Hparent Hdirect.
  rewrite ghb_unfold. cbv zeta. simpl default.
  rewrite decide_True by exact Hne.
  rewrite outcome_bind.
  rewrite (convert_balance_two_hop _ _ parent _ _ _ x y) by assumption.
  destruct (outcome (conversion (commodity account) parent on_date _))
    as [[factor1 cache1]|e]; simpl; [|reflexivity].
  destruct (outcome (conversion parent target on_date cache1))
    as [[factor2 cache2]|e]; simpl; reflexivity.
Qed.

(** Without a parent the fallback raises [AttributeError]. *)
Lemma two_hop_without_parent (account : Account) (target : Commodity)
    (on_date : date) (recurse natural_sign : bool) (cache0 : option Cache)
    (x y : Commodity) :
  target ≠ commodity account ->
  parent_commodity account = None ->
  outcome (conversion (commodity account) target on_date (Some (default ∅ cache0))) =
    Raise (PriceNotFoundError x y) ->
  outcome (ghb account recurse (Some target) natural_sign (Some on_date) cache0) =
  Raise (AttributeError "commodity").
Proof.
  intros Hne Hparent Hdirect.
  rewrite ghb_unfold. cbv zeta. simpl default.
  rewrite decide_True by exact Hne.
  rewrite outcome_bind. unfold convert_balance.
  rewrite outcome_try_except, outcome_bind, Hdirect. simpl.
  unfold parent_commodity_of. rewrite Hparent. reflexivity.
Qed.

(** The conversion raises nothing but [PriceNotFoundError], for want of a
    price, and [ZeroDivisionError], on a reverse price of value zero. *)
Lemma conversion_raises (commodity currency : Commodity) (on_date : date)
    (cache : option Cache) (e : Exn) :
  outcome (conversion commodity currency on_date cache) = Raise e ->
  e = PriceNotFoundError commodity currency \/ e = ZeroDivisionError.
Proof.
  destruct (decide (commodity = currency)) as [->|Hne].
  - rewrite conversion_same_commodity. discriminate.
  - destruct (cache_get cache (commodity, currency) on_date) as [v|] eqn:E.
    + rewrite (conversion_on_hit _ _ _ _ _ v) by assumption. discriminate.
    + rewrite conversion_on_miss, price_search_outcome by assumption.
      unfold recip_value.
      destruct (py_min _ _) as [f|], (py_min _ _) as [r|]; simpl;
        try destruct (_ <=? _); try destruct (dec_recip _); simpl;
        intros [= <-]; auto.
Qed.

(** *** Recursion over the children *)

Lemma sum_results_ext {A} (f g : A -> Result flt) (l : list A) (total : flt) :
  Forall (fun a => f a = g a) l ->
  sum_results f l total = sum_results g l total.
Proof.
  intros H. revert total. induction H as [|a l Ha _ IH]; intros total; simpl.
  - reflexivity.
  - rewrite Ha. destruct (g a); simpl; [apply IH|reflexivity].
Qed.

(** C2 (amended). For every account with children, every date and target
    commodity, the balance computed with [recurse=True] is the balance of the
    account computed with [recurse=False] and [natural_sign=False], plus the
    sum over its children of the balance of each computed with [recurse=True]
    and [natural_sign=False] (same date, same target), this total then
    multiplied by the sign of the account when [natural_sign] is true; an
    exception raised by one of the parts is raised by the whole. *)
Theorem recursive_balance_decomposition (account : Account)
    (target : option Commodity) (natural_sign : bool) (at_date : option date) :
  children account ≠ [] ->
  returned (ghb account true target natural_sign at_date None) =
  (own ← returned (ghb account false target false at_date None);
   s ← sum_results
          (fun child =>
             returned (ghb child true (Some (default (commodity account) target))
                         false at_date None))
          (children account) (flt_of_int 0);
   Ok (with_sign account natural_sign (flt_add own s))).
Proof.
  intros Hch.
  rewrite !balance_returned by apply coherent_None.
  rewrite (sum_results_ext _
             (fun child =>
                balance_of prices currency_conversion child true
                  (Some (default (commodity account) target)) false at_date)).
  2:{ apply Forall_forall. intros child _.
      apply balance_returned, coherent_None. }
  rewrite !balance_of_unfold. cbv zeta.
  rewrite bool_decide_eq_false_2 by exact Hch. simpl andb.
  destruct (if decide (default (commodity account) target ≠ commodity account)
            then _ else _) as [own|e]; simpl; [|reflexivity].
  destruct (sum_results _ _ _) as [s|e]; reflexivity.
Qed.

(** The equation of the claim as it is written, the own balance taken with
    the natural sign too, holds for an account of sign [+1] as soon as
    multiplying a float by [1] returns it. *)
Lemma recursive_balance_positive_sign (account : Account)
    (target : option Commodity) (at_date : option date) :
  (forall x, flt_mul x (flt_of_int 1) = x) ->
  sign account = 1 ->
  children account ≠ [] ->
  returned (ghb account true target true at_date None) =
  (own ← returned (ghb account false target true at_date None);
   s ← sum_results
          (fun child =>
             returned (ghb child true (Some (default (commodity account) target))
                         false at_date None))
          (children account) (flt_of_int 0);
   Ok (flt_add own s)).
Proof.
  intros Hone Hsign Hch.
  rewrite !balance_returned by apply coherent_None.
  rewrite (sum_results_ext _
             (fun child =>
                balance_of prices currency_conversion child true
                  (Some (default (commodity account) target)) false at_date)).
  2:{ apply Forall_forall. intros child _.
      apply balance_returned, coherent_None. }
  rewrite !balance_of_unfold. cbv zeta.
  rewrite bool_decide_eq_false_2 by exact Hch. simpl andb.
  unfold with_sign. rewrite Hsign.
  destruct (if decide (default (commodity account) target ≠ commodity account)
            then _ else _) as [own|e]; simpl; [|reflexivity].
  destruct (sum_results _ _ _) as [s|e]; simpl; [|reflexivity].
  rewrite !Hone. reflexivity.
Qed.

End Balance.

(** ** The aggregation layer *)

Section Aggregation.
Context {N : Numeric}.
Variable prices : list Price.
Variable currency_conversion : Commodity -> Commodity -> option dec.

Abbreviation ghb := (get_historical_balance prices currency_conversion).
Abbreviation by_currency := (balance_by_currency_of prices currency_conversion).

Lemma series_add_lookup (a b : gmap string flt) (code : string) :
  is_Some (series_add a b !! code) <-> is_Some (a !! code) \/ is_Some (b !! code).
Proof.
  unfold series_add. rewrite lookup_merge.
  destruct (a !! code), (b !! code); simpl;
    rewrite ?is_Some_alt; intuition (eauto; try tauto).
Qed.

Lemma add_all_keys {A} (f : A -> M (gmap string flt)) (l : list A) :
  forall (series m : gmap string flt),
    outcome (add_all f l series) = Ok m ->
    forall code,
      is_Some (m !! code) <->
      is_Some (series !! code) \/
      exists a s, a ∈ l /\ outcome (f a) = Ok s /\ is_Some (s !! code).
Proof.
  induction l as [|a l IH]; intros series m Hm code; simpl in Hm.
  - injection Hm as <-. split; [auto|].
    intros [H|(a & s & Ha & _)]; [exact H|inversion Ha].
  - rewrite outcome_bind in Hm.
    destruct (outcome (f a)) as [s|e] eqn:Ea; [|discriminate]. simpl in Hm.
    rewrite (IH _ _ Hm code), series_add_lookup. split.
    + intros [[H|H]|(a' & s' & Ha' & Hs' & Hc)]; [auto| |].
      * right. exists a, s. split; [left|auto].
      * right. exists a', s'. split; [right; exact Ha'|auto].
    + intros [H|(a' & s' & Ha' & Hs' & Hc)]; [auto|].
      apply elem_of_cons in Ha' as [->|Ha'].
      * left. right. congruence.
      * right. eauto.
Qed.

Lemma add_all_each {A} (f : A -> M (gmap string flt)) (l : list A) :
  forall (series m : gmap string flt),
    outcome (add_all f l series) = Ok m ->
    forall a, a ∈ l -> exists s, outcome (f a) = Ok s.
Proof.
  induction l as [|x l IH]; intros series m Hm a Ha; [inversion Ha|].
  simpl in Hm. rewrite outcome_bind in Hm.
  destruct (outcome (f x)) as [sx|] eqn:Ex; [|discriminate].
  apply elem_of_cons in Ha as [->|Ha]; [eauto|].
  simpl in Hm. eapply IH; eassumption.
Qed.

Lemma add_all_no_queries {A} (f : A -> M (gmap string flt)) (l : list A) :
  Forall (fun a => queries (f a) = []) l ->
  forall series, queries (add_all f l series) = [].
Proof.
  induction 1 as [|a l Ha _ IH]; intros series; simpl; [reflexivity|].
  rewrite queries_bind, Ha. destruct (outcome (f a)); [apply IH|reflexivity].
Qed.

(** The own balance of an account in its own commodity asks the price table
    nothing. *)
Lemma own_balance_no_queries (account : Account) (natural_sign : bool)
    (at_date : option date) (cache0 : option Cache) :
  ghb account false None natural_sign at_date cache0 =
  (Ok (with_sign account natural_sign (splits_balance account at_date), cache0), []).
Proof.
  rewrite ghb_unfold. cbv zeta. simpl default.
  rewrite decide_False by (intros H; apply H; reflexivity).
  unfold add_children. simpl. destruct cache0; reflexivity.
Qed.

(** The labels of the result are the mnemonics of the accounts of the subtree
    whose own balance is not zero. *)
Lemma by_currency_keys (account : Account) :
  forall (at_date : option date) (currency : option Commodity)
         (m : gmap string flt),
    outcome (by_currency account at_date currency) = Ok m ->
    forall code,
      is_Some (m !! code) <->
      exists a b cache,
        a ∈ subtree account /\ mnemonic (commodity a) = code /\
        outcome (ghb a false currency true at_date None) = Ok (b, cache) /\
        flt_truthy b = true.
Proof.
  induction account as [n c s p sp ch IH] using Account_tree_ind.
  intros at_date currency m Hm code.
  set (acct := mkAccount n c s p sp ch) in *.
  change (by_currency acct at_date currency) with
    ('(balance, _) ← ghb acct false currency true at_date None;
     add_all (fun child => by_currency child at_date currency) (children acct)
       (if flt_truthy balance
        then {[ mnemonic (commodity acct) := flt_add (flt_of_int 0) balance ]}
        else ∅)) in Hm.
  rewrite outcome_bind in Hm.
  destruct (outcome (ghb acct false currency true at_date None))
    as [[balance cache]|e] eqn:Eown; [|discriminate].
  simpl in Hm. rewrite (add_all_keys _ _ _ _ Hm code).
  change (subtree acct) with (acct :: flat_map subtree ch).
  split.
  - intros [Hown|(child & series & Hchild & Hs & Hcode)].
    + destruct (flt_truthy balance) eqn:Et.
      * apply lookup_singleton_is_Some in Hown.
        exists acct, balance, cache. split; [left|auto].
      * rewrite lookup_empty in Hown. destruct Hown; discriminate.
    + rewrite Forall_forall in IH.
      destruct (proj1 (IH child Hchild _ _ _ Hs code) Hcode)
        as (a & b & cache' & Ha & Hrest).
      exists a, b, cache'. split; [|exact Hrest].
      right. apply list_elem_of_In, in_flat_map.
      exists child. split; apply list_elem_of_In; assumption.
  - intros (a & b & cache' & Ha & Hcode & Hb & Ht).
    apply elem_of_cons in Ha as [->|Ha].
    + left. rewrite Eown in Hb. injection Hb as <- <-. rewrite Ht.
      apply lookup_singleton_is_Some. exact Hcode.
    + right. apply list_elem_of_In, in_flat_map in Ha as (child & Hchild & Ha).
      apply list_elem_of_In in Hchild, Ha.
      destruct (add_all_each _ _ _ _ Hm child Hchild) as [series Hs].
      exists child, series. split; [exact Hchild|]. split; [exact Hs|].
      rewrite Forall_forall in IH.
      apply (IH child Hchild _ _ _ Hs code). eauto 8.
Qed.

Lemma by_currency_native_no_queries (account : Account) (at_date : option date) :
  queries (by_currency account at_date None) = [].
Proof.
  induction account as [n c s p sp ch IH] using Account_tree_ind.
  set (acct := mkAccount n c s p sp ch) in *.
  change (by_currency acct at_date None) with
    ('(balance, _) ← ghb acct false None true at_date None;
     add_all (fun child => by_currency child at_date None) (children acct)
       (if flt_truthy balance
        then {[ mnemonic (commodity acct) := flt_add (flt_of_int 0) balance ]}
        else ∅)).
  rewrite own_balance_no_queries, queries_bind. simpl.
  apply add_all_no_queries, IH.
Qed.

(** C5 (amended). For every account, date and target currency, supplied or
    not, for which [balance_by_currency] returns: the mapping has an entry
    under a code exactly when the subtree has an account of that native
    code whose own balance (natural sign, converted to the target when one is
    supplied) is not zero.  The entries stay keyed by native code, so a
    supplied currency does not collapse them into one: there are as many
    entries as such native codes, none, one or several.  With no currency
    supplied the price table is not queried at all. *)
Theorem balance_by_currency_keys (self : BookAnalysis) (account : Account)
    (at_date : option date) (currency : option CurrencyArg)
    (m : gmap string flt) :
  outcome (balance_by_currency prices currency_conversion self account at_date
             currency) = Ok m ->
  (exists target,
     outcome (resolve_currency self currency) = Ok target /\
     forall code,
       is_Some (m !! code) <->
       exists a b cache,
         a ∈ subtree account /\ mnemonic (commodity a) = code /\
         outcome (ghb a false target true at_date None) = Ok (b, cache) /\
         flt_truthy b = true) /\
  (currency = None ->
   queries (balance_by_currency prices currency_conversion self account at_date
              currency) = []).
Proof.
  intros Hm. unfold balance_by_currency in *. rewrite outcome_bind in Hm.
  destruct (outcome (resolve_currency self currency)) as [target|e] eqn:Er;
    [|discriminate].
  simpl in Hm. split.
  - exists target. split; [reflexivity|]. apply by_currency_keys, Hm.
  - intros ->. rewrite queries_bind. simpl.
    apply by_currency_native_no_queries.
Qed.

(** *** The aggregate balance *)

Lemma bind_keywords_via :
  bind_keywords get_historical_balance_params
    ["commodity"; "at_date"; "via"; "natural_sign"] = raise (TypeError "via").
Proof. reflexivity. Qed.

(** X25. On a list that is not empty, [agg_balance] raises at its first call
    of [get_historical_balance]: [TypeError] for the keyword [via], unless the
    first name is not the name of an account, which raises the [KeyError] of
    the lookup. *)
Lemma agg_balance_raises (self : BookAnalysis) (a : string) (l : list string)
    (currency : Commodity) (via : option Commodity) (at_date : option date) :
  outcome (agg_balance prices currency_conversion self (a :: l) currency via at_date) =
  match outcome (get_account self a) with
  | Ok _ => Raise (TypeError "via")
  | Raise e => Raise e
  end.
Proof.
  unfold agg_balance. simpl sum_calls. rewrite !outcome_bind.
  destruct (outcome (get_account self a)); reflexivity.
Qed.

Lemma agg_balance_nil (self : BookAnalysis) (currency : Commodity)
    (via : option Commodity) (at_date : option date) :
  outcome (agg_balance prices currency_conversion self [] currency via at_date) =
  Ok (flt_of_int 0).
Proof. reflexivity. Qed.

End Aggregation.

(** ** ECB exchange-rate history *)

Section EcbRange.
Context {N : Numeric}.
Variable strptime_date : string -> option date.

Lemma outcome_or_warn {A} (body : M A) (otherwise : A) :
  outcome (or_warn body otherwise) =
  match outcome body with
  | Raise (PriceNotFoundError _ _) => Ok otherwise
  | o => o
  end.
Proof. destruct body as [[a|[]] l]; reflexivity. Qed.

(** The loop adds entries only at dates after the start date, up to the end
    date, that are not excluded. *)
Lemma rate_range_loop_dates (date_cubes : list Element) (start_date end_date : date)
    (to_currency from_currency : string) (exclude_dates : gset Z) :
  forall (results m : gmap Z flt),
    outcome (rate_range_loop strptime_date date_cubes start_date end_date
               to_currency from_currency exclude_dates results) = Ok m ->
    forall d,
      is_Some (m !! d) ->
      is_Some (results !! d) \/
      (start_date < d <= end_date /\ d ∉ exclude_dates).
Proof.
  induction date_cubes as [|date_cube rest IH]; intros results m Hm d Hd.
  - injection Hm as <-. left. exact Hd.
  - simpl in Hm. rewrite outcome_bind in Hm.
    destruct (outcome (attr date_cube "time")) as [time|]; [|discriminate].
    simpl in Hm. rewrite outcome_bind in Hm.
    destruct (outcome (parse_date strptime_date time)) as [_date|]; [|discriminate].
    simpl in Hm. rewrite outcome_bind in Hm.
    destruct (bool_decide (start_date < _date <= end_date)
              && negb (bool_decide (_date ∈ exclude_dates))) eqn:Ein.
    + rewrite outcome_or_warn, outcome_bind in Hm.
      apply andb_true_iff in Ein as [Hrange Hex].
      apply bool_decide_eq_true in Hrange.
      apply negb_true_iff, bool_decide_eq_false in Hex.
      destruct (outcome (ecb_fx_rate date_cube to_currency from_currency))
        as [rate|e]; simpl in Hm.
      * destruct (IH _ _ Hm d Hd) as [Hins|Hnew]; [|right; exact Hnew].
        destruct (decide (_date = d)) as [<-|Hne]; [right; auto|].
        left. rewrite lookup_insert_ne in Hins by exact Hne. exact Hins.
      * destruct e; try discriminate. exact (IH _ _ Hm d Hd).
    + simpl in Hm. exact (IH _ _ Hm d Hd).
Qed.

(** C10. For every XML root, currency pair, start and end date and set of
    excluded dates, the mapping [ecb_fx_rate_range] returns holds only dates
    strictly after [start_date] and at most [end_date]; so it holds no entry
    for [start_date] itself, whatever the source has for that date. *)
Theorem rate_range_excludes_start (xml_root : Element) (start_date end_date : date)
    (to_currency from_currency : string) (exclude_dates : option (gset Z))
    (m : gmap Z flt) :
  outcome (ecb_fx_rate_range strptime_date xml_root start_date end_date
             to_currency from_currency exclude_dates) = Ok m ->
  (forall d, is_Some (m !! d) -> start_date < d <= end_date) /\
  m !! start_date = None.
Proof.
  intros Hm. unfold ecb_fx_rate_range in Hm.
  destruct (find_child xml_root) as [top_cube|]; [|discriminate].
  assert (forall d, is_Some (m !! d) -> start_date < d <= end_date) as Hall.
  { intros d Hd.
    destruct (rate_range_loop_dates _ _ _ _ _ _ _ _ Hm d Hd) as [He|[Hr _]];
      [|exact Hr].
    rewrite lookup_empty in He. destruct He; discriminate. }
  split; [exact Hall|].
  destruct (m !! start_date) eqn:E; [|reflexivity].
  specialize (Hall start_date). rewrite E in Hall.
  destruct (Hall (mk_is_Some _ _ eq_refl)). lia.
Qed.

End EcbRange.

(** ** Concrete runs

    The statements above at the concrete inputs. *)

(** The scenarios of the specification. *)

Example closer_date_is_selected :
  returned (currency_conversion_on_date both_ways USD EUR 2 None) = Ok (9 # 10).
Proof. reflexivity. Qed.

Example two_hop_factor :
  returned (get_historical_balance hop_prices no_gnc checking true (Some EUR)
              true (Some 5) None) = Ok (92 # 1).
Proof. reflexivity. Qed.

Example own_commodity_balance :
  returned (get_historical_balance [] no_gnc checking true (Some USD) true
              (Some 1) None) = Ok (100 # 1).
Proof. reflexivity. Qed.

(** C1. [agg_balance] on one name: the account is found and its balance
    with [natural_sign=False] is 100, but the call passes the keyword [via],
    which [get_historical_balance] does not take: [TypeError]. *)
Theorem agg_balance_unexpected_keyword :
  (exists account,
     outcome (get_account book "Bank:Sterling") = Ok account /\
     returned (get_historical_balance to_usd no_gnc account true (Some GBP)
                 false (Some 1) None) = Ok (100 # 1)) /\
  outcome (agg_balance to_usd no_gnc book ["Bank:Sterling"] GBP None (Some 1)) =
  Raise (TypeError "via").
Proof. split; [exists sterling; split|]; reflexivity. Qed.

(** C2, counterexample. A liability account (sign [-1]) without splits whose
    one child holds [-100]: with [recurse=True] the balance is [100], while
    the balance with [recurse=False] plus the child's balance with
    [natural_sign=False] is [-100], whether the own balance is taken with the
    natural sign or not. *)
Lemma recursive_balance_claim_fails :
  children liabilities ≠ [] /\
  forall natural_sign,
    returned (get_historical_balance [] no_gnc liabilities true None true
                (Some 10) None) ≠
    (own ← returned (get_historical_balance [] no_gnc liabilities false None
                       natural_sign (Some 10) None);
     s ← sum_results
            (fun child =>
               returned (get_historical_balance [] no_gnc child true (Some EUR)
                           false (Some 10) None))
            (children liabilities) (flt_of_int 0);
     Ok (flt_add own s)).
Proof. split; [discriminate|]. intros []; vm_compute; discriminate. Qed.

Lemma recursive_balance_decomposition_witness :
  children liabilities ≠ [] /\
  returned (get_historical_balance [] no_gnc liabilities true None true
              (Some 10) None) =
  (own ← returned (get_historical_balance [] no_gnc liabilities false None false
                     (Some 10) None);
   s ← sum_results
          (fun child =>
             returned (get_historical_balance [] no_gnc child true
                         (Some (default (commodity liabilities) None)) false
                         (Some 10) None))
          (children liabilities) (flt_of_int 0);
   Ok (with_sign liabilities true (flt_add own s))).
Proof.
  split; [discriminate|].
  apply (recursive_balance_decomposition (N := numeric) [] no_gnc liabilities None
           true (Some 10)).
  discriminate.
Defined.

Lemma two_hop_through_parent_witness :
  EUR ≠ commodity checking /\
  parent_commodity checking = Some GBP /\
  outcome (currency_conversion_on_date hop_prices (commodity checking) EUR 5
             (Some (default ∅ None))) = Raise (PriceNotFoundError USD EUR) /\
  outcome (get_historical_balance hop_prices no_gnc checking true (Some EUR) true
             (Some 5) None) =
  outcome
    ('(balance, cache) ←
       add_children hop_prices no_gnc checking true EUR (Some 5)
         (flt_mul (splits_balance checking (Some 5)) (flt_mul (4 # 5) (23 # 20)))
         (cache_put
            (cache_put (Some ∅) (USD, GBP) 5 (4 # 5)) (GBP, EUR) 5 (23 # 20));
     mret (with_sign checking true balance, caller_view None cache)).
Proof.
  split; [discriminate|]. split; [reflexivity|]. split; [reflexivity|].
  exact (two_hop_through_parent hop_prices no_gnc checking EUR GBP 5 true true
           None USD EUR ltac:(discriminate) eq_refl eq_refl).
Defined.

Lemma both_directions_closest_wins_witness :
  USD ≠ EUR /\
  cache_get None (USD, EUR) 3 = None /\
  prices_query both_ways USD EUR ≠ [] /\
  prices_query both_ways EUR USD ≠ [] /\
  exists f r,
    f ∈ prices_query both_ways USD EUR /\
    (forall p, p ∈ prices_query both_ways USD EUR -> distance 3 f <= distance 3 p) /\
    r ∈ prices_query both_ways EUR USD /\
    (forall p, p ∈ prices_query both_ways EUR USD -> distance 3 r <= distance 3 p) /\
    returned (currency_conversion_on_date both_ways USD EUR 3 None) =
      if decide (distance 3 f <= distance 3 r)
      then Ok (to_float (price_value f))
      else match dec_recip (price_value r) with
           | Some v => Ok (to_float v)
           | None => Raise ZeroDivisionError
           end.
Proof.
  split; [discriminate|]. split; [reflexivity|].
  split; [discriminate|]. split; [discriminate|].
  apply (both_directions_closest_wins both_ways USD EUR 3 None);
    [discriminate|reflexivity|discriminate|discriminate].
Defined.

(** On the tie of the run above (forward at 2 days, reverse at 2 days) the
    forward price is used. *)
Example tie_takes_forward :
  returned (currency_conversion_on_date both_ways USD EUR 3 None) = Ok (9 # 10).
Proof. reflexivity. Qed.

Lemma no_price_raises_PriceNotFound_witness :
  USD ≠ EUR /\
  prices_query hop_prices USD EUR = [] /\
  prices_query hop_prices EUR USD = [] /\
  cache_get (Some ∅) (USD, EUR) 5 = None /\
  outcome (currency_conversion_on_date hop_prices USD EUR 5 (Some ∅)) =
    Raise (PriceNotFoundError USD EUR) /\
  forall v, returned (currency_conversion_on_date hop_prices USD EUR 5 (Some ∅))
            ≠ Ok v.
Proof.
  split; [discriminate|]. split; [reflexivity|]. split; [reflexivity|].
  split; [reflexivity|].
  apply (no_price_raises_PriceNotFound hop_prices USD EUR 5 (Some ∅));
    [discriminate|reflexivity|reflexivity|reflexivity].
Defined.

Lemma second_call_answered_from_cache_witness :
  outcome (currency_conversion_on_date both_ways USD EUR 3 (Some ∅)) =
    Ok (9 # 10, cache_put (Some ∅) (USD, EUR) 3 (9 # 10)) /\
  currency_conversion_on_date both_ways USD EUR 3
    (cache_put (Some ∅) (USD, EUR) 3 (9 # 10)) =
    (Ok (9 # 10, cache_put (Some ∅) (USD, EUR) 3 (9 # 10)), []) /\
  (USD ≠ EUR ->
   cache_get (cache_put (Some ∅) (USD, EUR) 3 (9 # 10)) (USD, EUR) 3 = Some (9 # 10)).
Proof.
  split; [reflexivity|].
  apply (second_call_answered_from_cache both_ways USD EUR 3 ∅).
  reflexivity.
Defined.

(** C5, counterexample. A euro account with a sterling sub-account, the
    target USD supplied: the mapping has two entries, under EUR and under
    GBP, and none under USD. *)
Lemma balance_by_currency_not_collapsed :
  exists m : gmap string flt,
    outcome (balance_by_currency to_usd no_gnc book bank (Some 1)
               (Some (ByCode "USD"))) = Ok m /\
    size m = 2%nat /\
    m !! "EUR" = Some (110 # 1) /\ m !! "GBP" = Some (130 # 1) /\
    m !! "USD" = None.
Proof.
  exists (<["EUR" := 110 # 1]> {["GBP" := 130 # 1]}).
  split; [vm_compute; reflexivity|]. repeat split; reflexivity.
Qed.

Lemma balance_by_currency_keys_witness :
  outcome (balance_by_currency to_usd no_gnc book bank (Some 1)
             (Some (ByCode "USD"))) =
    Ok (<["EUR" := 110 # 1]> {["GBP" := 130 # 1]}) /\
  (exists target,
     outcome (resolve_currency book (Some (ByCode "USD"))) = Ok target /\
     forall code,
       is_Some ((<["EUR" := 110 # 1]> {["GBP" := 130 # 1]} : gmap string flt) !! code) <->
       exists a b cache,
         a ∈ subtree bank /\ mnemonic (commodity a) = code /\
         outcome (get_historical_balance to_usd no_gnc a false target true
                    (Some 1) None) = Ok (b, cache) /\
         flt_truthy b = true) /\
  (Some (ByCode "USD") = None ->
   queries (balance_by_currency to_usd no_gnc book bank (Some 1)
              (Some (ByCode "USD"))) = []).
Proof.
  split; [vm_compute; reflexivity|].
  apply (balance_by_currency_keys to_usd no_gnc book bank (Some 1)
           (Some (ByCode "USD"))).
  vm_compute. reflexivity.
Defined.

(** C9. A Series whose largest category is itself labelled "Other": with
    [top_n = 1] that category is retained, then overwritten by the sum of the
    rest; the output totals [3] where the input totals [8].  The same on a
    table of two rows. *)
Theorem top_and_other_overwrites_Other :
  let s : Series := [("Other", 5 # 1); ("A", 3 # 1)] in
  let df := mkDataFrame [1; 2]
              [("Other", [5 # 1; 7 # 1]); ("A", [3 # 1; 2 # 1])] in
  top_and_other (ASeries s) 1 = ASeries [("Other", 3 # 1)] /\
  row_totals (ASeries s) = [8 # 1] /\
  row_totals (top_and_other (ASeries s) 1) = [3 # 1] /\
  top_and_other (AFrame df) 1 =
    AFrame (mkDataFrame [1; 2] [("Other", [3 # 1; 2 # 1])]) /\
  row_totals (AFrame df) = [8 # 1; 9 # 1] /\
  row_totals (top_and_other (AFrame df) 1) = [3 # 1; 2 # 1].
Proof. repeat split; reflexivity. Qed.

(** Without such a label the totals are kept. *)
Example top_and_other_keeps_totals :
  let s : Series := [("A", 3 # 1); ("B", 5 # 1); ("C", 4 # 1); ("D", 1 # 1)] in
  top_and_other (ASeries s) 2 =
    ASeries [("B", 5 # 1); ("C", 4 # 1); ("Other", 4 # 1)] /\
  row_totals (top_and_other (ASeries s) 2) = row_totals (ASeries s).
Proof. split; reflexivity. Qed.

Lemma rate_range_excludes_start_witness :
  outcome (ecb_fx_rate_range day_number ecb_root 1 5 "USD" "EUR" None) =
    Ok (<[3 := 3 # 1]> {[ 5 := 2 # 1 ]}) /\
  (forall d, is_Some ((<[3 := 3 # 1]> {[ 5 := 2 # 1 ]} : gmap Z flt) !! d) ->
             1 < d <= 5) /\
  (<[3 := 3 # 1]> {[ 5 := 2 # 1 ]} : gmap Z flt) !! 1 = None.
Proof.
  split; [vm_compute; reflexivity|].
  apply (rate_range_excludes_start day_number ecb_root 1 5 "USD" "EUR" None).
  vm_compute. reflexivity.
Defined.

(** A date without the rate asked for is left out, the others are kept. *)
Example rate_range_skips_missing :
  outcome (ecb_fx_rate_range day_number ecb_root 0 5 "USD" "GBP" None) =
  Ok (<[1 := 7 # 1]> {[ 5 := 1 # 2 ]}).
Proof. vm_compute. reflexivity. Qed.

(** ** The top-N reducer *)

(** Sums in a commutative monoid, the laws being asked on a part of the
    carrier only (the rows of one length, for a table). *)
Section Totals.
Context {V : Type} (op : V -> V -> V) (e : V) (P : V -> Prop).
Hypothesis P_unit : P e.
Hypothesis P_op : forall a b, P a -> P b -> P (op a b).
Hypothesis op_assoc : forall a b c, P a -> P b -> P c -> op a (op b c) = op (op a b) c.
Hypothesis op_comm : forall a b, P a -> P b -> op a b = op b a.
Hypothesis op_unit : forall a, P a -> op e a = a.

Lemma total_closed (l : list V) (a : V) : P a -> Forall P l -> P (foldl op a l).
Proof.
  intros Ha Hl. revert a Ha. induction Hl as [|x l Hx _ IH]; intros a Ha; simpl; auto.
Qed.

Lemma total_from (l : list V) (a : V) :
  P a -> Forall P l -> foldl op a l = op a (foldl op e l).
Proof.
  intros Ha Hl. revert a Ha.
  induction Hl as [|x l Hx Hl IH]; intros a Ha; simpl.
  - rewrite (op_comm a e), op_unit; auto.
  - rewrite (IH (op a x)), (IH (op e x)) by auto.
    rewrite (op_unit x) by exact Hx.
    symmetry. apply op_assoc; auto using total_closed.
Qed.

Lemma total_app (l1 l2 : list V) :
  Forall P l1 -> Forall P l2 ->
  foldl op e (l1 ++ l2) = op (foldl op e l1) (foldl op e l2).
Proof.
  intros H1 H2. rewrite foldl_app. apply total_from; auto using total_closed.
Qed.

Lemma total_perm (l1 l2 : list V) :
  l1 ≡ₚ l2 -> Forall P l1 -> forall a, P a -> foldl op a l1 = foldl op a l2.
Proof.
  induction 1 as [|x l1 l2 Hp IH|x y l|l1 l2 l3 H12 IH12 H23 IH23];
    intros Hl a Ha; simpl.
  - reflexivity.
  - apply Forall_cons in Hl as [Hx Hl]. apply IH; auto.
  - apply Forall_cons in Hl as [Hy Hl]. apply Forall_cons in Hl as [Hx Hl].
    f_equal. rewrite <- !op_assoc by auto. f_equal. apply op_comm; auto.
  - rewrite IH12 by auto. apply IH23; [|exact Ha].
    rewrite <- H12. exact Hl.
Qed.

End Totals.

Section Select.
Context {V : Type}.
Implicit Types (data rows : list (string * V)) (labels : list string).

Lemma filter_label_absent data (label : string) :
  label ∉ data.*1 -> filter (fun x => x.1 = label) data = [].
Proof.
  induction data as [|x data IH]; intros Hl; [reflexivity|].
  rewrite fmap_cons in Hl. apply not_elem_of_cons in Hl as [Hx Hl].
  rewrite filter_cons_False by (intros Heq; apply Hx; symmetry; exact Heq).
  apply IH, Hl.
Qed.

Lemma filter_label_unique data (kv : string * V) :
  NoDup data.*1 -> kv ∈ data -> filter (fun x => x.1 = kv.1) data = [kv].
Proof.
  induction data as [|x data IH]; intros Hnd Hin; [inversion Hin|].
  rewrite fmap_cons in Hnd. apply NoDup_cons in Hnd as [Hx Hnd].
  apply elem_of_cons in Hin as [->|Hin].
  - rewrite filter_cons_True by reflexivity. f_equal.
    apply filter_label_absent, Hx.
  - rewrite filter_cons_False; [apply IH; assumption|].
    intros Heq. apply Hx. rewrite Heq. apply list_elem_of_fmap. eauto.
Qed.

(** Selecting the labels of some rows of the data returns these rows. *)
Lemma select_rows data rows :
  NoDup data.*1 -> rows ⊆ data -> select data rows.*1 = rows.
Proof.
  intros Hnd. induction rows as [|kv rows IH]; intros Hsub; [reflexivity|].
  unfold select in *. rewrite fmap_cons. simpl.
  rewrite filter_label_unique; [|exact Hnd|apply Hsub; left].
  simpl. f_equal. apply IH. intros x Hx. apply Hsub. right. exact Hx.
Qed.

Lemma set_item_fresh data (label : string) (v : V) :
  label ∉ data.*1 -> set_item data label v = data ++ [(label, v)].
Proof. intros H. unfold set_item. rewrite bool_decide_eq_false_2; auto. Qed.

End Select.

Section ReducedTotal.
Context {V : Type} (op : V -> V -> V) (e : V) (P : V -> Prop).
Hypothesis P_unit : P e.
Hypothesis P_op : forall a b, P a -> P b -> P (op a b).
Hypothesis op_assoc : forall a b c, P a -> P b -> P c -> op a (op b c) = op (op a b) c.
Hypothesis op_comm : forall a b, P a -> P b -> op a b = op b a.
Hypothesis op_unit : forall a, P a -> op e a = a.

(** The retained rows and the row of the rest total what the data totals,
    when "Other" is not the label of a retained row. *)
Lemma reduced_total (data rows : list (string * V)) (k : nat) :
  NoDup data.*1 ->
  rows ≡ₚ data ->
  Forall P data.*2 ->
  "Other" ∉ take k rows.*1 ->
  foldl op e
    (set_item (select data (take k rows.*1)) "Other"
       (foldl op e (select data (drop k rows.*1)).*2)).*2 =
  foldl op e data.*2.
Proof.
  intros Hnd Hperm HP Hother.
  assert (Forall P rows.*2) as HProws by (rewrite Hperm; exact HP).
  assert (rows ⊆ data) as Hsub by (intros x Hx; rewrite <- Hperm; exact Hx).
  rewrite <- fmap_take, <- fmap_drop in *.
  rewrite !select_rows; try exact Hnd.
  2:{ intros x Hx. apply Hsub. eapply subseteq_drop, Hx. }
  2:{ intros x Hx. apply Hsub. eapply subseteq_take, Hx. }
  rewrite set_item_fresh by exact Hother.
  rewrite fmap_app, foldl_app. simpl.
  assert (Forall P (take k rows).*2) as Ht.
  { rewrite fmap_take. apply Forall_take, HProws. }
  assert (Forall P (drop k rows).*2) as Hd.
  { rewrite fmap_drop. apply Forall_drop, HProws. }
  rewrite <- (total_app op e P) by assumption.
  rewrite <- fmap_app, take_drop.
  apply (total_perm op P); auto.
  apply fmap_Permutation, Hperm.
Qed.

End ReducedTotal.

Section ReducerTotals.
Context {N : Numeric}.
Hypothesis add_assoc : forall a b c : flt, flt_add a (flt_add b c) = flt_add (flt_add a b) c.
Hypothesis add_comm : forall a b : flt, flt_add a b = flt_add b a.
Hypothesis add_zero : forall a : flt, flt_add (flt_of_int 0) a = a.

Lemma insert_desc_perm (kv : string * flt) (l : Series) :
  insert_desc kv l ≡ₚ kv :: l.
Proof.
  induction l as [|x l IH]; simpl; [reflexivity|].
  destruct (flt_ltb x.2 kv.2); [reflexivity|].
  rewrite IH. apply Permutation_swap.
Qed.

Lemma sort_values_desc_perm (s : Series) : sort_values_desc s ≡ₚ s.
Proof.
  induction s as [|kv s IH]; simpl; [reflexivity|].
  rewrite insert_desc_perm, IH. reflexivity.
Qed.

Lemma slices_take_drop {A} (n : Z) (l : list A) :
  exists k, slice_to n l = take k l /\ slice_from n l = drop k l.
Proof. unfold slice_to, slice_from. destruct (0 <=? n); eauto. Qed.

Lemma row_sums_total (df : DataFrame) :
  row_sums df =
  foldl (zip_with flt_add) (replicate (length (df_index df)) (flt_of_int 0))
    (df_columns df).*2.
Proof.
  unfold row_sums. generalize (replicate (length (df_index df)) (flt_of_int 0)).
  induction (df_columns df) as [|col cols IH]; intros acc; simpl; [reflexivity|].
  apply IH.
Qed.

Lemma zip_add_unit (n : nat) (v : list flt) :
  length v = n -> zip_with flt_add (replicate n (flt_of_int 0)) v = v.
Proof.
  intros <-. induction v as [|x v IH]; simpl; [reflexivity|].
  rewrite add_zero, IH. reflexivity.
Qed.

Lemma zip_add_comm (a b : list flt) : zip_with flt_add a b = zip_with flt_add b a.
Proof.
  revert b. induction a as [|x a IH]; intros [|y b]; simpl; try reflexivity.
  rewrite add_comm, IH. reflexivity.
Qed.

Lemma zip_add_assoc (a b c : list flt) :
  zip_with flt_add a (zip_with flt_add b c) =
  zip_with flt_add (zip_with flt_add a b) c.
Proof.
  revert b c. induction a as [|x a IH]; intros [|y b] [|z c]; simpl; try reflexivity.
  rewrite add_assoc, IH. reflexivity.
Qed.

(** X18. The totals of the rows are kept by [top_and_other], for every
    [top_n], as long as addition is that of a commutative monoid, the labels
    are distinct and no retained category is labelled "Other". *)
Lemma top_and_other_row_totals (in_data : Data) (top_n : Z) :
  well_formed in_data ->
  no_clash in_data top_n ->
  row_totals (top_and_other in_data top_n) = row_totals in_data.
Proof.
  destruct in_data as [s|df]; unfold no_clash, sorted_labels; simpl.
  - intros Hnd Hother. f_equal.
    destruct (slices_take_drop top_n (sort_values_desc s).*1) as (k & Et & Ed).
    rewrite Et in Hother. rewrite Et, Ed.
    apply (reduced_total flt_add (flt_of_int 0) (fun _ => True)); auto.
    + apply sort_values_desc_perm.
    + apply Forall_true. auto.
  - intros [Hnd Hlen] Hother.
    pose proof (sort_values_desc_perm (column_sums df)) as Hperm.
    unfold column_sums in Hperm at 2.
    change (?f <$> df_columns df) with (map f (df_columns df)) in Hperm.
    apply Permutation_map_inv in Hperm as (rows & Hrows & Hperm).
    assert ((sort_values_desc (column_sums df)).*1 = rows.*1) as Hnames.
    { change (map ?f rows) with (f <$> rows) in Hrows. rewrite Hrows.
      rewrite <- list_fmap_compose. reflexivity. }
    rewrite Hnames in *.
    destruct (slices_take_drop top_n rows.*1) as (k & Et & Ed).
    rewrite Et in Hother. rewrite Et, Ed.
    rewrite !row_sums_total. simpl.
    apply (reduced_total (zip_with flt_add)
             (replicate (length (df_index df)) (flt_of_int 0))
             (fun v => length v = length (df_index df))); auto.
    + apply length_replicate.
    + intros a b Ha Hb. rewrite length_zip_with. lia.
    + intros a b c _ _ _. apply zip_add_assoc.
    + intros a b _ _. apply zip_add_comm.
    + intros a Ha. apply zip_add_unit, Ha.
    + symmetry. exact Hperm.
    + apply Forall_fmap. exact Hlen.
Qed.

End ReducerTotals.

(** ** Stepped dates *)

Lemma progression_cons (start step : Z) (n : nat) :
  progression start step (S n) = start :: progression (start + step) step n.
Proof.
  unfold progression. simpl. f_equal; [lia|].
  rewrite <- fmap_S_seq, <- list_fmap_compose.
  apply list_fmap_ext. intros _ i _. simpl. lia.
Qed.

Lemma date_add_in (d step : Z) :
  date_min <= d + step <= date_max -> date_add d step = Some (d + step).
Proof.
  intros [Hlo Hhi]. unfold date_add.
  rewrite (proj2 (Z.leb_le _ _) Hlo), (proj2 (Z.leb_le _ _) Hhi). reflexivity.
Qed.

Lemma date_add_out (d step : Z) :
  d + step < date_min \/ date_max < d + step -> date_add d step = None.
Proof.
  intros H. unfold date_add.
  destruct (Z.leb_spec date_min (d + step)), (Z.leb_spec (d + step) date_max);
    simpl; try reflexivity; lia.
Qed.

Lemma range_end_step (start step : Z) (n : nat) :
  start + step <= date_max ->
  range_end (start + step) step n = range_end start step (S n).
Proof.
  intros Hle. unfold range_end. destruct n as [|n].
  - rewrite (proj2 (Z.ltb_ge date_max (start + Z.of_nat 1 * step))) by lia.
    reflexivity.
  - replace (start + step + Z.of_nat (S n) * step)
      with (start + Z.of_nat (S (S n)) * step) by lia.
    rewrite (proj2 (Z.ltb_lt 0 (Z.of_nat (S n)))) by lia.
    rewrite (proj2 (Z.ltb_lt 0 (Z.of_nat (S (S n))))) by lia.
    reflexivity.
Qed.

Lemma date_range_run (end_date step : Z) (n : nat) :
  forall (start : Z) (fuel : nat),
    0 < step ->
    date_min <= start ->
    end_date <= date_max ->
    (forall i, (i < n)%nat -> start + Z.of_nat i * step < end_date) ->
    end_date <= start + Z.of_nat n * step ->
    (n < fuel)%nat ->
    date_range fuel start end_date step =
      Some (progression start step n, range_end start step n).
Proof.
  induction n as [|n IH]; intros start fuel Hstep Hlo Hhi Hin Hout Hfuel;
    (destruct fuel as [|fuel]; [lia|]); simpl.
  - rewrite (proj2 (Z.ltb_ge _ _)) by lia. reflexivity.
  - rewrite (proj2 (Z.ltb_lt _ _)) by (specialize (Hin O); lia).
    destruct (Z.le_gt_cases (start + step) date_max) as [Hle|Hgt].
    + rewrite date_add_in by lia.
      rewrite (IH (start + step) fuel), progression_cons, range_end_step;
        [reflexivity|lia..| |lia|lia].
      intros i Hi. specialize (Hin (S i)). lia.
    + rewrite date_add_out by lia.
      destruct n as [|n]; [|specialize (Hin 1%nat); lia].
      unfold range_end.
      rewrite (proj2 (Z.ltb_lt date_max (start + Z.of_nat 1 * step))) by lia.
      rewrite progression_cons. reflexivity.
Qed.

Lemma steps_spec (start end_date step : Z) :
  0 < step ->
  (forall i, (i < steps start end_date step)%nat ->
             start + Z.of_nat i * step < end_date) /\
  end_date <= start + Z.of_nat (steps start end_date step) * step.
Proof.
  intros Hstep. unfold steps.
  set (q := (end_date - start + step - 1) / step).
  assert (step * q <= end_date - start + step - 1 < step * (q + 1)) as Hq.
  { pose proof (Z.mul_div_le (end_date - start + step - 1) step Hstep).
    pose proof (Z.mul_succ_div_gt (end_date - start + step - 1) step Hstep).
    unfold q. lia. }
  destruct (Z.le_gt_cases q 0) as [Hle|Hgt].
  - rewrite Z2Nat.nonpos by exact Hle. split; [intros i Hi; lia|]. nia.
  - split.
    + intros i Hi. apply Nat2Z.inj_lt in Hi. rewrite Z2Nat.id in Hi by lia. nia.
    + rewrite Z2Nat.id by lia. nia.
Qed.

(** X1. With a positive step the loop of [date_range] stops after it has
    yielded [start], [start + step], ... as long as the date is before [end]:
    the dates are those of the half-open range, [end] excluded, none when
    [start >= end].  The generator ends at its last line, unless the step
    added to the last date yielded leaves the calendar: then it ends with
    [OverflowError], although no further date was to come. *)
Theorem date_range_positive_step (start end_date step : Z) (fuel : nat) :
  0 < step ->
  date_min <= start ->
  end_date <= date_max ->
  (steps start end_date step < fuel)%nat ->
  date_range fuel start end_date step =
    Some (progression start step (steps start end_date step),
          range_end start step (steps start end_date step)) /\
  (forall d, d ∈ progression start step (steps start end_date step) ->
             start <= d < end_date) /\
  end_date <= start + Z.of_nat (steps start end_date step) * step.
Proof.
  intros Hstep Hlo Hhi Hfuel.
  destruct (steps_spec start end_date step Hstep) as [Hin Hout].
  split; [apply date_range_run; assumption|]. split; [|exact Hout].
  intros d Hd. unfold progression in Hd.
  apply list_elem_of_fmap in Hd as (i & -> & Hi).
  apply elem_of_seq in Hi. specialize (Hin i). nia.
Qed.

(** X2. With a step of zero days and [start < end] the loop of [date_range]
    never stops: whatever the number of turns allowed, it is still running. *)
Theorem date_range_zero_step (start end_date : Z) (fuel : nat) :
  date_min <= start <= date_max ->
  start < end_date ->
  date_range fuel start end_date 0 = None.
Proof.
  intros Hvalid Hlt. induction fuel as [|fuel IH]; simpl.
  - reflexivity.
  - rewrite (proj2 (Z.ltb_lt _ _)) by exact Hlt.
    rewrite date_add_in by lia. rewrite Z.add_0_r, IH. reflexivity.
Qed.

Lemma date_range_down (end_date step : Z) (k : nat) :
  forall (start : Z) (fuel : nat),
    step < 0 ->
    start <= date_max ->
    start < end_date ->
    (forall i, (i <= k)%nat -> date_min <= start + Z.of_nat i * step) ->
    start + Z.of_nat (S k) * step < date_min ->
    (k < fuel)%nat ->
    date_range fuel start end_date step =
      Some (progression start step (S k), Overflowed).
Proof.
  induction k as [|k IH]; intros start fuel Hstep Hhi Hlt Hin Hout Hfuel;
    (destruct fuel as [|fuel]; [lia|]); simpl;
    rewrite (proj2 (Z.ltb_lt _ _)) by exact Hlt.
  - rewrite date_add_out by lia. rewrite progression_cons. reflexivity.
  - rewrite date_add_in by (specialize (Hin 1%nat); lia).
    rewrite (IH (start + step) fuel), (progression_cons start step (S k));
      [reflexivity|lia..| |lia|lia].
    intros i Hi. specialize (Hin (S i)). lia.
Qed.

(** X28. With a negative step and [start < end] the loop of [date_range]
    does not stop by its test: it yields [start], [start + step], ... down
    to the first dates there are, and ends with the [OverflowError] of the
    step that leaves the calendar. *)
Theorem date_range_negative_step (start end_date step : Z) (fuel : nat) :
  step < 0 ->
  date_min <= start <= date_max ->
  start < end_date ->
  (steps_down start step <= fuel)%nat ->
  date_range fuel start end_date step =
    Some (progression start step (steps_down start step), Overflowed) /\
  forall d, d ∈ progression start step (steps_down start step) ->
            date_min <= d <= start.
Proof.
  intros Hstep Hvalid Hlt Hfuel. unfold steps_down in *.
  set (q := (start - date_min) / (- step)) in *.
  assert (0 < - step) as Hneg by lia.
  assert (- step * q <= start - date_min < - step * (q + 1)) as Hq.
  { pose proof (Z.mul_div_le (start - date_min) (- step) Hneg).
    pose proof (Z.mul_succ_div_gt (start - date_min) (- step) Hneg).
    unfold q. lia. }
  assert (0 <= q) as Hq0 by (apply Z.div_pos; lia).
  replace (Z.to_nat (q + 1)) with (S (Z.to_nat q)) in * by lia.
  assert (forall i, (i <= Z.to_nat q)%nat ->
                    date_min <= start + Z.of_nat i * step) as Hin.
  { intros i Hi. apply Nat2Z.inj_le in Hi. rewrite Z2Nat.id in Hi by lia. nia. }
  split.
  - apply date_range_down; try assumption; lia.
  - intros d Hd. unfold progression in Hd.
    apply list_elem_of_fmap in Hd as (i & -> & Hi).
    apply elem_of_seq in Hi. specialize (Hin i). nia.
Qed.

(** ** Series over time *)

Section SeriesOverTime.
Context {N : Numeric}.
Variable prices : list Price.
Variable currency_conversion : Commodity -> Commodity -> option dec.

(** When the dates of the range are known, the loop over the range is the
    loop over these dates; it ends as the generator does when no turn
    raises. *)
Lemma series_over_time_dates {A} (f : date -> M A) (end_date step : Z)
    (fuel : nat) :
  forall (start : Z) (dates : list date) (ended : Ended),
    date_range fuel start end_date step = Some (dates, ended) ->
    exists ended',
      series_over_time f fuel start end_date step =
        Some (series_at f dates, ended') /\
      (forall series, outcome (series_at f dates) = Ok series ->
                      ended' = ended).
Proof.
  induction fuel as [|fuel IH]; intros start dates ended Hd; simpl in *;
    [discriminate|].
  destruct (start <? end_date).
  - destruct (date_add start step) as [d'|].
    + destruct (date_range fuel d' end_date step) as [[dates' ended0]|] eqn:E;
        [|discriminate].
      injection Hd as <- <-. destruct (IH _ _ _ E) as (ended' & -> & Hend).
      simpl. destruct (f start) as [[a|e] l] eqn:Ef.
      * exists ended'. split; [reflexivity|]. intros series Hs.
        destruct (series_at f dates') as [[rest|e] l'] eqn:Es; [|discriminate].
        apply (Hend rest). reflexivity.
      * exists Exhausted. split; [reflexivity|]. intros series Hs. discriminate.
    + injection Hd as <- <-. simpl.
      destruct (f start) as [[a|e] l] eqn:Ef.
      * exists Overflowed. split; [reflexivity|]. reflexivity.
      * exists Exhausted. split; [reflexivity|]. intros series Hs. discriminate.
  - injection Hd as <- <-. exists Exhausted. split; reflexivity.
Qed.

Lemma series_at_index {A} (f : date -> M A) (dates : list date)
    (series : list (date * A)) :
  outcome (series_at f dates) = Ok series ->
  series.*1 = dates /\
  forall d a, (d, a) ∈ series -> outcome (f d) = Ok a.
Proof.
  revert series. induction dates as [|d dates IH]; intros series Hs; simpl in Hs.
  - injection Hs as <-. split; [reflexivity|]. intros d a H. inversion H.
  - rewrite outcome_bind in Hs.
    destruct (outcome (f d)) as [a|e] eqn:Ea; [|discriminate]. simpl in Hs.
    rewrite outcome_bind in Hs.
    destruct (outcome (series_at f dates)) as [rest|e]; [|discriminate].
    injection Hs as <-. destruct (IH rest eq_refl) as [Hidx Hval].
    split; [simpl; f_equal; exact Hidx|].
    intros d' a' [[= -> ->]|Hin]%elem_of_cons; [exact Ea|apply Hval, Hin].
Qed.

Lemma seen_returns {A} (r : M A * Ended) (a : A) :
  seen r = Returns a <-> outcome r.1 = Ok a /\ r.2 = Exhausted.
Proof.
  unfold seen. destruct (outcome r.1), r.2; split;
    try discriminate; try (intros [? ?]; discriminate).
  - intros [= ->]. split; reflexivity.
  - intros [[= ->] _]. reflexivity.
Qed.

(** X3. With a positive step, over a range whose last step stays in the
    calendar, [balance_over_time] stops; the series it returns has one entry
    for each date of [date_range(start, end, step)], in order, and the value
    at a date is the balance of the named account at that date (natural
    sign, children included) in the resolved currency. *)
Theorem balance_over_time_series (self : BookAnalysis) (account_name : string)
    (fuel : nat) (start end_date step : Z) (currency : option CurrencyArg) :
  0 < step ->
  date_min <= start ->
  end_date <= date_max ->
  (steps start end_date step < fuel)%nat ->
  exists r,
    balance_over_time prices currency_conversion self account_name fuel start
      end_date step currency = Some r /\
    forall series,
      seen r = Returns series ->
      series.*1 = progression start step (steps start end_date step) /\
      exists target,
        outcome (resolve_currency self currency) = Ok target /\
        forall d b,
          (d, b) ∈ series ->
          exists account,
            outcome (get_account self account_name) = Ok account /\
            returned (get_historical_balance prices currency_conversion account
                        true target true (Some d) None) = Ok b.
Proof.
  intros Hstep Hlo Hhi Hfuel. unfold balance_over_time.
  destruct (resolve_currency self currency) as [[target|e] l] eqn:Er.
  2:{ eexists. split; [reflexivity|]. intros series Hs. discriminate. }
  match goal with
  | |- context [series_over_time ?f _ _ _ _] =>
      destruct (series_over_time_dates f end_date step fuel start
                  (progression start step (steps start end_date step))
                  (range_end start step (steps start end_date step)))
        as (ended' & -> & _)
  end.
  { apply date_range_run; try assumption; apply steps_spec, Hstep. }
  eexists. split; [reflexivity|]. intros series Hs.
  apply seen_returns in Hs as [Hs _]. simpl in Hs.
  apply series_at_index in Hs as [Hidx Hval]. split; [exact Hidx|].
  exists target. split; [reflexivity|]. intros d b Hin.
  specialize (Hval d b Hin). rewrite outcome_bind in Hval.
  destruct (outcome (get_account self account_name)) as [account|] eqn:Ea;
    [|discriminate].
  exists account. split; [reflexivity|]. simpl in Hval.
  unfold returned. rewrite outcome_bind in Hval.
  destruct (outcome (get_historical_balance _ _ _ _ _ _ _ _)) as [[b' c]|];
    [|discriminate].
  simpl in *. congruence.
Qed.

(** X29. Over a range of positive step whose last step leaves the calendar,
    [balance_over_time] returns no series: when every balance has been
    computed the generator is resumed once more and raises
    [OverflowError]. *)
Theorem balance_over_time_overflow (self : BookAnalysis) (account_name : string)
    (fuel : nat) (start end_date step : Z) (currency : option CurrencyArg) :
  0 < step ->
  date_min <= start ->
  start < end_date ->
  end_date <= date_max ->
  date_max < start + Z.of_nat (steps start end_date step) * step ->
  (steps start end_date step < fuel)%nat ->
  exists r,
    balance_over_time prices currency_conversion self account_name fuel start
      end_date step currency = Some r /\
    forall series, seen r <> Returns series.
Proof.
  intros Hstep Hlo Hlt Hhi Hover Hfuel. unfold balance_over_time.
  destruct (resolve_currency self currency) as [[target|e] l] eqn:Er.
  2:{ eexists. split; [reflexivity|]. intros series Hs. discriminate. }
  match goal with
  | |- context [series_over_time ?f _ _ _ _] =>
      destruct (series_over_time_dates f end_date step fuel start
                  (progression start step (steps start end_date step))
                  (range_end start step (steps start end_date step)))
        as (ended' & -> & Hend)
  end.
  { apply date_range_run; try assumption; apply steps_spec, Hstep. }
  eexists. split; [reflexivity|]. intros series Hs.
  apply seen_returns in Hs as [Hs Hex]. simpl in Hs, Hex.
  specialize (Hend series Hs). subst ended'. revert Hex. unfold range_end.
  destruct (steps_spec start end_date step Hstep) as [_ Hout].
  rewrite (proj2 (Z.ltb_lt _ _) Hover).
  rewrite (proj2 (Z.ltb_lt 0 _)) by nia. discriminate.
Qed.

(** X4. When [end <= start], [balance_over_time] returns the empty series
    for every account name, known or not, and every step: the account is
    looked up inside the loop only.  (The currency code is resolved before
    the loop, and must be known.) *)
Theorem balance_over_time_empty_range (self : BookAnalysis)
    (account_name : string) (fuel : nat) (start end_date step : Z)
    (currency : option CurrencyArg) (target : option Commodity) :
  end_date <= start ->
  outcome (resolve_currency self currency) = Ok target ->
  seen <$> balance_over_time prices currency_conversion self account_name
             (S fuel) start end_date step currency = Some (Returns []).
Proof.
  intros Hle Hr. unfold balance_over_time.
  destruct (resolve_currency self currency) as [[t|e] l]; [|discriminate].
  simpl. rewrite (proj2 (Z.ltb_ge _ _)) by exact Hle. reflexivity.
Qed.

Lemma agg_balance_at_raises (self : BookAnalysis) (a : string) (l : list string)
    (currency via : option Commodity) (at_date : option date) :
  outcome (agg_balance_at prices currency_conversion self (a :: l) currency via
             at_date) =
  match outcome (get_account self a) with
  | Ok _ => Raise (TypeError "via")
  | Raise e => Raise e
  end.
Proof.
  unfold agg_balance_at. simpl sum_calls. rewrite !outcome_bind.
  destruct (outcome (get_account self a)); reflexivity.
Qed.

(** X5. On a list of names that is not empty and a range with
    [start < end], [agg_balance_over_time] returns no series, whatever the
    step: its first call of [agg_balance] raises, [TypeError] for the keyword
    [via] when the first name is the name of an account, the [KeyError] of
    the lookup otherwise. *)
Theorem agg_balance_over_time_raises (self : BookAnalysis) (a : string)
    (l : list string) (fuel : nat) (start end_date step : Z)
    (currency : option CurrencyArg) (via target : option Commodity) :
  start < end_date ->
  outcome (resolve_currency self currency) = Ok target ->
  seen <$> agg_balance_over_time prices currency_conversion self (a :: l)
             (S fuel) start end_date step currency via =
  Some (match outcome (get_account self a) with
        | Ok _ => Raises (TypeError "via")
        | Raise e => Raises e
        end).
Proof.
  intros Hlt Hr. unfold agg_balance_over_time.
  destruct (resolve_currency self currency) as [[t|e] lq]; [|discriminate].
  simpl. rewrite (proj2 (Z.ltb_lt _ _)) by exact Hlt.
  pose proof (agg_balance_at_raises self a l t via (Some start)) as Hagg.
  destruct (agg_balance_at _ _ _ _ _ _ _) as [[b|e] lb].
  - destruct (outcome (get_account self a)); discriminate.
  - unfold outcome at 1 in Hagg. simpl in Hagg. simpl. unfold seen. simpl.
    destruct (outcome (get_account self a)); injection Hagg as ->; reflexivity.
Qed.

End SeriesOverTime.

(** ** Full names and the lookup of accounts *)

Lemma split_colon_nonempty (s : string) : split_colon s ≠ [].
Proof.
  destruct s as [|c s]; simpl; [discriminate|].
  destruct (Ascii.eqb c ":"); [discriminate|].
  destruct (split_colon s); discriminate.
Qed.

Lemma split_colon_token (t : string) :
  has_colon t = false -> split_colon t = [t].
Proof.
  induction t as [|c t IH]; simpl; [reflexivity|]. intros H.
  apply orb_false_iff in H as [Hc Ht]. rewrite Hc, (IH Ht). reflexivity.
Qed.

Lemma split_colon_cons (t s : string) :
  has_colon t = false -> split_colon (t +:+ ":" +:+ s) = t :: split_colon s.
Proof.
  induction t as [|c t IH]; simpl; [reflexivity|]. intros H.
  apply orb_false_iff in H as [Hc Ht]. rewrite Hc, (IH Ht). reflexivity.
Qed.

Lemma split_colon_join (tokens : list string) :
  tokens ≠ [] ->
  Forall (fun t => has_colon t = false) tokens ->
  split_colon (join_colon tokens) = tokens.
Proof.
  intros Hne Hall. induction Hall as [|t tokens Ht Hall IH]; [congruence|].
  destruct tokens as [|t' tokens].
  - simpl. apply split_colon_token, Ht.
  - change (join_colon (t :: t' :: tokens)) with
      (t +:+ ":" +:+ join_colon (t' :: tokens)).
    rewrite split_colon_cons by exact Ht. f_equal. apply IH. discriminate.
Qed.

(** X6. Splitting a full name at the colons and joining the parts with
    colons gives the name back; the parts are never none and hold no colon.
    Conversely the parts of a joined list of names without colons are these
    names. *)
Theorem split_colon_round_trip :
  (forall s, join_colon (split_colon s) = s /\
             split_colon s ≠ [] /\
             Forall (fun t => has_colon t = false) (split_colon s)) /\
  (forall tokens, tokens ≠ [] ->
                  Forall (fun t => has_colon t = false) tokens ->
                  split_colon (join_colon tokens) = tokens).
Proof.
  split.
  - intros s. split; [|split; [apply split_colon_nonempty|]].
    + induction s as [|c s IH]; simpl; [reflexivity|].
      destruct (Ascii.eqb_spec c ":") as [->|Hc].
      * pose proof (split_colon_nonempty s).
        destruct (split_colon s) as [|t ts] eqn:E; [congruence|].
        simpl in *. rewrite IH. reflexivity.
      * destruct (split_colon s) as [|t ts] eqn:E; [|destruct ts as [|t' ts]];
          simpl in *; rewrite <- IH; reflexivity.
    + induction s as [|c s IH]; simpl; [repeat constructor|].
      destruct (Ascii.eqb c ":") eqn:Hc.
      * constructor; [reflexivity|exact IH].
      * destruct (split_colon s) as [|t ts]; [repeat constructor; simpl; rewrite Hc; reflexivity|].
        apply Forall_cons in IH as [Ht Hts].
        constructor; [simpl; rewrite Hc, Ht; reflexivity|exact Hts].
  - exact split_colon_join.
Qed.

Section Lookup.
Context {N : Numeric}.

Lemma walk_app (account : Account) (pre post : list string) :
  outcome (walk account (pre ++ post)) =
  outcome (walk account pre) ≫= (fun a => outcome (walk a post)).
Proof.
  revert account. induction pre as [|t pre IH]; intros account; simpl.
  - reflexivity.
  - rewrite !outcome_bind.
    destruct (outcome (child_named account t)) as [a|e]; simpl; [apply IH|reflexivity].
Qed.

Lemma find_named (l : list Account) (child : Account) :
  NoDup (name <$> l) -> child ∈ l ->
  List.find (fun a => bool_decide (name a = name child)) l = Some child.
Proof.
  induction l as [|x l IH]; intros Hnd Hin; [inversion Hin|].
  rewrite fmap_cons in Hnd. apply NoDup_cons in Hnd as [Hx Hnd]. simpl.
  apply elem_of_cons in Hin as [->|Hin].
  - rewrite bool_decide_eq_true_2 by reflexivity. reflexivity.
  - rewrite bool_decide_eq_false_2; [apply IH; assumption|].
    intros Heq. apply Hx. rewrite Heq. apply list_elem_of_fmap_2, Hin.
Qed.

Lemma find_unnamed (l : list Account) (t : string) :
  (forall child, child ∈ l -> name child ≠ t) ->
  List.find (fun a => bool_decide (name a = t)) l = None.
Proof.
  induction l as [|x l IH]; intros Hall; [reflexivity|]. simpl.
  rewrite bool_decide_eq_false_2 by (apply Hall; left).
  apply IH. intros child Hc. apply Hall. right. exact Hc.
Qed.

Lemma subtree_child (account child a : Account) :
  child ∈ children account -> a ∈ subtree child -> a ∈ subtree account.
Proof.
  intros Hc Ha. destruct account as [n c s p sp ch]. simpl in *. right.
  apply list_elem_of_In, in_flat_map. exists child.
  split; apply list_elem_of_In; assumption.
Qed.

Lemma subtree_self (account : Account) : account ∈ subtree account.
Proof. destruct account; left. Qed.

(** Walking down the names of a path finds the account at its end. *)
Lemma walk_named_path (account : Account) :
  names_ok account ->
  forall path a, (path, a) ∈ named_paths account ->
                 outcome (walk account path) = Ok a.
Proof.
  induction account as [n c s p sp ch IH] using Account_tree_ind.
  intros Hok path a Hin.
  set (acct := mkAccount n c s p sp ch) in *.
  destruct (Hok acct (subtree_self acct)) as [Hnd _].
  change (named_paths acct) with
    (flat_map
       (fun child =>
          ([name child], child) ::
          ((fun pa : list string * Account => (name child :: pa.1, pa.2))
             <$> named_paths child)) ch) in Hin.
  apply list_elem_of_In, in_flat_map in Hin as (child & Hchild & Hin).
  apply list_elem_of_In in Hchild, Hin.
  assert (outcome (child_named acct (name child)) = Ok child) as Hfound.
  { unfold child_named. change (children acct) with ch.
    rewrite (find_named ch child Hnd Hchild). reflexivity. }
  apply elem_of_cons in Hin as [[= -> ->]|Hin].
  - simpl walk. rewrite outcome_bind, Hfound. reflexivity.
  - apply list_elem_of_fmap in Hin as ([path' a'] & [= -> ->] & Hin).
    simpl walk. rewrite outcome_bind, Hfound. simpl.
    rewrite Forall_forall in IH. apply (IH child Hchild); [|exact Hin].
    intros x Hx. apply Hok. apply (subtree_child acct child x Hchild Hx).
Qed.

Lemma named_path_tokens (account : Account) :
  names_ok account ->
  forall path a, (path, a) ∈ named_paths account ->
                 path ≠ [] /\ Forall (fun t => has_colon t = false) path.
Proof.
  induction account as [n c s p sp ch IH] using Account_tree_ind.
  intros Hok path a Hin.
  set (acct := mkAccount n c s p sp ch) in *.
  destruct (Hok acct (subtree_self acct)) as [_ Hcolon].
  change (children acct) with ch in Hcolon. rewrite Forall_forall in Hcolon.
  change (named_paths acct) with
    (flat_map
       (fun child =>
          ([name child], child) ::
          ((fun pa : list string * Account => (name child :: pa.1, pa.2))
             <$> named_paths child)) ch) in Hin.
  apply list_elem_of_In, in_flat_map in Hin as (child & Hchild & Hin).
  apply list_elem_of_In in Hchild, Hin.
  apply elem_of_cons in Hin as [[= -> ->]|Hin].
  - split; [discriminate|]. repeat constructor. apply Hcolon, Hchild.
  - apply list_elem_of_fmap in Hin as ([path' a'] & [= -> ->] & Hin).
    split; [discriminate|]. constructor; [apply Hcolon, Hchild|].
    rewrite Forall_forall in IH. apply (IH child Hchild) in Hin as [_ H]; [exact H|].
    intros x Hx. apply Hok. apply (subtree_child acct child x Hchild Hx).
Qed.

(** X7. In a book where the children of one account have distinct names and
    no name holds a colon, [get_account] on the names from the root down to
    an account, joined by colons, returns that account. *)
Theorem get_account_full_name (self : BookAnalysis) (path : list string)
    (a : Account) :
  names_ok (root_account self) ->
  (path, a) ∈ named_paths (root_account self) ->
  outcome (get_account self (join_colon path)) = Ok a.
Proof.
  intros Hok Hin. unfold get_account.
  destruct (named_path_tokens _ Hok _ _ Hin) as [Hne Hcolon].
  rewrite split_colon_join by assumption.
  apply walk_named_path; assumption.
Qed.

(** X8. When the names before a part of a full name lead to an account that
    has no child of the name of that part, [get_account] raises [KeyError]
    for that part, whatever follows it. *)
Theorem get_account_missing_part (self : BookAnalysis) (pre post : list string)
    (t : string) (a : Account) :
  Forall (fun t => has_colon t = false) (pre ++ t :: post) ->
  outcome (walk (root_account self) pre) = Ok a ->
  (forall child, child ∈ children a -> name child ≠ t) ->
  outcome (get_account self (join_colon (pre ++ t :: post))) = Raise (KeyError t).
Proof.
  intros Hcolon Hpre Hnone. unfold get_account.
  rewrite split_colon_join; [|destruct pre; discriminate|exact Hcolon].
  rewrite walk_app, Hpre. simpl. rewrite outcome_bind.
  unfold child_named. rewrite (find_unnamed _ _ Hnone). reflexivity.
Qed.

(** In particular the empty full name does not name the root:
    [get_account('')] looks for a child of the root whose name is empty, and
    raises [KeyError] when there is none. *)
Lemma get_account_empty_name (self : BookAnalysis) :
  (forall child, child ∈ children (root_account self) -> name child ≠ "") ->
  outcome (get_account self "") = Raise (KeyError "").
Proof.
  intros Hnone. unfold get_account. simpl. rewrite outcome_bind.
  unfold child_named. rewrite (find_unnamed _ _ Hnone). reflexivity.
Qed.

End Lookup.

(** ** More on price resolution *)

Section ClosestPrice.
Context {N : Numeric}.
Variable prices : list Price.

Abbreviation conversion := (currency_conversion_on_date prices).

(** [min] returns the first of the rows of least key: the rows before it
    have a greater key. *)
Lemma min_from_first (key : Price -> Z) (l : list Price) :
  forall best,
    let m := min_from key best l in
    (m = best /\ forall q, q ∈ l -> key best <= key q) \/
    (exists l1 l2, l = l1 ++ m :: l2 /\ key m < key best /\
                   forall q, q ∈ l1 -> key m < key q).
Proof.
  induction l as [|x l IH]; intros best; simpl.
  - left. split; [reflexivity|]. intros q Hq. inversion Hq.
  - destruct (Z.ltb_spec (key x) (key best)) as [Hlt|Hge].
    + right. destruct (IH x) as [[Hm Hall]|(l1 & l2 & Hl & Hk & Hall)].
      * exists [], l. simpl in *. rewrite Hm. split; [reflexivity|].
        split; [exact Hlt|]. intros q Hq. inversion Hq.
      * exists (x :: l1), l2. simpl in *. split; [f_equal; exact Hl|].
        split; [lia|]. intros q [->|Hq]%elem_of_cons; [exact Hk|apply Hall, Hq].
    + destruct (IH best) as [[Hm Hall]|(l1 & l2 & Hl & Hk & Hall)].
      * left. simpl in *. split; [exact Hm|].
        intros q [->|Hq]%elem_of_cons; [exact Hge|apply Hall, Hq].
      * right. exists (x :: l1), l2. simpl in *. split; [f_equal; exact Hl|].
        split; [exact Hk|]. intros q [->|Hq]%elem_of_cons; [lia|apply Hall, Hq].
Qed.

Lemma py_min_first (key : Price -> Z) (l : list Price) (m : Price) :
  py_min key l = Some m ->
  exists l1 l2, l = l1 ++ m :: l2 /\ forall q, q ∈ l1 -> key m < key q.
Proof.
  destruct l as [|p l]; [discriminate|]. intros [= <-].
  destruct (min_from_first key l p) as [[Hm _]|(l1 & l2 & Hl & Hk & Hall)].
  - exists [], l. rewrite Hm. split; [reflexivity|]. intros q Hq. inversion Hq.
  - exists (p :: l1), l2. split; [simpl; f_equal; exact Hl|].
    intros q [->|Hq]%elem_of_cons; [exact Hk|apply Hall, Hq].
Qed.

Lemma insert_by_date_sorted (p : Price) (l : list Price) :
  StronglySorted by_date l -> StronglySorted by_date (insert_by_date p l).
Proof.
  induction 1 as [|x l Hs IH Hx]; simpl.
  - repeat constructor.
  - destruct (Z.ltb_spec (price_date p) (price_date x)) as [Hlt|Hge].
    + constructor; [constructor; assumption|].
      constructor; [unfold by_date; lia|].
      eapply Forall_impl; [exact Hx|]. unfold by_date. intros q Hq. lia.
    + constructor; [exact IH|].
      apply Forall_forall. intros q Hq. apply elem_of_insert_by_date in Hq as [->|Hq].
      * exact Hge.
      * rewrite Forall_forall in Hx. apply Hx, Hq.
Qed.

Lemma prices_query_sorted (commodity currency : Commodity) :
  StronglySorted by_date (prices_query prices commodity currency).
Proof.
  unfold prices_query, order_by_date.
  induction (filter _ prices) as [|p l IH]; simpl; [constructor|].
  apply insert_by_date_sorted, IH.
Qed.

Lemma sorted_after (l1 l2 : list Price) (m : Price) :
  StronglySorted by_date (l1 ++ m :: l2) ->
  forall q, q ∈ l2 -> price_date m <= price_date q.
Proof.
  induction l1 as [|x l1 IH]; simpl; intros Hs q Hq.
  - apply StronglySorted_inv in Hs as [_ Hall].
    rewrite Forall_forall in Hall. apply Hall, Hq.
  - apply StronglySorted_inv in Hs as [Hs _]. apply IH; assumption.
Qed.

(** The price a direction offers: at the least distance from the date and,
    among the prices at that distance, of the earliest date. *)
Lemma closest_is_earliest (commodity currency : Commodity) (on_date : date)
    (m : Price) :
  py_min (distance on_date) (prices_query prices commodity currency) = Some m ->
  m ∈ prices_query prices commodity currency /\
  forall q, q ∈ prices_query prices commodity currency ->
            distance on_date m <= distance on_date q /\
            (distance on_date q = distance on_date m ->
             price_date m <= price_date q).
Proof.
  intros Hm. pose proof (prices_query_sorted commodity currency) as Hs.
  destruct (py_min_first _ _ _ Hm) as (l1 & l2 & Hl & Hbefore).
  destruct (py_min_spec (distance on_date) (prices_query prices commodity currency))
    as (m' & Hm' & Hin & Hmin).
  { rewrite Hl. destruct l1; discriminate. }
  rewrite Hm in Hm'. injection Hm' as <-.
  split; [exact Hin|]. intros q Hq. split; [apply Hmin, Hq|].
  intros Htie. rewrite Hl in Hq, Hs.
  apply elem_of_app in Hq as [Hq|Hq]; [specialize (Hbefore q Hq); lia|].
  apply elem_of_cons in Hq as [->|Hq]; [lia|].
  eapply sorted_after; eassumption.
Qed.

(** X9. For two distinct commodities, a call not answered from the cache:
    when the table has prices in the forward direction only, the factor is
    the value of the closest forward price; when it has prices in the
    reverse direction only, the factor is the reciprocal of the value of the
    closest reverse price. *)
Theorem one_direction_only (commodity currency : Commodity) (on_date : date)
    (cache : option Cache) :
  commodity ≠ currency ->
  cache_get cache (commodity, currency) on_date = None ->
  (prices_query prices commodity currency ≠ [] ->
   prices_query prices currency commodity = [] ->
   exists f,
     f ∈ prices_query prices commodity currency /\
     (forall p, p ∈ prices_query prices commodity currency ->
                distance on_date f <= distance on_date p) /\
     returned (conversion commodity currency on_date cache) =
       Ok (to_float (price_value f))) /\
  (prices_query prices commodity currency = [] ->
   prices_query prices currency commodity ≠ [] ->
   exists r,
     r ∈ prices_query prices currency commodity /\
     (forall p, p ∈ prices_query prices currency commodity ->
                distance on_date r <= distance on_date p) /\
     returned (conversion commodity currency on_date cache) =
       match dec_recip (price_value r) with
       | Some v => Ok (to_float v)
       | None => Raise ZeroDivisionError
       end).
Proof.
  intros Hne Hmiss. split.
  - intros Hf Hr.
    destruct (py_min_spec (distance on_date) _ Hf) as (f & Ef & Hin & Hmin).
    exists f. split; [exact Hin|]. split; [exact Hmin|].
    unfold returned. rewrite conversion_on_miss by assumption.
    rewrite price_search_outcome, Ef, Hr. reflexivity.
  - intros Hf Hr.
    destruct (py_min_spec (distance on_date) _ Hr) as (r & Er & Hin & Hmin).
    exists r. split; [exact Hin|]. split; [exact Hmin|].
    unfold returned. rewrite conversion_on_miss by assumption.
    rewrite price_search_outcome, Hf, Er.
    unfold recip_value. destruct (dec_recip _); reflexivity.
Qed.

(** X10. For two distinct commodities, a call not answered from the cache:
    when the table has a forward price dated on the very date asked, the
    factor is the value of a forward price of that date, whatever the reverse
    prices. *)
Theorem exact_date_forward_price (commodity currency : Commodity)
    (on_date : date) (cache : option Cache) (p : Price) :
  commodity ≠ currency ->
  cache_get cache (commodity, currency) on_date = None ->
  p ∈ prices_query prices commodity currency ->
  price_date p = on_date ->
  exists f,
    f ∈ prices_query prices commodity currency /\
    price_date f = on_date /\
    returned (conversion commodity currency on_date cache) =
      Ok (to_float (price_value f)).
Proof.
  intros Hne Hmiss Hp Hdate.
  destruct (py_min_spec (distance on_date) (prices_query prices commodity currency))
    as (f & Ef & Hin & Hmin).
  { intros E. rewrite E in Hp. inversion Hp. }
  assert (distance on_date f = 0) as Hzero.
  { specialize (Hmin p Hp). unfold distance in *. rewrite Hdate in Hmin. lia. }
  exists f. split; [exact Hin|]. split; [unfold distance in Hzero; lia|].
  unfold returned. rewrite conversion_on_miss by assumption.
  rewrite price_search_outcome, Ef.
  destruct (py_min _ (prices_query prices currency commodity)) as [r|];
    [|reflexivity].
  rewrite (proj2 (Z.leb_le _ _)); [reflexivity|].
  rewrite Hzero. unfold distance. lia.
Qed.

(** X11. For two distinct commodities with forward prices only, a call not
    answered from the cache: of the forward prices at the least distance
    from the date, one before it and one after it say, the one of the
    earliest date gives the factor. *)
Theorem tie_in_direction_takes_earliest (commodity currency : Commodity)
    (on_date : date) (cache : option Cache) :
  commodity ≠ currency ->
  cache_get cache (commodity, currency) on_date = None ->
  prices_query prices commodity currency ≠ [] ->
  prices_query prices currency commodity = [] ->
  exists f,
    f ∈ prices_query prices commodity currency /\
    (forall q, q ∈ prices_query prices commodity currency ->
               distance on_date f <= distance on_date q /\
               (distance on_date q = distance on_date f ->
                price_date f <= price_date q)) /\
    returned (conversion commodity currency on_date cache) =
      Ok (to_float (price_value f)).
Proof.
  intros Hne Hmiss Hf Hr.
  destruct (py_min_spec (distance on_date) _ Hf) as (f & Ef & _ & _).
  destruct (closest_is_earliest _ _ _ _ Ef) as [Hin Hleast].
  exists f. split; [exact Hin|]. split; [exact Hleast|].
  unfold returned. rewrite conversion_on_miss by assumption.
  rewrite price_search_outcome, Ef, Hr. reflexivity.
Qed.

(** X12. A call of the conversion that returns never removes or changes an
    entry of the cache: every entry is still there with its factor, and no
    entry appears but, at most, the one for the pair and date of the call.
    A call without a cache returns without one. *)
Theorem cache_only_grows (commodity currency : Commodity) (on_date : date)
    (cache cache' : option Cache) (v : flt) :
  outcome (conversion commodity currency on_date cache) = Ok (v, cache') ->
  (forall pair d w, cache_get cache pair d = Some w ->
                    cache_get cache' pair d = Some w) /\
  (forall pair d, (pair, d) ≠ ((commodity, currency), on_date) ->
                  cache_get cache' pair d = cache_get cache pair d) /\
  (cache = None <-> cache' = None).
Proof.
  intros H.
  destruct (decide (commodity = currency)) as [->|Hne].
  { rewrite conversion_same_commodity in H. injection H as <- <-. tauto. }
  destruct (cache_get cache (commodity, currency) on_date) as [w|] eqn:E.
  { rewrite (conversion_on_hit _ _ _ _ _ w) in H by assumption.
    injection H as <- <-. tauto. }
  rewrite conversion_on_miss in H by assumption.
  destruct (outcome (price_search _ _ _ _)) as [v'|e]; [|discriminate].
  injection H as <- <-. split; [|split].
  - intros pair d w Hw. rewrite cache_get_put_other; [exact Hw|].
    intros [= -> ->]. congruence.
  - intros pair d Hne'. apply cache_get_put_other, Hne'.
  - destruct cache; simpl; split; congruence.
Qed.

End ClosestPrice.

(** ** More on the historical balance *)

Section MoreBalance.
Context {N : Numeric}.
Variable prices : list Price.
Variable currency_conversion : Commodity -> Commodity -> option dec.

Abbreviation ghb := (get_historical_balance prices currency_conversion).

(** X13. With a cache coherent with the price table (each factor it holds
    is the one the search finds), [get_historical_balance] returns the float,
    or raises the exception, it returns or raises without a cache; and it
    leaves the cache coherent. *)
Theorem balance_independent_of_cache (account : Account) (recurse : bool)
    (target : option Commodity) (natural_sign : bool) (at_date : option date)
    (cache : option Cache) :
  coherent prices cache ->
  returned (ghb account recurse target natural_sign at_date cache) =
    returned (ghb account recurse target natural_sign at_date None) /\
  forall v cache',
    outcome (ghb account recurse target natural_sign at_date cache) = Ok (v, cache') ->
    coherent prices cache'.
Proof.
  intros Hc. split.
  - rewrite !(balance_returned prices currency_conversion); auto using coherent_None.
  - intros v cache' Hout.
    pose proof (balance_refines prices currency_conversion account recurse target
                  natural_sign at_date cache Hc) as Href.
    unfold refines in Href. rewrite Hout in Href.
    destruct (balance_of _ _ _ _ _ _ _); [apply Href|destruct Href].
Qed.

Lemma sum_over_quiet {A} (f : A -> option Cache -> M (flt * option Cache))
    (l : list A) :
  Forall (fun a => forall cache, exists v, f a cache = (Ok (v, cache), [])) l ->
  forall total cache, exists v, sum_over f l total cache = (Ok (v, cache), []).
Proof.
  induction 1 as [|a l Ha _ IH]; intros total cache; simpl.
  - eexists. reflexivity.
  - destruct (Ha cache) as [b Hb]. rewrite Hb. simpl.
    destruct (IH (flt_add total b) cache) as [v Hv]. rewrite Hv. simpl.
    eexists. reflexivity.
Qed.

(** X14. For an account whose subtree is all in the target commodity, the
    balance at a date or as of now never raises, sends no query to the price
    table and leaves the cache, if any, as it was. *)
Theorem single_commodity_balance (account : Account) :
  forall (recurse : bool) (target : Commodity) (natural_sign : bool)
         (at_date : option date) (cache : option Cache),
    (forall a, a ∈ subtree account -> commodity a = target) ->
    exists v,
      ghb account recurse (Some target) natural_sign at_date cache =
      (Ok (v, cache), []).
Proof.
  induction account as [n c s p sp ch IH] using Account_tree_ind.
  intros recurse target natural_sign at_date cache Hall.
  set (acct := mkAccount n c s p sp ch) in *.
  rewrite ghb_unfold. cbv zeta. simpl default.
  rewrite decide_False.
  2:{ intros H. apply H. symmetry. apply Hall, subtree_self. }
  unfold add_children.
  destruct (recurse && negb (bool_decide (children acct = []))).
  - destruct (sum_over_quiet
                (fun acc cache =>
                   ghb acc recurse (Some target) false at_date cache)
                ch) with (total := flt_of_int 0) (cache := cache)
      as [v Hv].
    { rewrite Forall_forall in IH.
      apply Forall_forall. intros child Hchild cache1.
      apply (IH child Hchild). intros a Ha. apply Hall.
      apply (subtree_child acct child a Hchild Ha). }
    simpl. rewrite Hv. simpl. destruct cache; eexists; reflexivity.
  - simpl. destruct cache; eexists; reflexivity.
Qed.

(** X15. A split whose transaction is posted after [at_date] does not count:
    the balance of the account at that date is the balance without the
    split. *)
Theorem later_split_ignored (n : string) (c : Commodity) (s : Z)
    (p : option Commodity) (before after : list Split) (late : Split)
    (ch : list Account) (recurse : bool) (target : option Commodity)
    (natural_sign : bool) (at_date : date) (cache : option Cache) :
  at_date < post_date late ->
  ghb (mkAccount n c s p (before ++ late :: after) ch) recurse target natural_sign
    (Some at_date) cache =
  ghb (mkAccount n c s p (before ++ after) ch) recurse target natural_sign
    (Some at_date) cache.
Proof.
  intros Hlate. rewrite !ghb_unfold. cbv zeta.
  assert (splits_balance (mkAccount n c s p (before ++ late :: after) ch)
            (Some at_date) =
          splits_balance (mkAccount n c s p (before ++ after) ch) (Some at_date))
    as ->.
  { unfold splits_balance. simpl.
    rewrite !filter_app, filter_cons_False by lia. reflexivity. }
  reflexivity.
Qed.

(** X16. For an account without a parent whose commodity differs from the
    target: when the direct conversion at the date raises
    [PriceNotFoundError], the balance raises [AttributeError], the fallback
    reading the commodity of a parent that is not there. *)
Theorem no_parent_no_fallback (account : Account) (target : Commodity)
    (on_date : date) (recurse natural_sign : bool) (cache0 : option Cache)
    (x y : Commodity) :
  target ≠ commodity account ->
  parent_commodity account = None ->
  outcome (currency_conversion_on_date prices (commodity account) target on_date
             (Some (default ∅ cache0))) = Raise (PriceNotFoundError x y) ->
  outcome (ghb account recurse (Some target) natural_sign (Some on_date) cache0) =
  Raise (AttributeError "commodity").
Proof. apply two_hop_without_parent. Qed.


End MoreBalance.

(** ** More on the top-N reducer *)

Section ReducerShape.
Context {N : Numeric}.

Lemma set_item_label {V} (data : list (string * V)) (label : string) (v : V) :
  label ∈ (set_item data label v).*1.
Proof.
  unfold set_item. destruct (bool_decide (label ∈ data.*1)) eqn:E.
  - apply bool_decide_eq_true in E.
    apply list_elem_of_fmap in E as ([l w] & -> & Hin).
    apply list_elem_of_fmap. exists (l, v). split; [reflexivity|].
    apply list_elem_of_fmap. exists (l, w). split; [|exact Hin].
    simpl. rewrite bool_decide_eq_true_2 by reflexivity. reflexivity.
  - rewrite fmap_app. apply elem_of_app. right. left.
Qed.

(** X19. The output of [top_and_other] always has a category labelled
    "Other", whatever the input and [top_n]: it is never left out, not even
    when nothing is left to sum. *)
Theorem top_and_other_has_Other (in_data : Data) (top_n : Z) :
  "Other" ∈ labels (top_and_other in_data top_n).
Proof. destruct in_data; simpl; apply set_item_label. Qed.

Lemma slice_nonneg {A} (n : Z) (l : list A) :
  0 <= n ->
  slice_to n l = take (Z.to_nat n) l /\ slice_from n l = drop (Z.to_nat n) l.
Proof.
  intros Hn. unfold slice_to, slice_from.
  rewrite (proj2 (Z.leb_le _ _)) by exact Hn. split; reflexivity.
Qed.

Lemma series_shape (s : Series) (top_n : Z) :
  well_formed (ASeries s) ->
  no_clash (ASeries s) top_n ->
  0 <= top_n ->
  top_and_other (ASeries s) top_n =
  ASeries (take (Z.to_nat top_n) (sort_values_desc s) ++
           [("Other", sum_values (drop (Z.to_nat top_n) (sort_values_desc s)).*2)]).
Proof.
  unfold well_formed, no_clash, sorted_labels. intros Hnd Hother Hn. simpl.
  destruct (slice_nonneg top_n (sort_values_desc s).*1 Hn) as [Et Ed].
  rewrite Et in Hother. rewrite Et, Ed.
  rewrite <- fmap_take, <- fmap_drop in *.
  assert (forall rows, rows ⊆ sort_values_desc s -> rows ⊆ s) as Hsub.
  { intros rows Hr x Hx. rewrite <- (sort_values_desc_perm s). apply Hr, Hx. }
  rewrite !select_rows; try exact Hnd.
  - rewrite set_item_fresh by exact Hother. reflexivity.
  - apply Hsub, subseteq_drop.
  - apply Hsub, subseteq_take.
Qed.

(** X20. For a Series of distinct labels, [top_n >= 0] and no retained
    category labelled "Other": the output is a part of the entries of the
    Series, unchanged, followed by "Other" with the sum of the values of all
    the other entries.  [min(top_n, count)] entries are retained, so the
    output has one entry more than that, and when [top_n] is at least the
    number of categories every entry is retained and "Other" is the sum of
    nothing, [0]. *)
Theorem top_and_other_series (s : Series) (top_n : Z) :
  well_formed (ASeries s) ->
  no_clash (ASeries s) top_n ->
  0 <= top_n ->
  exists kept rest : Series,
    top_and_other (ASeries s) top_n =
      ASeries (kept ++ [("Other", sum_values rest.*2)]) /\
    kept ++ rest ≡ₚ s /\
    length kept = Nat.min (Z.to_nat top_n) (length s) /\
    (Z.of_nat (length s) <= top_n ->
     rest = [] /\
     top_and_other (ASeries s) top_n =
       ASeries (kept ++ [("Other", flt_of_int 0)])).
Proof.
  intros Hwf Hother Hn.
  pose proof (series_shape s top_n Hwf Hother Hn) as Hshape.
  assert (length (sort_values_desc s) = length s) as Hlen
    by (apply Permutation_length, sort_values_desc_perm).
  exists (take (Z.to_nat top_n) (sort_values_desc s)),
         (drop (Z.to_nat top_n) (sort_values_desc s)).
  split; [exact Hshape|]. split; [|split].
  - rewrite take_drop. apply sort_values_desc_perm.
  - rewrite length_take, Hlen. reflexivity.
  - intros Hall. rewrite Hshape, drop_ge by lia. split; reflexivity.
Qed.

Hypothesis ltb_asym : forall a b : flt, flt_ltb a b = true -> flt_ltb b a = false.
Hypothesis ltb_trans :
  forall a b c : flt, flt_ltb a b = false -> flt_ltb b c = false ->
                      flt_ltb a c = false.

Lemma insert_desc_sorted (kv : string * flt) (l : Series) :
  StronglySorted not_less l -> StronglySorted not_less (insert_desc kv l).
Proof.
  induction 1 as [|x l Hs IH Hx]; simpl.
  - repeat constructor.
  - destruct (flt_ltb x.2 kv.2) eqn:E.
    + constructor; [constructor; assumption|].
      constructor; [apply ltb_asym, E|].
      eapply Forall_impl; [exact Hx|]. intros z Hz.
      eapply ltb_trans; [apply ltb_asym, E|exact Hz].
    + constructor; [exact IH|].
      apply Forall_forall. intros z Hz.
      rewrite (insert_desc_perm kv l) in Hz.
      apply elem_of_cons in Hz as [->|Hz]; [exact E|].
      rewrite Forall_forall in Hx. apply Hx, Hz.
Qed.

Lemma sort_values_desc_sorted (s : Series) :
  StronglySorted not_less (sort_values_desc s).
Proof.
  induction s as [|kv s IH]; simpl; [constructor|].
  apply insert_desc_sorted, IH.
Qed.

Lemma sorted_take_drop (l : Series) (k : nat) :
  StronglySorted not_less l ->
  forall a b, a ∈ take k l -> b ∈ drop k l -> not_less a b.
Proof.
  intros Hs. revert k. induction Hs as [|x l Hs IH Hx]; intros k a b Ha Hb.
  - rewrite take_nil in Ha. inversion Ha.
  - destruct k as [|k]; [inversion Ha|]. simpl in Ha, Hb.
    apply elem_of_cons in Ha as [->|Ha]; [|eapply IH; eassumption].
    rewrite Forall_forall in Hx. apply Hx.
    eapply subseteq_drop, Hb.
Qed.

(** X21. When the comparison of values is a strict order in which being not
    less is transitive, for a Series of distinct labels, [top_n >= 0] and no
    retained category labelled "Other": no retained category has a value
    less than the value of a category that is not retained. *)
Theorem top_and_other_retains_largest (s out : Series) (top_n : Z)
    (kept left_out : string * flt) :
  well_formed (ASeries s) ->
  no_clash (ASeries s) top_n ->
  0 <= top_n ->
  top_and_other (ASeries s) top_n = ASeries out ->
  kept ∈ out -> kept.1 ≠ "Other" ->
  left_out ∈ s -> left_out.1 ∉ out.*1 ->
  not_less kept left_out.
Proof.
  intros Hwf Hother Hn. rewrite (series_shape s top_n Hwf Hother Hn).
  intros [= <-] Hkept Hlabel Hleft Hout.
  apply elem_of_app in Hkept as [Hkept|Hkept].
  2:{ apply list_elem_of_singleton in Hkept. subst kept. simpl in Hlabel.
      congruence. }
  apply (sorted_take_drop (sort_values_desc s) (Z.to_nat top_n));
    [apply sort_values_desc_sorted|exact Hkept|].
  rewrite <- (sort_values_desc_perm s) in Hleft.
  rewrite <- (take_drop (Z.to_nat top_n) (sort_values_desc s)) in Hleft.
  apply elem_of_app in Hleft as [Hleft|Hleft]; [|exact Hleft].
  exfalso. apply Hout. rewrite fmap_app. apply elem_of_app. left.
  apply list_elem_of_fmap_2, Hleft.
Qed.

End ReducerShape.

(** ** More on the ECB history *)

Section EcbMore.
Context {N : Numeric}.
Variable strptime_date : string -> option date.

Abbreviation range_loop := (rate_range_loop strptime_date).

Lemma outcome_attr (e : Element) (key : string) :
  outcome (attr e key) =
  match attrib e !! key with Some v => Ok v | None => Raise (KeyError key) end.
Proof. unfold attr. destruct (attrib e !! key); reflexivity. Qed.

Lemma outcome_float_of_string (s : string) :
  outcome (float_of_string s) =
  match flt_of_string s with Some f => Ok f | None => Raise ValueError end.
Proof. unfold float_of_string. destruct (flt_of_string s); reflexivity. Qed.

Lemma outcome_parse_date (s : string) :
  outcome (parse_date strptime_date s) =
  match strptime_date s with Some d => Ok d | None => Raise ValueError end.
Proof. unfold parse_date. destruct (strptime_date s); reflexivity. Qed.

Lemma rate_in_raises (cubes : list Element) (currency : string) (e : Exn) :
  outcome (rate_in cubes currency) = Raise e ->
  data_error e \/ e = PriceNotFoundError EUR (mkCommodity currency).
Proof.
  induction cubes as [|c cubes IH]; simpl.
  - intros [= <-]. right. reflexivity.
  - rewrite outcome_bind, outcome_attr.
    destruct (attrib c !! "currency") as [cur|]; simpl;
      [|intros [= <-]; left; exact I].
    destruct (bool_decide (cur = currency)); [|exact IH].
    rewrite outcome_bind, outcome_attr.
    destruct (attrib c !! "rate") as [rate|]; simpl;
      [|intros [= <-]; left; exact I].
    rewrite outcome_float_of_string.
    destruct (flt_of_string rate); simpl; [discriminate|].
    intros [= <-]. left. exact I.
Qed.

Lemma ecb_fx_rate_raises (xml_cube : Element) (to_currency from_currency : string)
    (e : Exn) :
  outcome (ecb_fx_rate xml_cube to_currency from_currency) = Raise e ->
  data_error e \/ exists c cur, e = PriceNotFoundError c cur.
Proof.
  assert (forall currency e,
            outcome (ecb_fx_rate_from_eur xml_cube currency) = Raise e ->
            data_error e \/ exists c cur, e = PriceNotFoundError c cur) as Hfrom.
  { intros currency e' H. apply rate_in_raises in H as [H| ->]; eauto. }
  assert (forall a b e, outcome (divide a b) = Raise e -> data_error e) as Hdiv.
  { intros a b e'. unfold divide. destruct (flt_div a b); simpl;
      [discriminate|intros [= <-]; exact I]. }
  unfold ecb_fx_rate.
  destruct (bool_decide (to_currency = from_currency)); [discriminate|].
  destruct (bool_decide (from_currency = "EUR")); [apply Hfrom|].
  destruct (bool_decide (to_currency = "EUR")).
  - rewrite outcome_bind.
    destruct (outcome (ecb_fx_rate_from_eur xml_cube from_currency)) as [r|e']
      eqn:E; simpl.
    + intros H. left. eapply Hdiv, H.
    + intros [= <-]. apply (Hfrom _ _ E).
  - rewrite outcome_bind.
    destruct (outcome (ecb_fx_rate_from_eur xml_cube to_currency)) as [a|e']
      eqn:Ea; simpl; [|intros [= <-]; apply (Hfrom _ _ Ea)].
    rewrite outcome_bind.
    destruct (outcome (ecb_fx_rate_from_eur xml_cube from_currency)) as [b|e']
      eqn:Eb; simpl; [|intros [= <-]; apply (Hfrom _ _ Eb)].
    intros H. left. eapply Hdiv, H.
Qed.

(** One turn of the loop: the date of the cube, then the entry if any. *)
Lemma range_loop_cons (date_cube : Element) (rest : list Element)
    (start_date end_date : date) (to_currency from_currency : string)
    (exclude_dates : gset Z) (results : gmap Z flt) :
  outcome (range_loop (date_cube :: rest) start_date end_date to_currency
             from_currency exclude_dates results) =
  (d ← outcome (cube_date strptime_date date_cube);
   if bool_decide (start_date < d <= end_date)
      && negb (bool_decide (d ∈ exclude_dates))
   then
     match outcome (ecb_fx_rate date_cube to_currency from_currency) with
     | Ok rate =>
         outcome (range_loop rest start_date end_date to_currency from_currency
                    exclude_dates (<[d := rate]> results))
     | Raise (PriceNotFoundError _ _) =>
         outcome (range_loop rest start_date end_date to_currency from_currency
                    exclude_dates results)
     | Raise e => Raise e
     end
   else
     outcome (range_loop rest start_date end_date to_currency from_currency
                exclude_dates results)).
Proof.
  simpl. unfold cube_date. rewrite !outcome_bind.
  destruct (outcome (attr date_cube "time")) as [time|]; simpl; [|reflexivity].
  rewrite !outcome_bind.
  destruct (outcome (parse_date strptime_date time)) as [d|]; simpl; [|reflexivity].
  rewrite outcome_bind.
  destruct (bool_decide (start_date < d <= end_date)
            && negb (bool_decide (d ∈ exclude_dates))); [|reflexivity].
  rewrite outcome_or_warn, outcome_bind.
  destruct (outcome (ecb_fx_rate date_cube to_currency from_currency)) as [rate|[]];
    reflexivity.
Qed.

Lemma range_loop_raises (date_cubes : list Element) (start_date end_date : date)
    (to_currency from_currency : string) (exclude_dates : gset Z) :
  forall (results : gmap Z flt) (e : Exn),
    outcome (range_loop date_cubes start_date end_date to_currency from_currency
               exclude_dates results) = Raise e ->
    data_error e.
Proof.
  induction date_cubes as [|date_cube rest IH]; intros results e; [discriminate|].
  rewrite range_loop_cons. unfold cube_date. rewrite outcome_bind, outcome_attr.
  destruct (attrib date_cube !! "time") as [time|]; simpl;
    [|intros [= <-]; exact I].
  rewrite outcome_parse_date.
  destruct (strptime_date time) as [d|]; simpl; [|intros [= <-]; exact I].
  destruct (_ && _); [|apply IH].
  destruct (outcome (ecb_fx_rate date_cube to_currency from_currency))
    as [rate|e'] eqn:E; [apply IH|].
  destruct (ecb_fx_rate_raises _ _ _ _ E) as [Hd|(c & cur & ->)]; [|apply IH].
  destruct e'; try destruct Hd; intros [= <-]; exact I.
Qed.

(** X22. [ecb_fx_rate_range] never raises [PriceNotFoundError]: a date
    without the rate asked for is left out.  It raises [BadDataError] exactly
    when the root has no top-level Cube; its other exceptions are those of
    ill-formed data ([KeyError], [ValueError], [ZeroDivisionError]). *)
Theorem rate_range_exceptions (xml_root : Element) (start_date end_date : date)
    (to_currency from_currency : string) (exclude_dates : option (gset Z)) :
  (forall c cur,
     outcome (ecb_fx_rate_range strptime_date xml_root start_date end_date
                to_currency from_currency exclude_dates) ≠
     Raise (PriceNotFoundError c cur)) /\
  (outcome (ecb_fx_rate_range strptime_date xml_root start_date end_date
              to_currency from_currency exclude_dates) = Raise BadDataError <->
   find_child xml_root = None) /\
  (forall e,
     outcome (ecb_fx_rate_range strptime_date xml_root start_date end_date
                to_currency from_currency exclude_dates) = Raise e ->
     e = BadDataError \/ data_error e).
Proof.
  unfold ecb_fx_rate_range.
  destruct (find_child xml_root) as [top_cube|].
  - split; [|split].
    + intros c cur H. apply range_loop_raises in H. exact H.
    + split; [|discriminate]. intros H. apply range_loop_raises in H. destruct H.
    + intros e H. right. eapply range_loop_raises, H.
  - split; [discriminate|]. split; [tauto|]. intros e [= <-]. left. reflexivity.
Qed.

(** X23. The mapping [ecb_fx_rate_range] returns has no entry for a date of
    [exclude_dates]. *)
Theorem rate_range_excluded (xml_root : Element) (start_date end_date : date)
    (to_currency from_currency : string) (exclude_dates : gset Z)
    (m : gmap Z flt) (d : date) :
  outcome (ecb_fx_rate_range strptime_date xml_root start_date end_date
             to_currency from_currency (Some exclude_dates)) = Ok m ->
  d ∈ exclude_dates ->
  m !! d = None.
Proof.
  intros Hm Hd. unfold ecb_fx_rate_range in Hm.
  destruct (find_child xml_root) as [top_cube|]; [|discriminate].
  destruct (m !! d) eqn:E; [|reflexivity].
  destruct (rate_range_loop_dates _ _ _ _ _ _ _ _ _ Hm d (mk_is_Some _ _ E))
    as [He|[_ Hn]].
  - rewrite lookup_empty in He. destruct He; discriminate.
  - destruct (Hn Hd).
Qed.

Lemma range_loop_app (pre rest : list Element) (start_date end_date : date)
    (to_currency from_currency : string) (exclude_dates : gset Z) :
  forall results : gmap Z flt,
    outcome (range_loop (pre ++ rest) start_date end_date to_currency
               from_currency exclude_dates results) =
    (r ← outcome (range_loop pre start_date end_date to_currency from_currency
                    exclude_dates results);
     outcome (range_loop rest start_date end_date to_currency from_currency
                exclude_dates r)).
Proof.
  induction pre as [|c pre IH]; intros results; [reflexivity|].
  rewrite <- app_comm_cons, !range_loop_cons.
  destruct (outcome (cube_date strptime_date c)) as [d|]; simpl; [|reflexivity].
  destruct (_ && _); [|apply IH].
  destruct (outcome (ecb_fx_rate c to_currency from_currency)) as [rate|[]];
    try reflexivity; apply IH.
Qed.

Lemma range_loop_other_dates (post : list Element) (start_date end_date : date)
    (to_currency from_currency : string) (exclude_dates : gset Z) (d : date) :
  (forall c, c ∈ post -> outcome (cube_date strptime_date c) ≠ Ok d) ->
  forall results m : gmap Z flt,
    outcome (range_loop post start_date end_date to_currency from_currency
               exclude_dates results) = Ok m ->
    m !! d = results !! d.
Proof.
  induction post as [|c post IH]; intros Hother results m Hm.
  - injection Hm as <-. reflexivity.
  - rewrite range_loop_cons in Hm.
    assert (forall c', c' ∈ post -> outcome (cube_date strptime_date c') ≠ Ok d)
      as Hpost by (intros c' Hc'; apply Hother; right; exact Hc').
    pose proof (Hother c ltac:(left)) as Hc.
    destruct (outcome (cube_date strptime_date c)) as [d'|]; [|discriminate].
    simpl in Hm. destruct (_ && _); [|apply (IH Hpost _ _ Hm)].
    destruct (outcome (ecb_fx_rate c to_currency from_currency)) as [rate|e].
    + rewrite (IH Hpost _ _ Hm). apply lookup_insert_ne. congruence.
    + destruct e; try discriminate. apply (IH Hpost _ _ Hm).
Qed.

(** X24. When [ecb_fx_rate_range] returns, a date cube whose date is after
    [start_date], at most [end_date] and not excluded, and whose rate for
    the pair is found, gives the entry of its date, provided no later date
    cube of the file has the same date (a later one would overwrite it). *)
Theorem rate_range_entry (xml_root top_cube date_cube : Element)
    (pre post : list Element) (start_date end_date d : date)
    (to_currency from_currency : string) (exclude_dates : option (gset Z))
    (rate : flt) (m : gmap Z flt) :
  find_child xml_root = Some top_cube ->
  findall_children top_cube = pre ++ date_cube :: post ->
  outcome (cube_date strptime_date date_cube) = Ok d ->
  start_date < d <= end_date ->
  d ∉ default ∅ exclude_dates ->
  outcome (ecb_fx_rate date_cube to_currency from_currency) = Ok rate ->
  (forall c, c ∈ post -> outcome (cube_date strptime_date c) ≠ Ok d) ->
  outcome (ecb_fx_rate_range strptime_date xml_root start_date end_date
             to_currency from_currency exclude_dates) = Ok m ->
  m !! d = Some rate.
Proof.
  intros Htop Hcubes Hdate Hrange Hex Hrate Hpost Hm.
  unfold ecb_fx_rate_range in Hm. rewrite Htop, Hcubes in Hm.
  rewrite range_loop_app in Hm.
  destruct (outcome (range_loop pre _ _ _ _ _ _)) as [r|]; [|discriminate].
  change (outcome (range_loop (date_cube :: post) start_date end_date to_currency
                     from_currency (default ∅ exclude_dates) r) = Ok m) in Hm.
  rewrite range_loop_cons, Hdate in Hm. simpl in Hm.
  rewrite bool_decide_eq_true_2 in Hm by exact Hrange.
  rewrite bool_decide_eq_false_2 in Hm by exact Hex.
  simpl in Hm. rewrite Hrate in Hm.
  rewrite (range_loop_other_dates _ _ _ _ _ _ _ Hpost _ _ Hm).
  apply lookup_insert_eq.
Qed.

End EcbMore.

(** ** Balances of several accounts *)

Section SeveralAccounts.
Context {N : Numeric}.
Variable prices : list Price.
Variable currency_conversion : Commodity -> Commodity -> option dec.

Abbreviation ghb := (get_historical_balance prices currency_conversion).

Lemma set_item_labels {V} (data : list (string * V)) (label : string) (v : V) :
  (set_item data label v).*1 =
  if bool_decide (label ∈ data.*1) then data.*1 else data.*1 ++ [label].
Proof.
  unfold set_item. destruct (bool_decide (label ∈ data.*1)).
  - rewrite <- list_fmap_compose. apply list_fmap_ext. intros _ [l w] _. simpl.
    destruct (bool_decide (l = label)) eqn:E; [|reflexivity].
    apply bool_decide_eq_true in E. simpl. congruence.
  - rewrite fmap_app. reflexivity.
Qed.

Lemma set_item_other {V} (data : list (string * V)) (label : string) (v : V)
    (kv : string * V) :
  kv.1 ≠ label -> kv ∈ set_item data label v <-> kv ∈ data.
Proof.
  intros Hne. unfold set_item. destruct (bool_decide (label ∈ data.*1)).
  - rewrite list_elem_of_fmap. split.
    + intros ([l w] & -> & Hin). simpl in *.
      destruct (bool_decide (l = label)); [simpl in Hne; congruence|exact Hin].
    + intros Hin. exists kv. split; [|exact Hin].
      rewrite bool_decide_eq_false_2 by exact Hne. reflexivity.
  - rewrite elem_of_app, list_elem_of_singleton. split; [|auto].
    intros [H| ->]; [exact H|simpl in Hne; congruence].
Qed.

Lemma set_item_this {V} (data : list (string * V)) (label : string) (v : V) :
  (label, v) ∈ set_item data label v.
Proof.
  unfold set_item. destruct (bool_decide (label ∈ data.*1)) eqn:E.
  - apply bool_decide_eq_true in E.
    apply list_elem_of_fmap in E as ([l w] & -> & Hin).
    apply list_elem_of_fmap. exists (l, w). split; [|exact Hin].
    simpl. rewrite bool_decide_eq_true_2 by reflexivity. reflexivity.
  - apply elem_of_app. right. left.
Qed.

Lemma balances_loop_labels (self : BookAnalysis) (at_date : option date)
    (currency : option Commodity) (account_names : list string) :
  forall (acc series : Series),
    NoDup acc.*1 ->
    outcome (balances_loop prices currency_conversion self account_names at_date
               currency acc) = Ok series ->
    NoDup series.*1 /\
    forall label,
      label ∈ series.*1 <->
      label ∈ acc.*1 \/
      exists full a, full ∈ account_names /\
                     outcome (get_account self full) = Ok a /\ name a = label.
Proof.
  induction account_names as [|full rest IH]; intros acc series Hnd Hs; simpl in Hs.
  - injection Hs as <-. split; [exact Hnd|]. intros label. split; [auto|].
    intros [H|(full & a & Hin & _)]; [exact H|inversion Hin].
  - rewrite outcome_bind in Hs.
    destruct (outcome (get_account self full)) as [a|] eqn:Ea; [|discriminate].
    simpl in Hs. rewrite outcome_bind in Hs.
    destruct (outcome (ghb a true currency true at_date None)) as [[b c]|];
      [|discriminate].
    simpl in Hs. apply IH in Hs as [Hnd' Hlab].
    2:{ rewrite set_item_labels. destruct (bool_decide (name a ∈ acc.*1)) eqn:E;
          [exact Hnd|].
        apply bool_decide_eq_false in E. apply NoDup_app. split; [exact Hnd|].
        split; [|apply NoDup_singleton].
        intros x Hx Hx'. apply list_elem_of_singleton in Hx'. congruence. }
    split; [exact Hnd'|]. intros label. rewrite Hlab, set_item_labels. split.
    + intros [H|(full' & a' & Hin & Hrest)].
      * destruct (bool_decide (name a ∈ acc.*1)); [left; exact H|].
        apply elem_of_app in H as [H|H]; [left; exact H|].
        apply list_elem_of_singleton in H. right. exists full, a.
        split; [left|auto].
      * right. exists full', a'. split; [right; exact Hin|exact Hrest].
    + intros [H|(full' & a' & Hin & Hget & Hname)].
      * left. destruct (bool_decide (name a ∈ acc.*1)); [exact H|].
        apply elem_of_app. left. exact H.
      * apply elem_of_cons in Hin as [->|Hin]; [|right; eauto].
        left. rewrite Ea in Hget. injection Hget as <-. rewrite Hname.
        destruct (bool_decide (label ∈ acc.*1)) eqn:E;
          [apply bool_decide_eq_true in E; exact E|].
        apply elem_of_app. right. left.
Qed.

Lemma balances_loop_last (self : BookAnalysis) (at_date : option date)
    (currency : option Commodity) (post : list string) (label : string) :
  (forall full a, full ∈ post -> outcome (get_account self full) = Ok a ->
                  name a ≠ label) ->
  forall (acc series : Series) (kv : string * flt),
    kv.1 = label ->
    outcome (balances_loop prices currency_conversion self post at_date
               currency acc) = Ok series ->
    kv ∈ acc -> kv ∈ series.
Proof.
  induction post as [|full rest IH]; intros Hother acc series kv Hkv Hs Hin;
    simpl in Hs.
  - injection Hs as <-. exact Hin.
  - rewrite outcome_bind in Hs.
    destruct (outcome (get_account self full)) as [a|] eqn:Ea; [|discriminate].
    simpl in Hs. rewrite outcome_bind in Hs.
    destruct (outcome (ghb a true currency true at_date None)) as [[b c]|];
      [|discriminate].
    simpl in Hs. eapply IH; [|exact Hkv|exact Hs|].
    + intros full' a' Hin'. apply Hother. right. exact Hin'.
    + apply set_item_other; [|exact Hin].
      rewrite Hkv. intros Heq. eapply Hother; [left|exact Ea|]. congruence.
Qed.

(** X26. The Series [balances] returns is keyed by the last part of the
    names: its labels are distinct and are the names [acct.name] of the
    accounts listed, so two listed accounts with the same last part share one
    entry; the entry of an account holds its balance unless a later listed
    account has the same [acct.name]. *)
Theorem balances_by_leaf_name (self : BookAnalysis) (account_names : list string)
    (at_date : option date) (currency : option CurrencyArg) (series : Series) :
  outcome (balances prices currency_conversion self account_names at_date
             currency) = Ok series ->
  NoDup series.*1 /\
  (forall label,
     label ∈ series.*1 <->
     exists full a, full ∈ account_names /\
                    outcome (get_account self full) = Ok a /\ name a = label) /\
  exists target,
    outcome (resolve_currency self currency) = Ok target /\
    forall pre full post a b,
      account_names = pre ++ full :: post ->
      outcome (get_account self full) = Ok a ->
      returned (ghb a true target true at_date None) = Ok b ->
      (forall full' a', full' ∈ post -> outcome (get_account self full') = Ok a' ->
                        name a' ≠ name a) ->
      (name a, b) ∈ series.
Proof.
  intros Hs. unfold balances in Hs. rewrite outcome_bind in Hs.
  destruct (outcome (resolve_currency self currency)) as [target|] eqn:Er;
    [|discriminate].
  simpl in Hs.
  destruct (balances_loop_labels self at_date target account_names [] series)
    as [Hnd Hlab]; [constructor|exact Hs|].
  split; [exact Hnd|]. split.
  - intros label. rewrite Hlab. split; [|auto].
    intros [H|H]; [inversion H|exact H].
  - exists target. split; [reflexivity|].
    intros pre full post a b -> Ha Hb Hlater.
    assert (forall acc : Series,
              outcome (balances_loop prices currency_conversion self
                         (pre ++ full :: post) at_date target acc) = Ok series ->
              (name a, b) ∈ series) as Hgen; [|apply (Hgen [] Hs)].
    clear Hs Hnd Hlab. induction pre as [|x pre IH]; intros acc Hs.
    + simpl in Hs. rewrite outcome_bind, Ha in Hs. simpl in Hs.
      rewrite outcome_bind in Hs. unfold returned in Hb.
      destruct (outcome (ghb a true target true at_date None)) as [[b' c]|];
        [|discriminate].
      simpl in Hb, Hs. injection Hb as ->.
      eapply (balances_loop_last self at_date target post (name a));
        [exact Hlater|reflexivity|exact Hs|apply set_item_this].
    + simpl in Hs. rewrite outcome_bind in Hs.
      destruct (outcome (get_account self x)) as [ax|]; [|discriminate].
      simpl in Hs. rewrite outcome_bind in Hs.
      destruct (outcome (ghb ax true target true at_date None)) as [[bx cx]|];
        [|discriminate].
      simpl in Hs. eapply IH, Hs.
Qed.

Lemma accumulate_lookup (total acct_balances : gmap string flt) (code : string) :
  is_Some (accumulate total acct_balances !! code) <->
  is_Some (total !! code) \/ is_Some (acct_balances !! code).
Proof.
  unfold accumulate. rewrite lookup_merge.
  destruct (total !! code), (acct_balances !! code); simpl;
    rewrite ?is_Some_alt; intuition (eauto; try tauto).
Qed.

Lemma agg_by_currency_loop_keys (self : BookAnalysis) (at_date : option date)
    (currency : option Commodity) (account_names : list string) :
  forall (total m : gmap string flt),
    outcome (agg_by_currency_loop prices currency_conversion self account_names
               at_date currency total) = Ok m ->
    forall code,
      is_Some (m !! code) <->
      is_Some (total !! code) \/
      exists full a series,
        full ∈ account_names /\ outcome (get_account self full) = Ok a /\
        outcome (balance_by_currency_of prices currency_conversion a at_date
                   currency) = Ok series /\
        is_Some (series !! code).
Proof.
  induction account_names as [|full rest IH]; intros total m Hm code; simpl in Hm.
  - injection Hm as <-. split; [auto|].
    intros [H|(full & a & series & Hin & _)]; [exact H|inversion Hin].
  - rewrite outcome_bind in Hm.
    destruct (outcome (get_account self full)) as [a|] eqn:Ea; [|discriminate].
    simpl in Hm. rewrite outcome_bind in Hm.
    destruct (outcome (balance_by_currency_of _ _ a at_date currency))
      as [series|] eqn:Es; [|discriminate].
    simpl in Hm. rewrite (IH _ _ Hm code), accumulate_lookup. split.
    + intros [[H|H]|(full' & a' & s' & Hin & Hrest)]; [auto| |].
      * right. exists full, a, series. split; [left|auto].
      * right. exists full', a', s'. split; [right; exact Hin|exact Hrest].
    + intros [H|(full' & a' & s' & Hin & Hget & Hser & Hcode)]; [auto|].
      apply elem_of_cons in Hin as [->|Hin].
      * left. right. rewrite Ea in Hget. injection Hget as <-.
        rewrite Es in Hser. injection Hser as <-. exact Hcode.
      * right. eauto 8.
Qed.

(** X27. The mapping [agg_balance_by_currency] returns has an entry under a
    currency code exactly when the breakdown by currency of one of the listed
    accounts has one. *)
Theorem agg_balance_by_currency_keys (self : BookAnalysis)
    (account_names : list string) (at_date : option date)
    (currency : option CurrencyArg) (m : gmap string flt) :
  outcome (agg_balance_by_currency prices currency_conversion self account_names
             at_date currency) = Ok m ->
  exists target,
    outcome (resolve_currency self currency) = Ok target /\
    forall code,
      is_Some (m !! code) <->
      exists full a series,
        full ∈ account_names /\ outcome (get_account self full) = Ok a /\
        outcome (balance_by_currency_of prices currency_conversion a at_date
                   target) = Ok series /\
        is_Some (series !! code).
Proof.
  intros Hm. unfold agg_balance_by_currency in Hm. rewrite outcome_bind in Hm.
  destruct (outcome (resolve_currency self currency)) as [target|] eqn:Er;
    [|discriminate].
  simpl in Hm. exists target. split; [reflexivity|]. intros code.
  rewrite (agg_by_currency_loop_keys _ _ _ _ _ _ Hm code). split; [|auto].
  intros [H|H]; [|exact H]. rewrite lookup_empty in H. destruct H; discriminate.
Qed.

End SeveralAccounts.

(** ** Concrete runs of the further properties *)

Ltac by_computation := apply (bool_decide_unpack _); vm_compute; exact I.

Lemma date_range_positive_step_witness :
  date_range 10 1 11 3 =
    Some (progression 1 3 (steps 1 11 3), range_end 1 3 (steps 1 11 3)) /\
  (forall d, d ∈ progression 1 3 (steps 1 11 3) -> 1 <= d < 11) /\
  11 <= 1 + Z.of_nat (steps 1 11 3) * 3.
Proof.
  apply (date_range_positive_step 1 11 3 10); by_computation.
Defined.

Example date_range_run_example :
  date_range 10 1 11 3 = Some ([1; 4; 7; 10], Exhausted).
Proof. reflexivity. Qed.

(** The last day but one, a week's step: one date, then [OverflowError]. *)
Example date_range_overflow_example :
  date_range 10 (date_max - 1) date_max 7 = Some ([date_max - 1], Overflowed).
Proof. reflexivity. Qed.

Lemma date_range_zero_step_witness : date_range 100 1 2 0 = None.
Proof.
  apply (date_range_zero_step 1 2 100); by_computation.
Defined.

Lemma date_range_negative_step_witness :
  date_range 10 5 6 (-2) =
    Some (progression 5 (-2) (steps_down 5 (-2)), Overflowed) /\
  forall d, d ∈ progression 5 (-2) (steps_down 5 (-2)) -> date_min <= d <= 5.
Proof.
  apply (date_range_negative_step 5 6 (-2) 10); by_computation.
Defined.

Example date_range_negative_step_example :
  date_range 10 5 6 (-2) = Some ([5; 3; 1], Overflowed).
Proof. reflexivity. Qed.

Lemma balance_over_time_series_witness :
  exists r,
    balance_over_time to_usd no_gnc book "Bank:Sterling" 5 1 4 2
      (Some (ByCode "USD")) = Some r /\
    forall series,
      seen r = Returns series ->
      series.*1 = progression 1 2 (steps 1 4 2) /\
      exists target,
        outcome (resolve_currency book (Some (ByCode "USD"))) = Ok target /\
        forall d b,
          (d, b) ∈ series ->
          exists account,
            outcome (get_account book "Bank:Sterling") = Ok account /\
            returned (get_historical_balance to_usd no_gnc account true target
                        true (Some d) None) = Ok b.
Proof.
  apply (balance_over_time_series to_usd no_gnc book "Bank:Sterling" 5 1 4 2
           (Some (ByCode "USD"))); by_computation.
Defined.

Example balance_over_time_example :
  seen <$> balance_over_time to_usd no_gnc book "Bank:Sterling" 5 1 4 2
             (Some (ByCode "USD")) =
  Some (Returns [(1, 130 # 1); (3, 130 # 1)]).
Proof. reflexivity. Qed.

Lemma balance_over_time_overflow_witness :
  exists r,
    balance_over_time to_usd no_gnc book "Bank:Sterling" 5 (date_max - 1)
      date_max 7 (Some (ByCode "USD")) = Some r /\
    forall series, seen r <> Returns series.
Proof.
  apply (balance_over_time_overflow to_usd no_gnc book "Bank:Sterling" 5
           (date_max - 1) date_max 7 (Some (ByCode "USD"))); by_computation.
Defined.

Example balance_over_time_overflow_example :
  seen <$> balance_over_time to_usd no_gnc book "Bank:Sterling" 5 (date_max - 1)
             date_max 7 (Some (ByCode "USD")) =
  Some RaisesOverflowError.
Proof. reflexivity. Qed.

Lemma balance_over_time_empty_range_witness :
  outcome (get_account book "No such account") = Raise (KeyError "No such account") /\
  seen <$> balance_over_time to_usd no_gnc book "No such account" 1 4 4 0 None =
  Some (Returns []).
Proof.
  split; [reflexivity|].
  apply (balance_over_time_empty_range to_usd no_gnc book "No such account" 0 4 4
           0 None None); [lia|reflexivity].
Defined.

Lemma agg_balance_over_time_raises_witness :
  seen <$> agg_balance_over_time to_usd no_gnc book ["Bank"; "Bank:Sterling"] 1
             1 4 2 (Some (ByCode "USD")) None =
  Some (match outcome (get_account book "Bank") with
        | Ok _ => Raises (TypeError "via")
        | Raise e => Raises e
        end).
Proof.
  apply (agg_balance_over_time_raises to_usd no_gnc book "Bank" ["Bank:Sterling"]
           0 1 4 2 (Some (ByCode "USD")) None (Some USD)); [lia|reflexivity].
Defined.

Lemma get_account_full_name_witness :
  outcome (get_account book (join_colon ["Bank"; "Sterling"])) = Ok sterling.
Proof.
  apply (get_account_full_name book ["Bank"; "Sterling"] sterling).
  - intros a Ha. apply list_elem_of_In in Ha. simpl in Ha.
    destruct Ha as [<-|[<-|[<-|[]]]]; split; simpl;
      repeat constructor; set_solver.
  - apply list_elem_of_In. simpl. right. left. reflexivity.
Defined.

Lemma get_account_missing_part_witness :
  outcome (get_account book (join_colon (["Bank"] ++ "Dollars" :: ["Old"]))) =
  Raise (KeyError "Dollars").
Proof.
  apply (get_account_missing_part book ["Bank"] ["Old"] "Dollars" bank).
  - repeat constructor.
  - reflexivity.
  - intros child Hc. apply list_elem_of_In in Hc. simpl in Hc.
    destruct Hc as [<-|[]]. discriminate.
Defined.

Lemma one_direction_only_witness :
  (prices_query forward_only USD EUR ≠ [] ->
   prices_query forward_only EUR USD = [] ->
   exists f,
     f ∈ prices_query forward_only USD EUR /\
     (forall p, p ∈ prices_query forward_only USD EUR ->
                distance 3 f <= distance 3 p) /\
     returned (currency_conversion_on_date forward_only USD EUR 3 None) =
       Ok (to_float (price_value f))) /\
  (prices_query forward_only USD EUR = [] ->
   prices_query forward_only EUR USD ≠ [] ->
   exists r,
     r ∈ prices_query forward_only EUR USD /\
     (forall p, p ∈ prices_query forward_only EUR USD ->
                distance 3 r <= distance 3 p) /\
     returned (currency_conversion_on_date forward_only USD EUR 3 None) =
       match dec_recip (price_value r) with
       | Some v => Ok (to_float v)
       | None => Raise ZeroDivisionError
       end).
Proof.
  apply (one_direction_only (N := numeric) forward_only USD EUR 3 None);
    [discriminate|reflexivity].
Defined.

Example reverse_only_example :
  returned (currency_conversion_on_date reverse_only USD EUR 3 None) = Ok (1 # 2).
Proof. reflexivity. Qed.

Lemma exact_date_forward_price_witness :
  mkPrice USD EUR 10 (23 # 25) ∈ prices_query both_ways USD EUR /\
  exists f,
    f ∈ prices_query both_ways USD EUR /\
    price_date f = 10 /\
    returned (currency_conversion_on_date both_ways USD EUR 10 None) =
      Ok (to_float (price_value f)).
Proof.
  assert (mkPrice USD EUR 10 (23 # 25) ∈ prices_query both_ways USD EUR) as Hin.
  { apply list_elem_of_In. vm_compute. right. left. reflexivity. }
  split; [exact Hin|].
  apply (exact_date_forward_price (N := numeric) both_ways USD EUR 10 None _
           ltac:(discriminate) eq_refl Hin eq_refl).
Defined.

Lemma tie_in_direction_takes_earliest_witness :
  exists f,
    f ∈ prices_query forward_only USD EUR /\
    (forall q, q ∈ prices_query forward_only USD EUR ->
               distance 3 f <= distance 3 q /\
               (distance 3 q = distance 3 f -> price_date f <= price_date q)) /\
    returned (currency_conversion_on_date forward_only USD EUR 3 None) =
      Ok (to_float (price_value f)).
Proof.
  apply (tie_in_direction_takes_earliest (N := numeric) forward_only USD EUR 3 None);
    [discriminate|reflexivity|discriminate|reflexivity].
Defined.

(** The price of day 1 is used, not the price of day 5. *)
Example earliest_of_tie_example :
  returned (currency_conversion_on_date forward_only USD EUR 3 None) = Ok (3 # 1).
Proof. reflexivity. Qed.

Lemma cache_only_grows_witness :
  outcome (currency_conversion_on_date both_ways USD EUR 3 other_pair_cache) =
    Ok (9 # 10, cache_put other_pair_cache (USD, EUR) 3 (9 # 10)) /\
  (forall pair d w,
     cache_get other_pair_cache pair d = Some w ->
     cache_get (cache_put other_pair_cache (USD, EUR) 3 (9 # 10)) pair d = Some w) /\
  (forall pair d,
     (pair, d) ≠ ((USD, EUR), 3) ->
     cache_get (cache_put other_pair_cache (USD, EUR) 3 (9 # 10)) pair d =
     cache_get other_pair_cache pair d) /\
  (other_pair_cache = None <->
   cache_put other_pair_cache (USD, EUR) 3 (9 # 10) = None).
Proof.
  split; [reflexivity|].
  apply (cache_only_grows (N := numeric) both_ways USD EUR 3 other_pair_cache
           (cache_put other_pair_cache (USD, EUR) 3 (9 # 10)) (9 # 10)).
  reflexivity.
Defined.

Lemma balance_independent_of_cache_witness :
  coherent both_ways rated_cache /\
  returned (get_historical_balance both_ways no_gnc checking true (Some EUR) true
              (Some 3) rated_cache) =
    returned (get_historical_balance both_ways no_gnc checking true (Some EUR) true
                (Some 3) None) /\
  forall v cache',
    outcome (get_historical_balance both_ways no_gnc checking true (Some EUR) true
               (Some 3) rated_cache) = Ok (v, cache') ->
    coherent both_ways cache'.
Proof.
  assert (coherent both_ways rated_cache) as Hc.
  { apply coherent_put; [discriminate|apply coherent_empty|reflexivity]. }
  split; [exact Hc|].
  apply (balance_independent_of_cache (N := numeric) both_ways no_gnc checking
           true (Some EUR) true (Some 3) _ Hc).
Defined.

Lemma single_commodity_balance_witness :
  (forall a, a ∈ subtree liabilities -> commodity a = EUR) /\
  exists v,
    get_historical_balance hop_prices no_gnc liabilities true (Some EUR) true
      (Some 10) (Some ∅) = (Ok (v, Some ∅), []).
Proof.
  assert (forall a, a ∈ subtree liabilities -> commodity a = EUR) as Hall.
  { intros a Ha. apply list_elem_of_In in Ha. simpl in Ha.
    destruct Ha as [<-|[<-|[]]]; reflexivity. }
  split; [exact Hall|].
  apply (single_commodity_balance (N := numeric) hop_prices no_gnc liabilities true EUR true
           (Some 10) (Some ∅) Hall).
Defined.

Lemma later_split_ignored_witness :
  5 < post_date (mkSplit (7 # 1) 9) /\
  get_historical_balance hop_prices no_gnc
    (mkAccount "Checking" USD 1 (Some GBP)
       ([mkSplit (100 # 1) 1] ++ mkSplit (7 # 1) 9 :: [mkSplit (1 # 1) 5]) [])
    true (Some EUR) true (Some 5) None =
  get_historical_balance hop_prices no_gnc
    (mkAccount "Checking" USD 1 (Some GBP)
       ([mkSplit (100 # 1) 1] ++ [mkSplit (1 # 1) 5]) [])
    true (Some EUR) true (Some 5) None.
Proof.
  split; [simpl; lia|].
  apply (later_split_ignored (N := numeric) hop_prices no_gnc "Checking" USD 1
           (Some GBP) [mkSplit (N := numeric) (100 # 1) 1]
           [mkSplit (N := numeric) (1 # 1) 5] (mkSplit (N := numeric) (7 # 1) 9)
           [] true (Some EUR) true 5 None).
  simpl. lia.
Defined.

Lemma no_parent_no_fallback_witness :
  USD ≠ commodity liabilities /\
  parent_commodity liabilities = None /\
  outcome (currency_conversion_on_date hop_prices (commodity liabilities) USD 5
             (Some (default ∅ None))) = Raise (PriceNotFoundError EUR USD) /\
  outcome (get_historical_balance hop_prices no_gnc liabilities true (Some USD)
             true (Some 5) None) = Raise (AttributeError "commodity").
Proof.
  split; [discriminate|]. split; [reflexivity|]. split; [reflexivity|].
  apply (no_parent_no_fallback (N := numeric) hop_prices no_gnc liabilities USD 5 true true None
           EUR USD); [discriminate|reflexivity|reflexivity].
Defined.


(** A reverse price of value zero: the reciprocal raises. *)
Example zero_reverse_price :
  outcome (currency_conversion_on_date [mkPrice EUR USD 4 (0 # 1)] USD EUR 3 None) =
  Raise ZeroDivisionError.
Proof. reflexivity. Qed.

Lemma Q_ltb_compare (a b : Q) :
  flt_ltb (Numeric := numeric) a b =
  match Qcompare a b with Lt => true | _ => false end.
Proof. reflexivity. Qed.

Lemma Q_ltb_asym (a b : Q) :
  flt_ltb (Numeric := numeric) a b = true ->
  flt_ltb (Numeric := numeric) b a = false.
Proof.
  rewrite !Q_ltb_compare, <- (Qcompare_antisym a b).
  destruct (Qcompare a b); simpl; congruence.
Qed.

Lemma Q_ltb_false (a b : Q) :
  flt_ltb (Numeric := numeric) a b = false <-> (b <= a)%Q.
Proof.
  rewrite Q_ltb_compare. split.
  - intros H. apply Qnot_lt_le. intros Hlt.
    pose proof (proj1 (Qlt_alt a b) Hlt) as E. rewrite E in H. discriminate.
  - intros Hle. destruct (Qcompare a b) eqn:E; try reflexivity.
    destruct (Qle_not_lt _ _ Hle (proj2 (Qlt_alt a b) E)).
Qed.

Lemma Q_ltb_trans (a b c : Q) :
  flt_ltb (Numeric := numeric) a b = false ->
  flt_ltb (Numeric := numeric) b c = false ->
  flt_ltb (Numeric := numeric) a c = false.
Proof.
  rewrite !Q_ltb_false. intros Hab Hbc. eapply Qle_trans; eassumption.
Qed.

Lemma top_and_other_row_totals_witness :
  well_formed expenses_qc /\
  no_clash expenses_qc 2 /\
  row_totals (top_and_other expenses_qc 2) = row_totals expenses_qc.
Proof.
  assert (well_formed expenses_qc) as Hwf by by_computation.
  assert (no_clash expenses_qc 2) as Hclash by by_computation.
  split; [exact Hwf|]. split; [exact Hclash|].
  apply (top_and_other_row_totals (N := QcNum.numeric)
           Qcplus_assoc Qcplus_comm Qcplus_0_l expenses_qc 2 Hwf Hclash).
Defined.

Lemma top_and_other_series_witness :
  exists kept rest : Series,
    top_and_other (ASeries expenses) 2 =
      ASeries (kept ++ [("Other", sum_values rest.*2)]) /\
    kept ++ rest ≡ₚ expenses /\
    length kept = Nat.min (Z.to_nat 2) (length expenses) /\
    (Z.of_nat (length expenses) <= 2 ->
     rest = [] /\
     top_and_other (ASeries expenses) 2 =
       ASeries (kept ++ [("Other", flt_of_int 0)])).
Proof.
  assert (well_formed (ASeries expenses)) as Hwf by by_computation.
  assert (no_clash (ASeries expenses) 2) as Hclash by by_computation.
  apply (top_and_other_series (N := numeric) expenses 2 Hwf Hclash). lia.
Defined.

Example top_and_other_example :
  top_and_other (ASeries expenses) 2 =
  ASeries [("Rent", 5 # 1); ("Fuel", 4 # 1); ("Other", 4 # 1)].
Proof. reflexivity. Qed.

(** Every category retained, "Other" is there and is zero. *)
Example top_and_other_all_retained :
  top_and_other (ASeries expenses) 10 =
  ASeries [("Rent", 5 # 1); ("Fuel", 4 # 1); ("Food", 3 # 1); ("Gifts", 1 # 1);
           ("Other", 0 # 1)].
Proof. reflexivity. Qed.

Lemma top_and_other_retains_largest_witness :
  top_and_other (ASeries expenses) 2 =
    ASeries [("Rent", 5 # 1); ("Fuel", 4 # 1); ("Other", 4 # 1)] /\
  not_less (N := numeric) ("Fuel", 4 # 1) ("Food", 3 # 1).
Proof.
  split; [reflexivity|].
  apply (top_and_other_retains_largest (N := numeric) Q_ltb_asym Q_ltb_trans
           expenses [("Rent", 5 # 1); ("Fuel", 4 # 1); ("Other", 4 # 1)] 2
           ("Fuel", 4 # 1) ("Food", 3 # 1)).
  - by_computation.
  - by_computation.
  - lia.
  - reflexivity.
  - apply list_elem_of_In. simpl. auto.
  - discriminate.
  - apply list_elem_of_In. simpl. auto.
  - by_computation.
Defined.

Lemma rate_range_excluded_witness :
  outcome (ecb_fx_rate_range day_number ecb_root 0 5 "USD" "EUR" (Some {[ 3 ]})) =
    Ok (<[1 := 7 # 1]> {[ 5 := 2 # 1 ]}) /\
  (<[1 := 7 # 1]> {[ 5 := 2 # 1 ]} : gmap Z flt) !! 3 = None.
Proof.
  split; [vm_compute; reflexivity|].
  apply (rate_range_excluded (N := numeric) day_number ecb_root 0 5 "USD" "EUR"
           {[ 3 ]} _ 3); [vm_compute; reflexivity|set_solver].
Defined.

Lemma rate_range_entry_witness :
  outcome (cube_date day_number (day_cube "3" [("USD", "3")])) = Ok 3 /\
  outcome (ecb_fx_rate (day_cube "3" [("USD", "3")]) "USD" "EUR") = Ok (3 # 1) /\
  outcome (ecb_fx_rate_range day_number ecb_root 1 5 "USD" "EUR" None) =
    Ok (<[3 := 3 # 1]> {[ 5 := 2 # 1 ]}) /\
  (<[3 := 3 # 1]> {[ 5 := 2 # 1 ]} : gmap Z flt) !! 3 = Some (3 # 1).
Proof.
  split; [reflexivity|]. split; [reflexivity|]. split; [vm_compute; reflexivity|].
  apply (rate_range_entry (N := numeric) day_number ecb_root
           (mkElement ecb_Cube ∅
              [day_cube "5" [("USD", "2"); ("GBP", "4")];
               day_cube "3" [("USD", "3")];
               day_cube "1" [("USD", "7"); ("GBP", "1")]])
           (day_cube "3" [("USD", "3")])
           [day_cube "5" [("USD", "2"); ("GBP", "4")]]
           [day_cube "1" [("USD", "7"); ("GBP", "1")]]
           1 5 3 "USD" "EUR" None (3 # 1)).
  - reflexivity.
  - reflexivity.
  - reflexivity.
  - lia.
  - set_solver.
  - reflexivity.
  - intros c Hc. apply list_elem_of_In in Hc. simpl in Hc.
    destruct Hc as [<-|[]]. discriminate.
  - vm_compute. reflexivity.
Defined.

Lemma balances_by_leaf_name_witness :
  outcome (balances [] no_gnc wallets ["Cash:Wallet"; "Savings:Wallet"] (Some 1)
             None) = Ok [("Wallet", 20 # 1)] /\
  NoDup ([("Wallet", 20 # 1)] : Series).*1 /\
  (forall label,
     label ∈ ([("Wallet", 20 # 1)] : Series).*1 <->
     exists full a, full ∈ ["Cash:Wallet"; "Savings:Wallet"] /\
                    outcome (get_account wallets full) = Ok a /\ name a = label) /\
  exists target,
    outcome (resolve_currency wallets None) = Ok target /\
    forall pre full post a b,
      ["Cash:Wallet"; "Savings:Wallet"] = pre ++ full :: post ->
      outcome (get_account wallets full) = Ok a ->
      returned (get_historical_balance [] no_gnc a true target true (Some 1) None) =
        Ok b ->
      (forall full' a', full' ∈ post -> outcome (get_account wallets full') = Ok a' ->
                        name a' ≠ name a) ->
      (name a, b) ∈ ([("Wallet", 20 # 1)] : Series).
Proof.
  split; [reflexivity|].
  apply (balances_by_leaf_name (N := numeric) [] no_gnc wallets
           ["Cash:Wallet"; "Savings:Wallet"] (Some 1) None).
  reflexivity.
Defined.

Lemma agg_balance_by_currency_keys_witness :
  outcome (agg_balance_by_currency to_usd no_gnc book ["Bank"; "Bank:Sterling"]
             (Some 1) (Some (ByCode "USD"))) =
    Ok (<["EUR" := 110 # 1]> {["GBP" := 260 # 1]}) /\
  exists target,
    outcome (resolve_currency book (Some (ByCode "USD"))) = Ok target /\
    forall code,
      is_Some ((<["EUR" := 110 # 1]> {["GBP" := 260 # 1]} : gmap string flt) !! code) <->
      exists full a series,
        full ∈ ["Bank"; "Bank:Sterling"] /\
        outcome (get_account book full) = Ok a /\
        outcome (balance_by_currency_of to_usd no_gnc a (Some 1) target) = Ok series /\
        is_Some (series !! code).
Proof.
  split; [vm_compute; reflexivity|].
  apply (agg_balance_by_currency_keys (N := numeric) to_usd no_gnc book
           ["Bank"; "Bank:Sterling"] (Some 1) (Some (ByCode "USD"))).
  vm_compute. reflexivity.
Defined.
